(** * Sales and invoicing engine of carpinteria-node

    A shallow embedding of the checkout, cancellation and invoicing code of
    [src/models/Venta.js], [src/models/Factura.js] and
    [src/controllers/VentaController.js], with the read handlers of
    [src/controllers/FacturaController.js] and the answers of
    [src/providers/ResponseProvider.js], over the relational schema of
    [seeds/carpinteria.sql].

    Conventions of the embedding.
    - A table is the list of its rows, in storage order; a [SELECT] without
      [ORDER BY] returns the matching rows in that order.
    - Integer columns ([INT]) are integers of [Z]; amounts ([DECIMAL(10,2)])
      are integers of [Z] counting hundredths, so that the product
      [cantidad * precio] and the sums of the code are exact.  The rows of
      a store hold values inside the range of their column.  The two
      amounts the code computes before it writes them, the subtotal of a
      line and the total of a sale, are checked against that range by the
      store, as MySQL does in strict mode, its default; the amounts it
      copies from one row to another, the unit price of a sale line and the
      amount of an invoice, are in range already.
    - The [Usuarios] table is not represented: every [id_usuario] found in
      [Carritos] or [Ventas] refers to an existing user (foreign keys), so
      the inner joins with [Usuarios] keep every row.
    - Text is ASCII ([string]); [ORDER BY] on text, [LIKE 'p%'] and [=] are
      the byte-wise lexicographic order, the prefix test and equality, which
      is what the collations of MySQL give on the digit strings the code
      writes.
    - Columns the code never reads to decide anything (timestamps,
      descriptions, category and supplier) are left out.
    - A function of the models is an action on the system: the committed
      store, the clock and the health of the store.  Inside
      [beginTransaction ... commit] the statements of the connection work
      on a copy of the store that [commit] publishes and [rollback] drops;
      the statements sent through the pool ([db.execute]) see the committed
      store.  The store may reject any statement, the commit included: this
      is what the [catch] blocks of the code are there for.
    - Requests are served one at a time, except in the sections on
      overlapping issuances and on overlapping checkouts, where the
      statements of two requests are interleaved by hand. *)

From Stdlib Require Import List ZArith Bool Lia String Ascii.
From Stdlib Require Import OrderedTypeEx.
Import ListNotations.
Local Open Scope string_scope.
Local Open Scope Z_scope.

(** ** Rows and tables *)

Inductive EstadoProducto := DISPONIBLE | AGOTADO | DESCONTINUADO.
Inductive EstadoVenta := COMPLETADA | CANCELADA.
Inductive EstadoFactura := EMITIDA | PAGADA | ANULADA.

Definition estado_producto_eqb (a b : EstadoProducto) : bool :=
  match a, b with
  | DISPONIBLE, DISPONIBLE | AGOTADO, AGOTADO | DESCONTINUADO, DESCONTINUADO => true
  | _, _ => false
  end.

Definition estado_venta_eqb (a b : EstadoVenta) : bool :=
  match a, b with
  | COMPLETADA, COMPLETADA | CANCELADA, CANCELADA => true
  | _, _ => false
  end.

Definition estado_factura_eqb (a b : EstadoFactura) : bool :=
  match a, b with
  | EMITIDA, EMITIDA | PAGADA, PAGADA | ANULADA, ANULADA => true
  | _, _ => false
  end.

(** [Productos]. *)
Record Producto := mkProducto {
  id_producto : Z;
  nombre_producto : string;
  precio : Z;
  stock : Z;
  estado : EstadoProducto
}.

(** [Carritos]. *)
Record Carrito := mkCarrito {
  id_carrito : Z;
  c_id_usuario : Z
}.

(** [Productos_Carrito]. *)
Record ProductoCarrito := mkProductoCarrito {
  pc_id_carrito : Z;
  pc_id_producto : Z;
  pc_cantidad : Z
}.

(** [Ventas]. *)
Record Venta := mkVenta {
  id_venta : Z;
  v_id_usuario : Z;
  total_venta : Z;
  estado_venta : EstadoVenta
}.

(** [Detalles_Venta]. *)
Record DetalleVenta := mkDetalleVenta {
  id_detalle_venta : Z;
  dv_id_venta : Z;
  dv_id_producto : Z;
  dv_cantidad : Z;
  precio_unitario : Z;
  subtotal_linea : Z
}.

(** [Facturas]. *)
Record Factura := mkFactura {
  id_factura : Z;
  f_id_venta : Z;
  numero_factura : string;
  monto_total : Z;
  f_estado : EstadoFactura
}.

(** The store: the six tables and the [AUTO_INCREMENT] counters of the three
    tables the engine inserts into. *)
Record DB := mkDB {
  Carritos : list Carrito;
  Productos_Carrito : list ProductoCarrito;
  Productos : list Producto;
  Ventas : list Venta;
  Detalles_Venta : list DetalleVenta;
  Facturas : list Factura;
  auto_venta : Z;
  auto_detalle : Z;
  auto_factura : Z
}.

(** ** Errors

    The code throws [Error] objects told apart by their message only; each
    constructor stands for one message. *)
Inductive Error :=
| CarritoNoEncontrado
    (* 'No se encontró un carrito para este usuario' *)
| CarritoVacio
    (* 'El carrito está vacío o no contiene productos disponibles' *)
| StockInsuficiente (nombre : string) (disponible solicitado : Z)
    (* `Stock insuficiente para ${nombre}. Disponible: ..., Solicitado: ...` *)
| VentaNoEncontrada
    (* 'Venta no encontrada' *)
| VentaNoCancelable
    (* 'Venta no encontrada o no se puede cancelar' *)
| VentaNoCompletada
    (* 'Venta no encontrada o no está completada' *)
| FacturaYaGenerada
    (* 'Esta venta ya tiene una factura generada' *)
| FacturaNoEncontrada
    (* 'Factura no encontrada' *)
| FacturaNoPagable
    (* 'Factura no encontrada o ya está pagada' *)
| FacturaNoAnulable
    (* 'Factura no encontrada o no se puede anular' *)
| EntradaDuplicada (clave : string)
    (* the store rejects an INSERT that breaks a UNIQUE key *)
| FueraDeRango (columna : string)
    (* the store rejects a value outside the range of its column *)
| AlmacenNoDisponible.
    (* the store rejects a statement: connection lost, lock timeout, ... *)

Inductive Resultado (A : Type) : Type :=
| Exito (a : A)
| Fallo (e : Error).
Arguments Exito {A} a.
Arguments Fallo {A} e.

(** ** JavaScript text helpers used by the invoice numbering *)

(** The character of a decimal digit. *)
Definition digito (d : Z) : ascii := ascii_of_N (48 + Z.to_N d).

(** The decimal digits of a natural number, at most [cuantas] of them, in
    front of [acc]. *)
Fixpoint cifras (cuantas : nat) (n : Z) (acc : string) : string :=
  match cuantas with
  | O => acc
  | S resto =>
      if n / 10 =? 0 then String (digito (n mod 10)) acc
      else cifras resto (n / 10) (String (digito (n mod 10)) acc)
  end.

(** [String(n)] for an integer [n]: JavaScript writes an integer of at most
    twenty-one digits with all its digits. *)
Definition String_de_Z (z : Z) : string :=
  if z <? 0 then String "-" (cifras 21 (- z) EmptyString)
  else cifras 21 z EmptyString.

Fixpoint repetir (n : nat) (c : ascii) : string :=
  match n with
  | O => EmptyString
  | S k => String c (repetir k c)
  end.

(** [s.padStart(n, c)] for a one-character filler. *)
Definition padStart (n : nat) (c : ascii) (s : string) : string :=
  repetir (n - String.length s) c ++ s.

(** [s.slice(-n)]: the last [n] characters, the whole text when it is
    shorter. *)
Definition slice_final (n : nat) (s : string) : string :=
  substring (String.length s - n) n s.

Definition es_espacio (c : ascii) : bool :=
  let k := N_of_ascii c in
  ((9 <=? k) && (k <=? 13))%N || (k =? 32)%N.

Fixpoint quitar_espacios (s : string) : string :=
  match s with
  | String c r => if es_espacio c then quitar_espacios r else s
  | EmptyString => EmptyString
  end.

(** The value of a character as a digit, letters counting from ten. *)
Definition valor_digito (c : ascii) : option Z :=
  let k := Z.of_N (N_of_ascii c) in
  if (48 <=? k) && (k <=? 57) then Some (k - 48)
  else if (97 <=? k) && (k <=? 122) then Some (k - 87)
  else if (65 <=? k) && (k <=? 90) then Some (k - 55)
  else None.

(** Reads the longest run of digits of the radix; [None] when there is
    none. *)
Fixpoint leer_digitos (radix : Z) (s : string) (acc : option Z) : option Z :=
  match s with
  | String c r =>
      match valor_digito c with
      | Some d =>
          if d <? radix
          then leer_digitos radix r
                 (Some (match acc with Some a => a * radix + d | None => d end))
          else acc
      | None => acc
      end
  | EmptyString => acc
  end.

(** [parseInt(s)] without a radix; [None] is [NaN].  Leading white space is
    dropped, then a sign, then the prefix [0x] or [0X] of a hexadecimal
    number. *)
Definition parseInt (s : string) : option Z :=
  let s1 := quitar_espacios s in
  let '(negativo, s2) :=
    match s1 with
    | String c r =>
        if Ascii.eqb c "-" then (true, r)
        else if Ascii.eqb c "+" then (false, r)
        else (false, s1)
    | EmptyString => (false, s1)
    end in
  let '(radix, s3) :=
    match s2 with
    | String c (String x r) =>
        if Ascii.eqb c "0" && (Ascii.eqb x "x" || Ascii.eqb x "X")
        then (16, r) else (10, s2)
    | _ => (10, s2)
    end in
  match leer_digitos radix s3 None with
  | Some v => Some (if negativo then - v else v)
  | None => None
  end.

(** [String(x)] for the result of number arithmetic, [NaN] included. *)
Definition String_de_numero (x : option Z) : string :=
  match x with
  | Some z => String_de_Z z
  | None => "NaN"
  end.

(** ** The monad of the code: state and thrown errors

    An action runs on a state and either returns a value or throws; the
    state it leaves behind is kept in both cases, so that what a failed
    transaction had written is there to be rolled back. *)

Definition Accion (S A : Type) : Type := S -> Resultado A * S.

Definition ret {S A} (a : A) : Accion S A := fun s => (Exito a, s).

Definition lanzar {S A} (e : Error) : Accion S A := fun s => (Fallo e, s).

Definition bind {S A B} (m : Accion S A) (k : A -> Accion S B) : Accion S B :=
  fun s =>
    match m s with
    | (Exito a, s1) => k a s1
    | (Fallo e, s1) => (Fallo e, s1)
    end.

Notation "x <- m ;; k" := (bind m (fun x => k))
  (at level 61, m at next level, right associativity).
Notation "m ;;; k" := (bind m (fun _ => k))
  (at level 61, right associativity).

(** [for (const x of xs) { await cuerpo(x) }]. *)
Fixpoint para_cada {S X} (cuerpo : X -> Accion S unit) (xs : list X)
  : Accion S unit :=
  match xs with
  | [] => ret tt
  | x :: resto => cuerpo x ;;; para_cada cuerpo resto
  end.

(** [new Date()]: [getFullYear()] and the zero-based [getMonth()]. *)
Record Fecha := mkFecha {
  fullYear : Z;
  month : Z
}.

(** What the process runs against: the committed store that the pool
    ([db.execute]) reads and writes, the clock, and the health of the
    store.  [averia = Some n] means that the store accepts [n] more
    statements and rejects the next one; [None] that it rejects none. *)
Record Sistema := mkSistema {
  almacen : DB;
  hoy : Fecha;
  averia : option nat
}.

(** A connection taken from the pool with a transaction open: the
    transaction's working copy of the store, and the system outside. *)
Record Conexion := mkConexion {
  trabajo : DB;
  fuera : Sistema
}.

(** One statement reaches the store. *)
Definition pulso : Accion Sistema unit :=
  fun s =>
    match averia s with
    | None => (Exito tt, s)
    | Some O => (Fallo AlmacenNoDisponible, mkSistema (almacen s) (hoy s) None)
    | Some (S n) => (Exito tt, mkSistema (almacen s) (hoy s) (Some n))
    end.

(** A statement is a function of the store that returns rows or a result
    and the store after it, or is rejected and leaves the store as it was. *)
Definition Sentencia (A : Type) : Type := DB -> Resultado (A * DB).

(** [connection.execute(...)] inside a transaction. *)
Definition execute {A} (q : Sentencia A) : Accion Conexion A :=
  fun c =>
    match pulso (fuera c) with
    | (Fallo e, s1) => (Fallo e, mkConexion (trabajo c) s1)
    | (Exito _, s1) =>
        match q (trabajo c) with
        | Exito (a, d1) => (Exito a, mkConexion d1 s1)
        | Fallo e => (Fallo e, mkConexion (trabajo c) s1)
        end
    end.

(** [db.execute(...)]: a statement on a connection of the pool, outside any
    transaction; it sees the committed store and commits at once. *)
Definition db_execute {A} (q : Sentencia A) : Accion Sistema A :=
  fun s =>
    match pulso s with
    | (Fallo e, s1) => (Fallo e, s1)
    | (Exito _, s1) =>
        match q (almacen s1) with
        | Exito (a, d1) => (Exito a, mkSistema d1 (hoy s1) (averia s1))
        | Fallo e => (Fallo e, s1)
        end
    end.

(** A call made from inside the [try] block that does not go through the
    transaction's connection. *)
Definition por_el_pool {A} (m : Accion Sistema A) : Accion Conexion A :=
  fun c =>
    match m (fuera c) with
    | (r, s1) => (r, mkConexion (trabajo c) s1)
    end.

(** [getConnection(); try { beginTransaction(); cuerpo; commit() }
     catch (error) { rollback(); throw error } finally { release() }].
    The working copy starts as the committed store; [commit] publishes it,
    [rollback] drops it.  The commit is itself a statement the store may
    reject. *)
Definition conTransaccion {A} (cuerpo : Accion Conexion A) : Accion Sistema A :=
  fun s =>
    match cuerpo (mkConexion (almacen s) s) with
    | (Exito a, c1) =>
        match pulso (fuera c1) with
        | (Exito _, s2) => (Exito a, mkSistema (trabajo c1) (hoy s2) (averia s2))
        | (Fallo e, s2) => (Fallo e, s2)
        end
    | (Fallo e, c1) => (Fallo e, fuera c1)
    end.

(** A [SELECT]. *)
Definition seleccionar {A} (q : DB -> A) : Sentencia A :=
  fun d => Exito (q d, d).

(** An [UPDATE] or [DELETE] whose result the code does not read. *)
Definition modificar (u : DB -> DB) : Sentencia unit :=
  fun d => Exito (tt, u d).

(** ** Statements of [Venta.js] *)

(** A row of the cart query of [procesarVentaDesdeCarrito]. *)
Record LineaCarrito := mkLineaCarrito {
  l_id_producto : Z;
  l_cantidad : Z;
  l_nombre_producto : string;
  l_precio : Z;
  l_stock : Z;
  l_subtotal : Z
}.

(** [SELECT c.id_carrito FROM Carritos c WHERE c.id_usuario = ?]. *)
Definition sel_carrito (idUsuario : Z) (d : DB) : list Carrito :=
  filter (fun c => c_id_usuario c =? idUsuario) (Carritos d).

(** The rows one cart row gives in the join
    [Productos_Carrito pc INNER JOIN Productos p ON pc.id_producto =
     p.id_producto ... AND p.estado = 'DISPONIBLE'], with the columns
    [pc.id_producto, pc.cantidad, p.nombre_producto, p.precio, p.stock,
     (pc.cantidad * p.precio) as subtotal]. *)
Definition unir_producto (pc : ProductoCarrito) (ps : list Producto)
  : list LineaCarrito :=
  flat_map
    (fun p =>
       if (pc_id_producto pc =? id_producto p)
          && estado_producto_eqb (estado p) DISPONIBLE
       then [mkLineaCarrito (pc_id_producto pc) (pc_cantidad pc)
               (nombre_producto p) (precio p) (stock p)
               (pc_cantidad pc * precio p)]
       else [])
    ps.

(** [SELECT ... FROM Productos_Carrito pc INNER JOIN Productos p ON ...
     WHERE pc.id_carrito = ? AND p.estado = 'DISPONIBLE']. *)
Definition sel_productos_carrito (idCarrito : Z) (d : DB) : list LineaCarrito :=
  flat_map
    (fun pc =>
       if pc_id_carrito pc =? idCarrito then unir_producto pc (Productos d)
       else [])
    (Productos_Carrito d).

(** The store after [INSERT INTO Ventas (id_usuario, total_venta,
     estado_venta) VALUES (?, ?, 'COMPLETADA')]: the new row takes the next
    [AUTO_INCREMENT] value. *)
Definition poner_venta (idUsuario total : Z) (d : DB) : DB :=
  mkDB (Carritos d) (Productos_Carrito d) (Productos d)
       (Ventas d ++ [mkVenta (auto_venta d) idUsuario total COMPLETADA])
       (Detalles_Venta d) (Facturas d)
       (auto_venta d + 1) (auto_detalle d) (auto_factura d).

(** The values of a [DECIMAL(10,2)] column, in hundredths: up to
    99999999.99 either side of zero. *)
Definition decimal_10_2 (x : Z) : bool :=
  (-9999999999 <=? x) && (x <=? 9999999999).

(** The [INSERT INTO Ventas]; its value is [insertId].  The total is
    computed by the code: in strict mode, the default of MySQL, a total
    outside the range of [total_venta] is rejected. *)
Definition insertar_venta (idUsuario total : Z) : Sentencia Z :=
  fun d =>
    if decimal_10_2 total
    then Exito (auto_venta d, poner_venta idUsuario total d)
    else Fallo (FueraDeRango "total_venta").

(** The store after [INSERT INTO Detalles_Venta (id_venta, id_producto,
     cantidad, precio_unitario, subtotal_linea) VALUES (?, ?, ?, ?, ?)]. *)
Definition poner_detalle (idVenta : Z) (producto : LineaCarrito) (d : DB) : DB :=
  mkDB (Carritos d) (Productos_Carrito d) (Productos d) (Ventas d)
       (Detalles_Venta d ++
          [mkDetalleVenta (auto_detalle d) idVenta
             (l_id_producto producto) (l_cantidad producto)
             (l_precio producto) (l_subtotal producto)])
       (Facturas d)
       (auto_venta d) (auto_detalle d + 1) (auto_factura d).

(** The [INSERT INTO Detalles_Venta].  The subtotal is computed by the cart
    query: one outside the range of [subtotal_linea] is rejected. *)
Definition insertar_detalle (idVenta : Z) (producto : LineaCarrito)
  : Sentencia unit :=
  fun d =>
    if decimal_10_2 (l_subtotal producto)
    then Exito (tt, poner_detalle idVenta producto d)
    else Fallo (FueraDeRango "subtotal_linea").

Definition con_Productos (d : DB) (ps : list Producto) : DB :=
  mkDB (Carritos d) (Productos_Carrito d) ps (Ventas d) (Detalles_Venta d)
       (Facturas d) (auto_venta d) (auto_detalle d) (auto_factura d).

Definition con_Ventas (d : DB) (vs : list Venta) : DB :=
  mkDB (Carritos d) (Productos_Carrito d) (Productos d) vs (Detalles_Venta d)
       (Facturas d) (auto_venta d) (auto_detalle d) (auto_factura d).

Definition con_Facturas (d : DB) (fs : list Factura) : DB :=
  mkDB (Carritos d) (Productos_Carrito d) (Productos d) (Ventas d)
       (Detalles_Venta d) fs (auto_venta d) (auto_detalle d) (auto_factura d).

Definition con_Productos_Carrito (d : DB) (pcs : list ProductoCarrito) : DB :=
  mkDB (Carritos d) pcs (Productos d) (Ventas d) (Detalles_Venta d)
       (Facturas d) (auto_venta d) (auto_detalle d) (auto_factura d).

(** The row of a product after
    [SET stock = stock - ?, estado = CASE WHEN stock - ? <= 0 THEN 'AGOTADO'
     ELSE estado END].
    MySQL evaluates the assignments of a single-table [UPDATE] from left to
    right, so the [stock] read by the [CASE] is the one just assigned. *)
Definition descontar (cantidad : Z) (p : Producto) : Producto :=
  let stock1 := stock p - cantidad in
  mkProducto (id_producto p) (nombre_producto p) (precio p) stock1
    (if stock1 - cantidad <=? 0 then AGOTADO else estado p).

(** [UPDATE Productos SET ... WHERE id_producto = ?] of the checkout. *)
Definition descontar_stock (cantidad idProducto : Z) (d : DB) : DB :=
  con_Productos d
    (map (fun p => if id_producto p =? idProducto then descontar cantidad p else p)
         (Productos d)).

(** [DELETE FROM Productos_Carrito WHERE id_carrito = ?]. *)
Definition vaciar_carrito (idCarrito : Z) (d : DB) : DB :=
  con_Productos_Carrito d
    (filter (fun pc => negb (pc_id_carrito pc =? idCarrito)) (Productos_Carrito d)).

(** The row of a product after
    [SET stock = stock + ?, estado = CASE WHEN estado = 'AGOTADO' AND
     stock + ? > 0 THEN 'DISPONIBLE' ELSE estado END], with the same
    left-to-right evaluation. *)
Definition reponer (cantidad : Z) (p : Producto) : Producto :=
  let stock1 := stock p + cantidad in
  mkProducto (id_producto p) (nombre_producto p) (precio p) stock1
    (if estado_producto_eqb (estado p) AGOTADO && (stock1 + cantidad >? 0)
     then DISPONIBLE else estado p).

(** [UPDATE Productos SET ... WHERE id_producto = ?] of the compensations. *)
Definition reponer_stock (cantidad idProducto : Z) (d : DB) : DB :=
  con_Productos d
    (map (fun p => if id_producto p =? idProducto then reponer cantidad p else p)
         (Productos d)).

(** [UPDATE Ventas SET estado_venta = 'CANCELADA' WHERE id_venta = ?]. *)
Definition marcar_venta_cancelada (idVenta : Z) (d : DB) : DB :=
  con_Ventas d
    (map (fun v => if id_venta v =? idVenta
                   then mkVenta (id_venta v) (v_id_usuario v) (total_venta v) CANCELADA
                   else v)
         (Ventas d)).

(** [SELECT id_producto, cantidad FROM Detalles_Venta WHERE id_venta = ?]. *)
Definition sel_detalles (idVenta : Z) (d : DB) : list DetalleVenta :=
  filter (fun dv => dv_id_venta dv =? idVenta) (Detalles_Venta d).

(** [SELECT * FROM Ventas WHERE id_venta = ? AND id_usuario = ?
     AND estado_venta = 'COMPLETADA']. *)
Definition sel_venta_cancelable (idVenta idUsuario : Z) (d : DB) : list Venta :=
  filter (fun v => (id_venta v =? idVenta) && (v_id_usuario v =? idUsuario)
                   && estado_venta_eqb (estado_venta v) COMPLETADA)
         (Ventas d).

(** [ORDER BY clave], ascending, by insertion. *)
Fixpoint insertar_ordenado {A} (clave : A -> Z) (x : A) (l : list A) : list A :=
  match l with
  | [] => [x]
  | y :: r => if clave x <? clave y then x :: l
              else y :: insertar_ordenado clave x r
  end.

Definition ordenar_por {A} (clave : A -> Z) (l : list A) : list A :=
  fold_left (fun acc x => insertar_ordenado clave x acc) l [].

(** A sale line joined with its product, as the read paths return it. *)
Record DetalleConProducto := mkDetalleConProducto {
  dp_detalle : DetalleVenta;
  dp_nombre_producto : string;
  dp_precio_actual : Z
}.

(** [SELECT dv.*, p.nombre_producto, ... FROM Detalles_Venta dv INNER JOIN
     Productos p ON dv.id_producto = p.id_producto WHERE dv.id_venta = ?
     ORDER BY dv.id_detalle_venta]. *)
Definition sel_detalles_con_producto (idVenta : Z) (d : DB)
  : list DetalleConProducto :=
  ordenar_por (fun r => id_detalle_venta (dp_detalle r))
    (flat_map
       (fun dv =>
          if dv_id_venta dv =? idVenta then
            flat_map
              (fun p => if dv_id_producto dv =? id_producto p
                        then [mkDetalleConProducto dv (nombre_producto p) (precio p)]
                        else [])
              (Productos d)
          else [])
       (Detalles_Venta d)).

(** The object returned by [obtenerVentaPorId]: [{...ventaData, detalles}]. *)
Record VentaCompleta := mkVentaCompleta {
  ventaData : Venta;
  detalles : list DetalleConProducto
}.

(** ** [Venta.js] *)

Definition obtenerVentaPorId (idVenta : Z) : Accion Sistema VentaCompleta :=
  venta <- db_execute
             (seleccionar (fun d => filter (fun v => id_venta v =? idVenta) (Ventas d))) ;;
  match venta with
  | [] => lanzar VentaNoEncontrada
  | v0 :: _ =>
      dets <- db_execute (seleccionar (sel_detalles_con_producto idVenta)) ;;
      ret (mkVentaCompleta v0 dets)
  end.

(** Step 3, the stock validation loop. *)
Definition validar_stock {S} (productosCarrito : list LineaCarrito)
  : Accion S unit :=
  para_cada
    (fun producto =>
       if l_cantidad producto >? l_stock producto
       then lanzar (StockInsuficiente (l_nombre_producto producto)
                      (l_stock producto) (l_cantidad producto))
       else ret tt)
    productosCarrito.

(** Step 4, [productosCarrito.reduce((total, producto) =>
     total + Number(producto.subtotal), 0)].  The subtotals are decimals
    with two places; their sum, written to a [DECIMAL(10,2)] column, is
    the exact sum as long as it stays in the range of the column. *)
Definition totalVenta (productosCarrito : list LineaCarrito) : Z :=
  fold_left (fun total producto => total + l_subtotal producto) productosCarrito 0.

(** The body of the transaction of [procesarVentaDesdeCarrito]; its value is
    [idVenta]. *)
Definition cuerpo_procesarVenta (idUsuario : Z) : Accion Conexion Z :=
  carrito <- execute (seleccionar (sel_carrito idUsuario)) ;;
  match carrito with
  | [] => lanzar CarritoNoEncontrado
  | c0 :: _ =>
      let idCarrito := id_carrito c0 in
      productosCarrito <- execute (seleccionar (sel_productos_carrito idCarrito)) ;;
      match productosCarrito with
      | [] => lanzar CarritoVacio
      | _ :: _ =>
          validar_stock productosCarrito ;;;
          idVenta <- execute (insertar_venta idUsuario (totalVenta productosCarrito)) ;;
          para_cada
            (fun producto =>
               execute (insertar_detalle idVenta producto) ;;;
               execute (modificar (descontar_stock (l_cantidad producto)
                                     (l_id_producto producto))))
            productosCarrito ;;;
          execute (modificar (vaciar_carrito idCarrito)) ;;;
          ret idVenta
      end
  end.

Definition procesarVentaDesdeCarrito (idUsuario : Z) : Accion Sistema VentaCompleta :=
  idVenta <- conTransaccion (cuerpo_procesarVenta idUsuario) ;;
  obtenerVentaPorId idVenta.

Definition cuerpo_cancelarVenta (idVenta idUsuario : Z) : Accion Conexion bool :=
  venta <- execute (seleccionar (sel_venta_cancelable idVenta idUsuario)) ;;
  match venta with
  | [] => lanzar VentaNoCancelable
  | _ :: _ =>
      dets <- execute (seleccionar (sel_detalles idVenta)) ;;
      para_cada
        (fun detalle =>
           execute (modificar (reponer_stock (dv_cantidad detalle)
                                 (dv_id_producto detalle))))
        dets ;;;
      execute (modificar (marcar_venta_cancelada idVenta)) ;;;
      ret true
  end.

Definition cancelarVenta (idVenta idUsuario : Z) : Accion Sistema bool :=
  conTransaccion (cuerpo_cancelarVenta idVenta idUsuario).

(** ** Statements of [Factura.js] *)

(** [SELECT v.*, f.id_factura FROM Ventas v LEFT JOIN Facturas f
     ON v.id_venta = f.id_venta
     WHERE v.id_venta = ? AND v.estado_venta = 'COMPLETADA'];
    [None] is the [NULL] of a sale without invoice. *)
Definition sel_venta_facturable (idVenta : Z) (d : DB) : list (Venta * option Z) :=
  flat_map
    (fun v =>
       if (id_venta v =? idVenta) && estado_venta_eqb (estado_venta v) COMPLETADA
       then
         match filter (fun f => id_venta v =? f_id_venta f) (Facturas d) with
         | [] => [(v, None)]
         | fs => map (fun f => (v, Some (id_factura f))) fs
         end
       else [])
    (Ventas d).

(** The truth value JavaScript gives to [venta[0].id_factura]. *)
Definition verdadero (x : option Z) : bool :=
  match x with
  | Some n => negb (n =? 0)
  | None => false
  end.

(** The greatest text of a list, the first one among equals. *)
Definition maximo_texto (l : list string) : option string :=
  fold_left
    (fun acc x =>
       match acc with
       | None => Some x
       | Some m => if String.ltb m x then Some x else Some m
       end)
    l None.

(** [SELECT numero_factura FROM Facturas WHERE numero_factura LIKE ?
     ORDER BY numero_factura DESC LIMIT 1] with the pattern [prefijo%]. *)
Definition sel_ultima_factura (prefijo : string) (d : DB) : list string :=
  match maximo_texto
          (filter (String.prefix prefijo) (map numero_factura (Facturas d))) with
  | Some n => [n]
  | None => []
  end.

(** The store after an accepted [INSERT INTO Facturas (id_venta,
     numero_factura, monto_total, estado) VALUES (?, ?, ?, 'EMITIDA')]. *)
Definition poner_factura (idVenta : Z) (numeroFactura : string) (monto : Z)
  (d : DB) : DB :=
  mkDB (Carritos d) (Productos_Carrito d) (Productos d) (Ventas d)
       (Detalles_Venta d)
       (Facturas d ++
          [mkFactura (auto_factura d) idVenta numeroFactura monto EMITIDA])
       (auto_venta d) (auto_detalle d) (auto_factura d + 1).

(** The [INSERT INTO Facturas], under the two [UNIQUE] keys of the table
    ([id_venta] and [numero_factura]); its value is [insertId]. *)
Definition insertar_factura (idVenta : Z) (numeroFactura : string) (monto : Z)
  : Sentencia Z :=
  fun d =>
    if existsb (fun f => f_id_venta f =? idVenta) (Facturas d)
    then Fallo (EntradaDuplicada "id_venta")
    else if existsb (fun f => String.eqb (numero_factura f) numeroFactura) (Facturas d)
    then Fallo (EntradaDuplicada "numero_factura")
    else Exito (auto_factura d, poner_factura idVenta numeroFactura monto d).

(** [SELECT * FROM Facturas WHERE id_factura = ?]. *)
Definition sel_factura (idFactura : Z) (d : DB) : list Factura :=
  filter (fun f => id_factura f =? idFactura) (Facturas d).

(** [DELETE FROM Facturas WHERE id_factura = ?]. *)
Definition borrar_factura (idFactura : Z) (d : DB) : DB :=
  con_Facturas d (filter (fun f => negb (id_factura f =? idFactura)) (Facturas d)).

Definition con_estado_factura (f : Factura) (e : EstadoFactura) : Factura :=
  mkFactura (id_factura f) (f_id_venta f) (numero_factura f) (monto_total f) e.

(** [UPDATE Facturas SET estado = 'PAGADA' WHERE id_factura = ? AND
     estado = 'EMITIDA']; the value is [affectedRows]. *)
Definition pagar_factura (idFactura : Z) : Sentencia nat :=
  fun d =>
    let toca f := (id_factura f =? idFactura) && estado_factura_eqb (f_estado f) EMITIDA in
    Exito (List.length (filter toca (Facturas d)),
           con_Facturas d
             (map (fun f => if toca f then con_estado_factura f PAGADA else f)
                  (Facturas d))).

(** [UPDATE Facturas SET estado = 'ANULADA' WHERE id_factura = ?]. *)
Definition marcar_factura_anulada (idFactura : Z) (d : DB) : DB :=
  con_Facturas d
    (map (fun f => if id_factura f =? idFactura then con_estado_factura f ANULADA else f)
         (Facturas d)).

(** [SELECT f.*, v.id_venta, v.estado_venta FROM Facturas f INNER JOIN
     Ventas v ON f.id_venta = v.id_venta
     WHERE f.id_factura = ? AND f.estado IN ('EMITIDA', 'PAGADA')]. *)
Definition sel_factura_anulable (idFactura : Z) (d : DB) : list (Factura * Venta) :=
  flat_map
    (fun f =>
       if (id_factura f =? idFactura)
          && (estado_factura_eqb (f_estado f) EMITIDA
              || estado_factura_eqb (f_estado f) PAGADA)
       then
         flat_map (fun v => if f_id_venta f =? id_venta v then [(f, v)] else [])
                  (Ventas d)
       else [])
    (Facturas d).

(** [SELECT f.*, v.id_usuario, ... FROM Facturas f INNER JOIN Ventas v
     ON f.id_venta = v.id_venta ... WHERE f.id_factura = ?]. *)
Definition sel_factura_con_venta (idFactura : Z) (d : DB) : list (Factura * Venta) :=
  flat_map
    (fun f =>
       if id_factura f =? idFactura
       then flat_map (fun v => if f_id_venta f =? id_venta v then [(f, v)] else [])
                     (Ventas d)
       else [])
    (Facturas d).

(** The object returned by [obtenerFacturaPorId]: [{...facturaData, items}]. *)
Record FacturaCompleta := mkFacturaCompleta {
  facturaData : Factura;
  fc_venta : Venta;
  items : list DetalleConProducto
}.

(** ** [Factura.js] *)

Definition ahora : Accion Sistema Fecha := fun s => (Exito (hoy s), s).

(** [`${anio}${mes}`], the period of a date. *)
Definition periodo (f : Fecha) : string :=
  String_de_Z (fullYear f) ++ padStart 2 "0" (String_de_Z (month f + 1)).

(** The sequence number that follows the last invoice number of the month:
    [parseInt(ultimoNumero.slice(-4)) + 1]. *)
Definition siguiente_secuencial (ultimaFactura : list string) : option Z :=
  match ultimaFactura with
  | [] => Some 1
  | ultimoNumero :: _ =>
      match parseInt (slice_final 4 ultimoNumero) with
      | Some ultimoSecuencial => Some (ultimoSecuencial + 1)
      | None => None
      end
  end.

Definition generarNumeroFactura : Accion Sistema string :=
  fecha <- ahora ;;
  ultimaFactura <- db_execute (seleccionar (sel_ultima_factura (periodo fecha))) ;;
  ret (periodo fecha
       ++ padStart 4 "0" (String_de_numero (siguiente_secuencial ultimaFactura))).

(** The inner join of the items with [Categorias] keeps every row: the
    category of a product is a foreign key that is never null. *)
Definition obtenerFacturaPorId (idFactura : Z) : Accion Sistema FacturaCompleta :=
  factura <- db_execute (seleccionar (sel_factura_con_venta idFactura)) ;;
  match factura with
  | [] => lanzar FacturaNoEncontrada
  | (f, v) :: _ =>
      dets <- db_execute (seleccionar (sel_detalles_con_producto (f_id_venta f))) ;;
      ret (mkFacturaCompleta f v dets)
  end.

(** The body of the transaction of [generarFactura]; its value is
    [idFactura].  The number is read through the pool, not through the
    connection of the transaction. *)
Definition cuerpo_generarFactura (idVenta : Z) : Accion Conexion Z :=
  venta <- execute (seleccionar (sel_venta_facturable idVenta)) ;;
  match venta with
  | [] => lanzar VentaNoCompletada
  | (v, idFacturaPrevia) :: _ =>
      if verdadero idFacturaPrevia then lanzar FacturaYaGenerada
      else
        numeroFactura <- por_el_pool generarNumeroFactura ;;
        execute (insertar_factura idVenta numeroFactura (total_venta v))
  end.

Definition generarFactura (idVenta : Z) : Accion Sistema FacturaCompleta :=
  idFactura <- conTransaccion (cuerpo_generarFactura idVenta) ;;
  obtenerFacturaPorId idFactura.

Definition cuerpo_eliminarFactura (idFactura : Z) : Accion Conexion bool :=
  factura <- execute (seleccionar (sel_factura idFactura)) ;;
  match factura with
  | [] => lanzar FacturaNoEncontrada
  | _ :: _ =>
      execute (modificar (borrar_factura idFactura)) ;;;
      ret true
  end.

Definition eliminarFactura (idFactura : Z) : Accion Sistema bool :=
  conTransaccion (cuerpo_eliminarFactura idFactura).

Definition marcarComoPagada (idFactura : Z) : Accion Sistema FacturaCompleta :=
  affectedRows <- db_execute (pagar_factura idFactura) ;;
  match affectedRows with
  | O => lanzar FacturaNoPagable
  | S _ => obtenerFacturaPorId idFactura
  end.

Definition cuerpo_anularFactura (idFactura : Z) : Accion Conexion unit :=
  factura <- execute (seleccionar (sel_factura_anulable idFactura)) ;;
  match factura with
  | [] => lanzar FacturaNoAnulable
  | (f, v) :: _ =>
      execute (modificar (marcar_factura_anulada idFactura)) ;;;
      match estado_venta v with
      | COMPLETADA =>
          execute (modificar (marcar_venta_cancelada (id_venta v))) ;;;
          dets <- execute (seleccionar (sel_detalles (id_venta v))) ;;
          para_cada
            (fun detalle =>
               execute (modificar (reponer_stock (dv_cantidad detalle)
                                     (dv_id_producto detalle))))
            dets
      | CANCELADA => ret tt
      end
  end.

(** [motivo] is accepted and never used. *)
Definition anularFactura (idFactura : Z) (motivo : option string)
  : Accion Sistema FacturaCompleta :=
  conTransaccion (cuerpo_anularFactura idFactura) ;;;
  obtenerFacturaPorId idFactura.

(** ** [VentaController.js]

    The handlers answer with [ResponseProvider.success] on a value and with
    [ResponseProvider.error(res, error.message, 400)] on a thrown error; the
    result of the action stands for the answer. *)

Definition procesarCompra (idUsuario : Z)
  : Accion Sistema (VentaCompleta * FacturaCompleta) :=
  venta <- procesarVentaDesdeCarrito idUsuario ;;
  factura <- generarFactura (id_venta (ventaData venta)) ;;
  ret (venta, factura).

Definition cancelarCompra (id idUsuario : Z) : Accion Sistema bool :=
  cancelarVenta id idUsuario.

(** ** [ResponseProvider.js]

    What a handler answers.  [success(res, data)] answers 200 with the
    data; [error(res, mensaje, statusCode, codigoError)] answers
    [statusCode], 500 when none is given, with the message. *)

Inductive Mensaje : Type :=
  | MensajeDe (e : Error)
  | Texto (t : string).

Inductive Respuesta (A : Type) : Type :=
  | success (data : A)
  | error (mensaje : Mensaje) (statusCode : Z) (codigoError : option string).

Arguments success {A} data.
Arguments error {A} mensaje statusCode codigoError.

(** [noAutorizado(res, mensaje)]. *)
Definition noAutorizado {A} (mensaje : string) : Respuesta A :=
  error (Texto mensaje) 401 (Some "NO_AUTORIZADO").

(** A handler: the answer it sends and the system it leaves. *)
Definition Manejador (A : Type) : Type := Sistema -> Respuesta A * Sistema.

(** [req.usuario.permisos?.includes(permiso)]; [None] is a user object
    without [permisos], for which the expression is [undefined]. *)
Definition incluye (permisos : option (list string)) (permiso : string) : bool :=
  match permisos with
  | Some l => existsb (String.eqb permiso) l
  | None => false
  end.

(** ** The read handlers of [VentaController.js] and [FacturaController.js]

    [id] and [numero] are the parameters of the route, [idUsuario] and
    [permisos] the [id_usuario] and the [permisos] of [req.usuario]. *)

Definition obtenerDetalleCompra (id idUsuario : Z) (permisos : option (list string))
  : Manejador VentaCompleta :=
  fun s =>
    match obtenerVentaPorId id s with
    | (Exito venta, s1) =>
        if negb (v_id_usuario (ventaData venta) =? idUsuario)
           && negb (incluye permisos "leer_ventas")
        then (noAutorizado "No tienes permisos para ver esta venta", s1)
        else (success venta, s1)
    | (Fallo e, s1) => (error (MensajeDe e) 404 None, s1)
    end.

(** [SELECT f.*, v.id_usuario, v.fecha_venta, u.nombre_usuario, u.correo
     FROM Facturas f INNER JOIN Ventas v ON f.id_venta = v.id_venta
     INNER JOIN Usuarios u ON v.id_usuario = u.id_usuario
     WHERE f.numero_factura = ?].  The user of a sale is a foreign key that
    is never null, so the join with [Usuarios] keeps every row. *)
Definition sel_factura_por_numero (numeroFactura : string) (d : DB)
  : list (Factura * Venta) :=
  flat_map
    (fun f =>
       if String.eqb (numero_factura f) numeroFactura
       then flat_map (fun v => if f_id_venta f =? id_venta v then [(f, v)] else [])
                     (Ventas d)
       else [])
    (Facturas d).

(** [Factura.buscarPorNumero]: [factura.length ? factura[0] : null]. *)
Definition buscarPorNumero (numeroFactura : string)
  : Accion Sistema (option (Factura * Venta)) :=
  factura <- db_execute (seleccionar (sel_factura_por_numero numeroFactura)) ;;
  ret (match factura with
       | [] => None
       | f0 :: _ => Some f0
       end).

Module FacturaController.

Definition buscarPorNumero (numero : string) (idUsuario : Z)
  (permisos : option (list string)) : Manejador (Factura * Venta) :=
  fun s =>
    match buscarPorNumero numero s with
    | (Exito None, s1) => (error (Texto "Factura no encontrada") 404 None, s1)
    | (Exito (Some factura), s1) =>
        if negb (v_id_usuario (snd factura) =? idUsuario)
           && negb (incluye permisos "leer_facturas")
        then (noAutorizado "No tienes permisos para ver esta factura", s1)
        else (success factura, s1)
    | (Fallo _, s1) => (error (Texto "Error al buscar la factura") 500 None, s1)
    end.

End FacturaController.

(** ** The routes that write

    [ventasRoutes.js] and [facturasRoutes.js]: the requests that change the
    store, each with the parameters its handler passes to the model. *)
Inductive Peticion : Type :=
  | ProcesarCompra (idUsuario : Z)
  | CancelarCompra (id idUsuario : Z)
  | GenerarFactura (idVenta : Z)
  | MarcarComoPagada (id : Z)
  | AnularFactura (id : Z) (motivo : option string)
  | EliminarFactura (id : Z).

(** The system a request leaves. *)
Definition atender (p : Peticion) (s : Sistema) : Sistema :=
  match p with
  | ProcesarCompra idUsuario => snd (procesarCompra idUsuario s)
  | CancelarCompra id idUsuario => snd (cancelarCompra id idUsuario s)
  | GenerarFactura idVenta => snd (generarFactura idVenta s)
  | MarcarComoPagada id => snd (marcarComoPagada id s)
  | AnularFactura id motivo => snd (anularFactura id motivo s)
  | EliminarFactura id => snd (eliminarFactura id s)
  end.

(** Requests served one after the other.  Each comes with the date on which
    it is served and with what the store will accept while it is served. *)
Definition atender_en_orden (ps : list (Fecha * option nat * Peticion)) (d : DB)
  : DB :=
  fold_left
    (fun d x =>
       match x with
       | (fecha, acepta, p) => almacen (atender p (mkSistema d fecha acepta))
       end)
    ps d.

(** ** Notions used to state the properties *)

(** The stock table: product identifiers with their quantity, in storage
    order. *)
Definition existencias (d : DB) : list (Z * Z) :=
  map (fun p => (id_producto p, stock p)) (Productos d).

Definition suma (l : list Z) : Z := fold_right Z.add 0 l.

(** The quantity of a product recorded in the lines of a sale. *)
Definition cantidad_vendida (idProducto idVenta : Z) (d : DB) : Z :=
  suma (map dv_cantidad
          (filter (fun dv => dv_id_producto dv =? idProducto)
                  (sel_detalles idVenta d))).

(** The cart line [l] is the row that a line of the cart [idCarrito] gives
    with its product, and the product is DISPONIBLE. *)
Definition linea_disponible (idCarrito : Z) (l : LineaCarrito) (d : DB) : Prop :=
  exists pc p,
    In pc (Productos_Carrito d) /\ In p (Productos d)
    /\ pc_id_carrito pc = idCarrito
    /\ pc_id_producto pc = id_producto p
    /\ estado p = DISPONIBLE
    /\ l = mkLineaCarrito (id_producto p) (pc_cantidad pc) (nombre_producto p)
             (precio p) (stock p) (pc_cantidad pc * precio p).

Definition stock_no_negativo (d : DB) : Prop :=
  forall p, In p (Productos d) -> 0 <= stock p.

(** The outside of a connection after some statements: the committed store
    and the clock are the ones it started with. *)
Definition mismo_exterior (s s' : Sistema) : Prop :=
  almacen s' = almacen s /\ hoy s' = hoy s.

(** An action on a connection that leaves the committed store alone: all it
    writes, it writes to the working copy. *)
Definition respeta_exterior {A} (m : Accion Conexion A) : Prop :=
  forall c r c', m c = (r, c') -> mismo_exterior (fuera c) (fuera c').

(** An action on the pool that only reads. *)
Definition solo_lee {A} (m : Accion Sistema A) : Prop :=
  forall s r s', m s = (r, s') -> mismo_exterior s s'.

(** The constraints of [carpinteria.sql] the engine relies on: primary and
    unique keys, and [AUTO_INCREMENT] counters above every identifier in
    use, identifiers starting at 1; sale lines refer to an existing sale. *)
Record esquema (d : DB) : Prop := mkEsquema {
  pk_productos : NoDup (map id_producto (Productos d));
  pk_productos_carrito :
    NoDup (map (fun pc => (pc_id_carrito pc, pc_id_producto pc))
               (Productos_Carrito d));
  pk_ventas : NoDup (map id_venta (Ventas d));
  pk_facturas : NoDup (map id_factura (Facturas d));
  uq_facturas_venta : NoDup (map f_id_venta (Facturas d));
  uq_facturas_numero : NoDup (map numero_factura (Facturas d));
  fk_detalles_venta :
    forall dv, In dv (Detalles_Venta d) -> In (dv_id_venta dv) (map id_venta (Ventas d));
  fk_facturas_venta :
    forall f, In f (Facturas d) -> In (f_id_venta f) (map id_venta (Ventas d));
  auto_venta_libre : forall v, In v (Ventas d) -> id_venta v < auto_venta d;
  auto_factura_positivo : 0 < auto_factura d;
  auto_factura_libre :
    forall f, In f (Facturas d) -> 0 < id_factura f < auto_factura d
}.

(** The cart lines that ask for more than the stock, in cart order. *)
Definition faltantes (lineas : list LineaCarrito) : list LineaCarrito :=
  filter (fun l => l_cantidad l >? l_stock l) lineas.

(** What steps 6 and 7 of the checkout do for one cart line. *)
Definition vender_linea (idVenta : Z) (l : LineaCarrito) (d : DB) : DB :=
  descontar_stock (l_cantidad l) (l_id_producto l) (poner_detalle idVenta l d).

(** The store a checkout commits: steps 5 to 8 of
    [procesarVentaDesdeCarrito] on the cart lines read in step 2. *)
Definition efecto_venta (idUsuario idCarrito : Z) (lineas : list LineaCarrito)
  (d : DB) : DB :=
  vaciar_carrito idCarrito
    (fold_left (fun acc l => vender_linea (auto_venta d) l acc) lineas
       (poner_venta idUsuario (totalVenta lineas) d)).

(** The store a compensation leaves as far as stock goes: every line of the
    sale gives its quantity back. *)
Definition reponer_lineas (dets : list DetalleVenta) (d : DB) : DB :=
  fold_left (fun acc dv => reponer_stock (dv_cantidad dv) (dv_id_producto dv) acc)
            dets d.

(** The store [cancelarVenta] commits. *)
Definition efecto_cancelar (idVenta : Z) (d : DB) : DB :=
  marcar_venta_cancelada idVenta (reponer_lineas (sel_detalles idVenta d) d).

(** The rows step 6 inserts for the cart lines, numbered from [n]. *)
Fixpoint detalles_de_lineas (idVenta n : Z) (lineas : list LineaCarrito)
  : list DetalleVenta :=
  match lineas with
  | [] => []
  | l :: resto =>
      mkDetalleVenta n idVenta (l_id_producto l) (l_cantidad l) (l_precio l)
                     (l_subtotal l)
      :: detalles_de_lineas idVenta (n + 1) resto
  end.

(** The product rows after step 7 has run for the cart lines. *)
Definition descontar_lineas (lineas : list LineaCarrito) (ps : list Producto)
  : list Producto :=
  fold_left
    (fun acc l =>
       map (fun p => if id_producto p =? l_id_producto l
                     then descontar (l_cantidad l) p else p) acc)
    lineas ps.

(** The quantity the cart lines ask of a product. *)
Definition cantidad_pedida (idProducto : Z) (lineas : list LineaCarrito) : Z :=
  suma (map l_cantidad (filter (fun l => l_id_producto l =? idProducto) lineas)).

(** The rows the read path gives for the lines step 6 inserts for the cart
    lines, numbered from [n]: each line with the name and the price of its
    product. *)
Fixpoint filas_de_lineas (idVenta n : Z) (lineas : list LineaCarrito)
  : list DetalleConProducto :=
  match lineas with
  | [] => []
  | l :: resto =>
      mkDetalleConProducto
        (mkDetalleVenta n idVenta (l_id_producto l) (l_cantidad l) (l_precio l)
                        (l_subtotal l))
        (l_nombre_producto l) (l_precio l)
      :: filas_de_lineas idVenta (n + 1) resto
  end.

(** What every request keeps: the keys of the schema, no stock below zero,
    and no negative quantity in a cart or in a sale line. *)
Definition invariante (d : DB) : Prop :=
  esquema d
  /\ stock_no_negativo d
  /\ (forall pc, In pc (Productos_Carrito d) -> 0 <= pc_cantidad pc)
  /\ (forall dv, In dv (Detalles_Venta d) -> 0 <= dv_cantidad dv).

(** The number [generarNumeroFactura] gives on a date and a store. *)
Definition numero_siguiente (f : Fecha) (d : DB) : string :=
  periodo f
  ++ padStart 4 "0"
       (String_de_numero (siguiente_secuencial (sel_ultima_factura (periodo f) d))).

(** The store [anularFactura] commits for an invoice joined with the sale
    row [v]: the invoice is voided and, when the sale was still COMPLETADA,
    the sale is cancelled and its lines give their quantity back. *)
Definition efecto_anular (idFactura : Z) (v : Venta) (d : DB) : DB :=
  match estado_venta v with
  | COMPLETADA =>
      reponer_lineas
        (sel_detalles (id_venta v)
           (marcar_venta_cancelada (id_venta v)
              (marcar_factura_anulada idFactura d)))
        (marcar_venta_cancelada (id_venta v) (marcar_factura_anulada idFactura d))
  | CANCELADA => marcar_factura_anulada idFactura d
  end.

(** The product rows after the lines of a sale have given their quantity
    back. *)
Definition reponer_productos (dets : list DetalleVenta) (ps : list Producto)
  : list Producto :=
  fold_left
    (fun acc dv =>
       map (fun p => if id_producto p =? dv_id_producto dv
                     then reponer (dv_cantidad dv) p else p) acc)
    dets ps.

(** The sale [idVenta] is on file, in the state [e]. *)
Definition venta_en_estado (idVenta : Z) (e : EstadoVenta) (d : DB) : Prop :=
  (exists v, In v (Ventas d) /\ id_venta v = idVenta)
  /\ forall v, In v (Ventas d) -> id_venta v = idVenta -> estado_venta v = e.

(** The invoice [idFactura] is on file, in the state [e]. *)
Definition factura_en_estado (idFactura : Z) (e : EstadoFactura) (d : DB) : Prop :=
  (exists f, In f (Facturas d) /\ id_factura f = idFactura)
  /\ forall f, In f (Facturas d) -> id_factura f = idFactura -> f_estado f = e.

(** *** The numbering as the specification words it *)

(** A sequence number with its four places: [String(k).padStart(4, '0')]. *)
Definition pad4 (k : Z) : string := padStart 4 "0" (String_de_Z k).

(** The text of four digits. *)
Definition cuatro_digitos (a b c d : Z) : string :=
  String (digito a) (String (digito b) (String (digito c)
    (String (digito d) EmptyString))).

(** The number a run of decimal digits writes, [0] for no digit. *)
Definition valor_decimal (t : string) : Z :=
  match leer_digitos 10 t None with
  | Some k => k
  | None => 0
  end.

(** The sequence of an invoice number of the period: the number written
    after the period. *)
Definition secuencia_de (per n : string) : Z :=
  valor_decimal
    (substring (String.length per) (String.length n - String.length per) n).

(** "Determines [sequence] by finding the maximum existing number for the
    period and adding 1, defaulting to 1 if none exists." *)
Definition secuencia_segun_spec (per : string) (existentes : list string) : Z :=
  match filter (String.prefix per) existentes with
  | [] => 1
  | del_periodo => fold_left Z.max (map (secuencia_de per) del_periodo) 0 + 1
  end.

(** "Formatted [{year}{month:2}{sequence:4}]". *)
Definition numero_segun_spec (f : Fecha) (existentes : list string) : string :=
  String_de_Z (fullYear f)
  ++ padStart 2 "0" (String_de_Z (month f + 1))
  ++ padStart 4 "0" (String_de_Z (secuencia_segun_spec (periodo f) existentes)).

(** The numbers of the period on file all carry a sequence of four places. *)
Definition numeracion_sana (per : string) (existentes : list string) : Prop :=
  forall n, In n existentes -> String.prefix per n = true ->
            exists k, 0 <= k <= 9999 /\ n = per ++ pad4 k.

(** *** Two issuances that overlap

    The three things one issuance does to the store, each as a statement of
    its own: the guard, the reading of the number and the insertion.  The
    first and the last run on the connection of the transaction, the second
    on the pool; no lock is taken by any of them, so the statements of two
    requests served at the same time may reach the store in any order that
    keeps the order of each request. *)

Definition paso_verificar (idVenta : Z) : Accion Sistema Venta :=
  venta <- db_execute (seleccionar (sel_venta_facturable idVenta)) ;;
  match venta with
  | [] => lanzar VentaNoCompletada
  | (v, idFacturaPrevia) :: _ =>
      if verdadero idFacturaPrevia then lanzar FacturaYaGenerada else ret v
  end.

Definition paso_insertar (idVenta : Z) (numeroFactura : string) (v : Venta)
  : Accion Sistema Z :=
  db_execute (insertar_factura idVenta numeroFactura (total_venta v)).

(** One issuance alone, statement by statement. *)
Definition emision_por_pasos (idVenta : Z) : Accion Sistema Z :=
  v <- paso_verificar idVenta ;;
  numeroFactura <- generarNumeroFactura ;;
  paso_insertar idVenta numeroFactura v.

(** The outcome of an action, kept as a value. *)
Definition intentar {S A} (m : Accion S A) : Accion S (Resultado A) :=
  fun s => match m s with (r, s1) => (Exito r, s1) end.

(** Requests A and B overlap: both have passed the guard and read their
    number before either inserts.  The value is the number each one read and
    what became of each insertion. *)
Definition emisiones_solapadas (idVentaA idVentaB : Z)
  : Accion Sistema (string * string * Resultado Z * Resultado Z) :=
  vA <- paso_verificar idVentaA ;;
  numeroA <- generarNumeroFactura ;;
  vB <- paso_verificar idVentaB ;;
  numeroB <- generarNumeroFactura ;;
  rA <- intentar (paso_insertar idVentaA numeroA vA) ;;
  rB <- intentar (paso_insertar idVentaB numeroB vB) ;;
  ret (numeroA, numeroB, rA, rB).

(** *** Two checkouts that overlap

    What one checkout does to the store, in two parts.  Steps 1 to 3 read:
    the cart, its lines with the stock of each product, and the validation
    of the quantities against that stock.  They are plain [SELECT]s: they
    take no lock, and in the transaction they read its snapshot.  Steps 4
    to 8 write, from the lines that were read: the [UPDATE] of the stock is
    relative ([stock = stock - ?]) and acts on the row as it is when the
    statement reaches the store, whatever the transaction has read before.
    Nothing between the two parts keeps another checkout from writing, so
    the parts of two requests served at the same time may reach the store
    in any order that keeps the order of each request. *)

(** Steps 1 to 3; the value is [idCarrito] and [productosCarrito]. *)
Definition lectura_de_compra (idUsuario : Z)
  : Accion Sistema (Z * list LineaCarrito) :=
  carrito <- db_execute (seleccionar (sel_carrito idUsuario)) ;;
  match carrito with
  | [] => lanzar CarritoNoEncontrado
  | c0 :: _ =>
      let idCarrito := id_carrito c0 in
      productosCarrito <-
        db_execute (seleccionar (sel_productos_carrito idCarrito)) ;;
      match productosCarrito with
      | [] => lanzar CarritoVacio
      | _ :: _ =>
          validar_stock productosCarrito ;;;
          ret (idCarrito, productosCarrito)
      end
  end.

(** Steps 4 to 8, on the lines read. *)
Definition cuerpo_escritura_de_compra (idUsuario idCarrito : Z)
  (productosCarrito : list LineaCarrito) : Accion Conexion Z :=
  idVenta <- execute (insertar_venta idUsuario (totalVenta productosCarrito)) ;;
  para_cada
    (fun producto =>
       execute (insertar_detalle idVenta producto) ;;;
       execute (modificar (descontar_stock (l_cantidad producto)
                             (l_id_producto producto))))
    productosCarrito ;;;
  execute (modificar (vaciar_carrito idCarrito)) ;;;
  ret idVenta.

(** The writes and the commit. *)
Definition escritura_de_compra (idUsuario : Z) (leido : Z * list LineaCarrito)
  : Accion Sistema Z :=
  conTransaccion (cuerpo_escritura_de_compra idUsuario (fst leido) (snd leido)).

(** One checkout alone, part by part. *)
Definition compra_por_pasos (idUsuario : Z) : Accion Sistema Z :=
  leido <- lectura_de_compra idUsuario ;;
  escritura_de_compra idUsuario leido.

(** The checkouts of users A and B overlap: both have read and validated
    their cart before either writes.  The value is what became of each. *)
Definition compras_solapadas (idUsuarioA idUsuarioB : Z)
  : Accion Sistema (Resultado Z * Resultado Z) :=
  leidoA <- lectura_de_compra idUsuarioA ;;
  leidoB <- lectura_de_compra idUsuarioB ;;
  rA <- intentar (escritura_de_compra idUsuarioA leidoA) ;;
  rB <- intentar (escritura_de_compra idUsuarioB leidoB) ;;
  ret (rA, rB).

(** The amounts a checkout computes for the lines fit in their columns. *)
Definition importes_en_rango (lineas : list LineaCarrito) : Prop :=
  decimal_10_2 (totalVenta lineas) = true
  /\ forall l, In l lineas -> decimal_10_2 (l_subtotal l) = true.

(** *** Stores used as examples *)

Definition noviembre_2024 : Fecha := mkFecha 2024 10.

(** A shop with two products; user 10 has three tables and one chair in the
    cart. *)
Definition tienda : DB :=
  mkDB [mkCarrito 1 10]
       [mkProductoCarrito 1 100 3; mkProductoCarrito 1 101 1]
       [mkProducto 100 "mesa" 25000 5 DISPONIBLE;
        mkProducto 101 "silla" 8000 4 DISPONIBLE]
       [] [] [] 1 1 1.

(** The same shop once user 10 has bought the cart and got invoice 1.  The
    tables are marked AGOTADO with two of them left: see [descontar]. *)
Definition tienda_vendida : DB :=
  mkDB [mkCarrito 1 10]
       []
       [mkProducto 100 "mesa" 25000 2 AGOTADO;
        mkProducto 101 "silla" 8000 3 DISPONIBLE]
       [mkVenta 1 10 83000 COMPLETADA]
       [mkDetalleVenta 1 1 100 3 25000 75000;
        mkDetalleVenta 2 1 101 1 8000 8000]
       [mkFactura 1 1 "2024110001" 83000 EMITIDA]
       2 3 2.

(** The same shop once invoice 1 has been voided. *)
Definition tienda_anulada : DB :=
  mkDB [mkCarrito 1 10]
       []
       [mkProducto 100 "mesa" 25000 5 DISPONIBLE;
        mkProducto 101 "silla" 8000 4 DISPONIBLE]
       [mkVenta 1 10 83000 CANCELADA]
       [mkDetalleVenta 1 1 100 3 25000 75000;
        mkDetalleVenta 2 1 101 1 8000 8000]
       [mkFactura 1 1 "2024110001" 83000 ANULADA]
       2 3 2.

(** The cart of user 10 asks for more tables and more chairs than there
    are. *)
Definition tienda_escasa : DB :=
  mkDB [mkCarrito 1 10]
       [mkProductoCarrito 1 100 7; mkProductoCarrito 1 101 9]
       [mkProducto 100 "mesa" 25000 5 DISPONIBLE;
        mkProducto 101 "silla" 8000 4 DISPONIBLE]
       [] [] [] 1 1 1.

(** The shop of [tienda] in a month whose invoices have reached the
    sequences 9999 and 10000 (sales 1 and 2, of another user). *)
Definition tienda_saturada : DB :=
  mkDB [mkCarrito 1 10]
       [mkProductoCarrito 1 100 3; mkProductoCarrito 1 101 1]
       [mkProducto 100 "mesa" 25000 5 DISPONIBLE;
        mkProducto 101 "silla" 8000 4 DISPONIBLE]
       [mkVenta 1 11 5000 COMPLETADA; mkVenta 2 11 7000 COMPLETADA]
       []
       [mkFactura 1 1 "2024119999" 5000 EMITIDA;
        mkFactura 2 2 "20241110000" 7000 EMITIDA]
       3 1 3.

(** Two sales that are COMPLETADA and have no invoice yet. *)
Definition dos_ventas : DB :=
  mkDB [] [] []
       [mkVenta 1 10 83000 COMPLETADA; mkVenta 2 11 5000 COMPLETADA]
       [] [] 3 1 1.

(** One table, five of them in stock; users 10 and 11 each have three in
    their cart. *)
Definition tienda_disputada : DB :=
  mkDB [mkCarrito 1 10; mkCarrito 2 11]
       [mkProductoCarrito 1 100 3; mkProductoCarrito 2 100 3]
       [mkProducto 100 "mesa" 25000 5 DISPONIBLE]
       [] [] [] 1 1 1.

(** The shop of [tienda] where the tables are AGOTADO with two of them
    left: the cart of user 10 asks for three tables and one chair. *)
Definition tienda_con_agotado : DB :=
  mkDB [mkCarrito 1 10]
       [mkProductoCarrito 1 100 3; mkProductoCarrito 1 101 1]
       [mkProducto 100 "mesa" 25000 2 AGOTADO;
        mkProducto 101 "silla" 8000 4 DISPONIBLE]
       [] [] [] 1 1 1.

Definition en_noviembre (d : DB) : Sistema := mkSistema d noviembre_2024 None.

(** The value of a result that is known to be one. *)
Definition valor {A} (porDefecto : A) (r : Resultado A) : A :=
  match r with
  | Exito a => a
  | Fallo _ => porDefecto
  end.

Definition venta_vacia : VentaCompleta :=
  mkVentaCompleta (mkVenta 0 0 0 COMPLETADA) [].

Definition factura_vacia : FacturaCompleta :=
  mkFacturaCompleta (mkFactura 0 0 "" 0 EMITIDA) (mkVenta 0 0 0 COMPLETADA) [].

(** User 10 checks out in [tienda]. *)
Definition venta_ejemplo : VentaCompleta :=
  valor venta_vacia (fst (procesarVentaDesdeCarrito 10 (en_noviembre tienda))).

Definition tras_venta : Sistema :=
  snd (procesarVentaDesdeCarrito 10 (en_noviembre tienda)).

(** The invoice of that sale is issued. *)
Definition factura_ejemplo : FacturaCompleta :=
  valor factura_vacia (fst (generarFactura 1 tras_venta)).

Definition tras_factura : Sistema := snd (generarFactura 1 tras_venta).

(** User 10 checks out in [tienda_saturada]. *)
Definition venta_saturada : VentaCompleta :=
  valor venta_vacia
    (fst (procesarVentaDesdeCarrito 10 (en_noviembre tienda_saturada))).

Definition tras_venta_saturada : Sistema :=
  snd (procesarVentaDesdeCarrito 10 (en_noviembre tienda_saturada)).

(** The shop of [tienda] with the tables sold out: the only line of the
    cart of user 10 is of a product that is AGOTADO. *)
Definition tienda_agotada : DB :=
  mkDB [mkCarrito 1 10]
       [mkProductoCarrito 1 100 3]
       [mkProducto 100 "mesa" 25000 0 AGOTADO;
        mkProducto 101 "silla" 8000 4 DISPONIBLE]
       [] [] [] 1 1 1.

(** The shop of [tienda] where the cart of user 10 also holds a bench that
    is DESCONTINUADO, and user 11 has a cart of their own. *)
Definition tienda_mixta : DB :=
  mkDB [mkCarrito 1 10; mkCarrito 2 11]
       [mkProductoCarrito 1 100 3; mkProductoCarrito 1 102 1;
        mkProductoCarrito 2 101 2]
       [mkProducto 100 "mesa" 25000 5 DISPONIBLE;
        mkProducto 101 "silla" 8000 4 DISPONIBLE;
        mkProducto 102 "banco" 12000 6 DESCONTINUADO]
       [] [] [] 1 1 1.

(** * Properties *)

(** ** The monad *)

Lemma bind_exito {S A B} (m : Accion S A) (k : A -> Accion S B) s b s' :
  bind m k s = (Exito b, s') ->
  exists a s1, m s = (Exito a, s1) /\ k a s1 = (Exito b, s').
Proof.
  unfold bind. destruct (m s) as [[a | e] s1]; intros H.
  - exists a, s1. split; [reflexivity | exact H].
  - discriminate H.
Qed.

Lemma bind_fallo {S A B} (m : Accion S A) (k : A -> Accion S B) s e s' :
  bind m k s = (Fallo e, s') ->
  m s = (Fallo e, s') \/
  exists a s1, m s = (Exito a, s1) /\ k a s1 = (Fallo e, s').
Proof.
  unfold bind. destruct (m s) as [[a | e0] s1]; intros H.
  - right. exists a, s1. split; [reflexivity | exact H].
  - left. inversion H. reflexivity.
Qed.

Lemma mismo_exterior_refl s : mismo_exterior s s.
Proof. split; reflexivity. Qed.

Lemma mismo_exterior_trans s1 s2 s3 :
  mismo_exterior s1 s2 -> mismo_exterior s2 s3 -> mismo_exterior s1 s3.
Proof. intros [A1 H1] [A2 H2]. split; congruence. Qed.

Lemma pulso_exterior r s s' : pulso s = (r, s') -> mismo_exterior s s'.
Proof.
  unfold pulso. destruct (averia s) as [[| n] |]; intros H;
    inversion H; subst; split; reflexivity.
Qed.

Lemma pulso_sano s : averia s = None -> pulso s = (Exito tt, s).
Proof. unfold pulso. intros ->. reflexivity. Qed.

(** A statement that returns did run on the working copy, and left the
    outside alone. *)
Lemma execute_exito {A} (q : Sentencia A) c a c' :
  execute q c = (Exito a, c') ->
  q (trabajo c) = Exito (a, trabajo c') /\ mismo_exterior (fuera c) (fuera c').
Proof.
  unfold execute. destruct (pulso (fuera c)) as [[[] | e] s1] eqn:P.
  - destruct (q (trabajo c)) as [[a0 d1] | e]; intros H; inversion H; subst.
    simpl. split; [reflexivity | exact (pulso_exterior _ _ _ P)].
  - discriminate.
Qed.

(** A rejected statement changes nothing. *)
Lemma execute_fallo {A} (q : Sentencia A) c e c' :
  execute q c = (Fallo e, c') ->
  trabajo c' = trabajo c /\ mismo_exterior (fuera c) (fuera c').
Proof.
  unfold execute. destruct (pulso (fuera c)) as [[[] | e0] s1] eqn:P.
  - destruct (q (trabajo c)) as [[a0 d1] | e1]; intros H; inversion H; subst.
    simpl. split; [reflexivity | exact (pulso_exterior _ _ _ P)].
  - intros H; inversion H; subst. simpl.
    split; [reflexivity | exact (pulso_exterior _ _ _ P)].
Qed.

Lemma execute_sano {A} (q : Sentencia A) c :
  averia (fuera c) = None ->
  execute q c =
  match q (trabajo c) with
  | Exito (a, d1) => (Exito a, mkConexion d1 (fuera c))
  | Fallo e => (Fallo e, mkConexion (trabajo c) (fuera c))
  end.
Proof. intros H. unfold execute. rewrite (pulso_sano _ H). reflexivity. Qed.

Lemma db_execute_seleccionar {A} (q : DB -> A) s r s' :
  db_execute (seleccionar q) s = (r, s') ->
  mismo_exterior s s' /\ forall a, r = Exito a -> a = q (almacen s).
Proof.
  unfold db_execute, seleccionar.
  destruct (pulso s) as [[[] | e] s1] eqn:P; intros H; inversion H; subst;
    pose proof (pulso_exterior _ _ _ P) as [E1 E2].
  - split; [split; simpl; assumption |].
    intros a Ha. inversion Ha. now rewrite E1.
  - split; [split; assumption | intros a Ha; discriminate Ha].
Qed.

Lemma db_execute_sano {A} (q : Sentencia A) s :
  averia s = None ->
  db_execute q s =
  match q (almacen s) with
  | Exito (a, d1) => (Exito a, mkSistema d1 (hoy s) None)
  | Fallo e => (Fallo e, s)
  end.
Proof.
  intros H. unfold db_execute. rewrite (pulso_sano _ H).
  destruct (q (almacen s)) as [[a d1] | e]; [rewrite H |]; reflexivity.
Qed.

(** ** Transactions *)

Lemma respeta_ret {A} (a : A) : respeta_exterior (ret a).
Proof. intros c r c' H. inversion H. apply mismo_exterior_refl. Qed.

Lemma respeta_lanzar {A} e : respeta_exterior (@lanzar Conexion A e).
Proof. intros c r c' H. inversion H. apply mismo_exterior_refl. Qed.

Lemma respeta_execute {A} (q : Sentencia A) : respeta_exterior (execute q).
Proof.
  intros c [a | e] c' H.
  - now apply execute_exito in H.
  - now apply execute_fallo in H.
Qed.

Lemma respeta_bind {A B} (m : Accion Conexion A) (k : A -> Accion Conexion B) :
  respeta_exterior m -> (forall a, respeta_exterior (k a)) ->
  respeta_exterior (bind m k).
Proof.
  intros Hm Hk c r c' H. unfold bind in H.
  destruct (m c) as [[a | e] c1] eqn:E.
  - eapply mismo_exterior_trans; [exact (Hm _ _ _ E) | exact (Hk _ _ _ _ H)].
  - inversion H; subst. exact (Hm _ _ _ E).
Qed.

Lemma respeta_para_cada {X} (cuerpo : X -> Accion Conexion unit) xs :
  (forall x, respeta_exterior (cuerpo x)) ->
  respeta_exterior (para_cada cuerpo xs).
Proof.
  intros H. induction xs as [| x xs IH]; simpl.
  - apply respeta_ret.
  - apply respeta_bind; [apply H | intros _; exact IH].
Qed.

Lemma respeta_por_el_pool {A} (m : Accion Sistema A) :
  solo_lee m -> respeta_exterior (por_el_pool m).
Proof.
  intros Hm c r c' H. unfold por_el_pool in H.
  destruct (m (fuera c)) as [r1 s1] eqn:E. inversion H; subst. simpl.
  exact (Hm _ _ _ E).
Qed.

Lemma solo_lee_ret {A} (a : A) : solo_lee (ret a).
Proof. intros s r s' H. inversion H. apply mismo_exterior_refl. Qed.

Lemma solo_lee_lanzar {A} e : solo_lee (@lanzar Sistema A e).
Proof. intros s r s' H. inversion H. apply mismo_exterior_refl. Qed.

Lemma solo_lee_seleccionar {A} (q : DB -> A) : solo_lee (db_execute (seleccionar q)).
Proof. intros s r s' H. now apply db_execute_seleccionar in H. Qed.

Lemma solo_lee_bind {A B} (m : Accion Sistema A) (k : A -> Accion Sistema B) :
  solo_lee m -> (forall a, solo_lee (k a)) -> solo_lee (bind m k).
Proof.
  intros Hm Hk s r s' H. unfold bind in H.
  destruct (m s) as [[a | e] s1] eqn:E.
  - eapply mismo_exterior_trans; [exact (Hm _ _ _ E) | exact (Hk _ _ _ _ H)].
  - inversion H; subst. exact (Hm _ _ _ E).
Qed.

Lemma solo_lee_ahora : solo_lee ahora.
Proof. intros s r s' H. inversion H. apply mismo_exterior_refl. Qed.

Ltac exterior :=
  repeat first
    [ apply respeta_ret | apply respeta_lanzar | apply respeta_execute
    | apply solo_lee_ret | apply solo_lee_lanzar | apply solo_lee_seleccionar
    | apply solo_lee_ahora
    | apply respeta_por_el_pool
    | apply respeta_para_cada; intros ?
    | apply respeta_bind; [| intros ?]
    | apply solo_lee_bind; [| intros ?]
    | match goal with
      | |- respeta_exterior (match ?x with _ => _ end) => destruct x
      | |- solo_lee (match ?x with _ => _ end) => destruct x
      | |- respeta_exterior (if ?x then _ else _) => destruct x
      end ].

Lemma obtenerVentaPorId_solo_lee idVenta : solo_lee (obtenerVentaPorId idVenta).
Proof. unfold obtenerVentaPorId. exterior. Qed.

Lemma obtenerFacturaPorId_solo_lee idFactura : solo_lee (obtenerFacturaPorId idFactura).
Proof. unfold obtenerFacturaPorId. exterior. Qed.

Lemma generarNumeroFactura_solo_lee : solo_lee generarNumeroFactura.
Proof. unfold generarNumeroFactura. exterior. Qed.

Lemma cuerpo_procesarVenta_respeta u : respeta_exterior (cuerpo_procesarVenta u).
Proof. unfold cuerpo_procesarVenta, validar_stock. exterior. Qed.

Lemma cuerpo_cancelarVenta_respeta idVenta u :
  respeta_exterior (cuerpo_cancelarVenta idVenta u).
Proof. unfold cuerpo_cancelarVenta. exterior. Qed.

Lemma cuerpo_generarFactura_respeta idVenta :
  respeta_exterior (cuerpo_generarFactura idVenta).
Proof. unfold cuerpo_generarFactura. exterior. Qed.

Lemma cuerpo_eliminarFactura_respeta idFactura :
  respeta_exterior (cuerpo_eliminarFactura idFactura).
Proof. unfold cuerpo_eliminarFactura. exterior. Qed.

Lemma cuerpo_anularFactura_respeta idFactura :
  respeta_exterior (cuerpo_anularFactura idFactura).
Proof. unfold cuerpo_anularFactura. exterior. Qed.

(** A transaction that commits publishes the working copy its body left. *)
Lemma conTransaccion_exito {A} (cuerpo : Accion Conexion A) s a s' :
  conTransaccion cuerpo s = (Exito a, s') ->
  exists c1, cuerpo (mkConexion (almacen s) s) = (Exito a, c1)
             /\ almacen s' = trabajo c1 /\ hoy s' = hoy (fuera c1).
Proof.
  unfold conTransaccion.
  destruct (cuerpo (mkConexion (almacen s) s)) as [[a0 | e] c1] eqn:E;
    [| discriminate].
  destruct (pulso (fuera c1)) as [[[] | e] s2] eqn:P; intros H; inversion H; subst.
  exists c1. simpl. repeat split. now apply pulso_exterior in P as [_ ->].
Qed.

(** Atomicity: a transaction that fails, in its body or at its commit,
    leaves the committed store as it found it. *)
Lemma conTransaccion_fallo {A} (cuerpo : Accion Conexion A) s e s' :
  respeta_exterior cuerpo ->
  conTransaccion cuerpo s = (Fallo e, s') ->
  mismo_exterior s s'.
Proof.
  intros R. unfold conTransaccion.
  destruct (cuerpo (mkConexion (almacen s) s)) as [[a0 | e0] c1] eqn:E.
  - pose proof (R _ _ _ E) as X. simpl in X.
    destruct (pulso (fuera c1)) as [[[] | e1] s2] eqn:P; intros H; inversion H; subst.
    eapply mismo_exterior_trans; [exact X | exact (pulso_exterior _ _ _ P)].
  - intros H; inversion H; subst. exact (R _ _ _ E).
Qed.

(** ** Queries that find nothing *)

Lemma filter_vacio {A} (f : A -> bool) l :
  (forall x, In x l -> f x = false) -> filter f l = [].
Proof.
  induction l as [| x l IH]; intros H; simpl; [reflexivity |].
  rewrite (H x (or_introl eq_refl)). apply IH. intros y Hy. apply H. now right.
Qed.

Lemma flat_map_vacio {A B} (f : A -> list B) l :
  (forall x, In x l -> f x = []) -> flat_map f l = [].
Proof.
  induction l as [| x l IH]; intros H; simpl; [reflexivity |].
  rewrite (H x (or_introl eq_refl)). apply IH. intros y Hy. apply H. now right.
Qed.

Lemma sel_venta_cancelable_cancelada idVenta idUsuario d :
  (forall v, In v (Ventas d) -> id_venta v = idVenta -> estado_venta v = CANCELADA) ->
  sel_venta_cancelable idVenta idUsuario d = [].
Proof.
  intros H. apply filter_vacio. intros v Hv.
  destruct (id_venta v =? idVenta) eqn:E; [| reflexivity].
  apply Z.eqb_eq in E. rewrite (H v Hv E). simpl. apply andb_false_r.
Qed.

Lemma sel_factura_anulable_anulada idFactura d :
  (forall f, In f (Facturas d) -> id_factura f = idFactura -> f_estado f = ANULADA) ->
  sel_factura_anulable idFactura d = [].
Proof.
  intros H. apply flat_map_vacio. intros f Hf.
  destruct (id_factura f =? idFactura) eqn:E; [| reflexivity].
  apply Z.eqb_eq in E. rewrite (H f Hf E). reflexivity.
Qed.

(** ** Terminal transitions *)

Lemma cancelarVenta_cancelada idVenta idUsuario s :
  sel_venta_cancelable idVenta idUsuario (almacen s) = [] ->
  exists e s',
    cancelarVenta idVenta idUsuario s = (Fallo e, s')
    /\ almacen s' = almacen s
    /\ (averia s = None -> e = VentaNoCancelable /\ s' = s).
Proof.
  intros Hsel.
  unfold cancelarVenta, conTransaccion, cuerpo_cancelarVenta, bind, execute,
    seleccionar. simpl.
  destruct (pulso s) as [[[] | e] s1] eqn:P; simpl.
  - rewrite Hsel. simpl. exists VentaNoCancelable, s1.
    split; [reflexivity |]. split; [apply (pulso_exterior _ _ _ P) |].
    intros Hs. rewrite (pulso_sano _ Hs) in P. inversion P. now split.
  - exists e, s1. split; [reflexivity |].
    split; [apply (pulso_exterior _ _ _ P) |].
    intros Hs. rewrite (pulso_sano _ Hs) in P. discriminate P.
Qed.

Lemma anularFactura_anulada idFactura motivo s :
  sel_factura_anulable idFactura (almacen s) = [] ->
  exists e s',
    anularFactura idFactura motivo s = (Fallo e, s')
    /\ almacen s' = almacen s
    /\ (averia s = None -> e = FacturaNoAnulable /\ s' = s).
Proof.
  intros Hsel.
  unfold anularFactura, conTransaccion, cuerpo_anularFactura, bind, execute,
    seleccionar. simpl.
  destruct (pulso s) as [[[] | e] s1] eqn:P; simpl.
  - rewrite Hsel. simpl. exists FacturaNoAnulable, s1.
    split; [reflexivity |]. split; [apply (pulso_exterior _ _ _ P) |].
    intros Hs. rewrite (pulso_sano _ Hs) in P. inversion P. now split.
  - exists e, s1. split; [reflexivity |].
    split; [apply (pulso_exterior _ _ _ P) |].
    intros Hs. rewrite (pulso_sano _ Hs) in P. discriminate P.
Qed.

(** C8.  Cancelling a sale that is already CANCELADA and voiding an invoice
    that is already ANULADA both fail and change nothing: no table of the
    store is touched, whatever the health of the store.  When the store
    accepts the statement the error is the one the code keeps for a state
    that blocks the transition ('... no se puede cancelar', '... no se puede
    anular') and the whole system is left exactly as it was. *)
Theorem transicion_terminal_sin_efecto
  (s : Sistema) (idVenta idUsuario idFactura : Z) (motivo : option string) :
  (forall v, In v (Ventas (almacen s)) ->
             id_venta v = idVenta -> estado_venta v = CANCELADA) ->
  (forall f, In f (Facturas (almacen s)) ->
             id_factura f = idFactura -> f_estado f = ANULADA) ->
  (exists e s',
      cancelarVenta idVenta idUsuario s = (Fallo e, s')
      /\ almacen s' = almacen s
      /\ (averia s = None -> e = VentaNoCancelable /\ s' = s))
  /\
  (exists e s',
      anularFactura idFactura motivo s = (Fallo e, s')
      /\ almacen s' = almacen s
      /\ (averia s = None -> e = FacturaNoAnulable /\ s' = s)).
Proof.
  intros Hv Hf. split.
  - apply cancelarVenta_cancelada. now apply sel_venta_cancelable_cancelada.
  - apply anularFactura_anulada. now apply sel_factura_anulable_anulada.
Qed.

(** ** The checkout *)

Lemma validar_stock_eq {S} (lineas : list LineaCarrito) (c : S) :
  validar_stock lineas c =
  (match faltantes lineas with
   | [] => Exito tt
   | l :: _ => Fallo (StockInsuficiente (l_nombre_producto l) (l_stock l)
                        (l_cantidad l))
   end, c).
Proof.
  unfold validar_stock, faltantes.
  induction lineas as [| l ls IH]; simpl; [reflexivity |].
  unfold bind at 1. destruct (l_cantidad l >? l_stock l); simpl.
  - reflexivity.
  - exact IH.
Qed.

(** A loop of statements that all return has applied them in order. *)
Lemma para_cada_exito {X} (cuerpo : X -> Accion Conexion unit) (g : X -> DB -> DB) :
  (forall x c c', cuerpo x c = (Exito tt, c') -> trabajo c' = g x (trabajo c)) ->
  forall xs c c',
    para_cada cuerpo xs c = (Exito tt, c') ->
    trabajo c' = fold_left (fun d x => g x d) xs (trabajo c).
Proof.
  intros Hg xs. induction xs as [| x xs IH]; intros c c' H; simpl in *.
  - inversion H. reflexivity.
  - apply bind_exito in H as (a & c1 & H1 & H2). destruct a.
    rewrite (IH _ _ H2), (Hg _ _ _ H1). reflexivity.
Qed.

Lemma execute_modificar_exito (u : DB -> DB) c a c' :
  execute (modificar u) c = (Exito a, c') -> trabajo c' = u (trabajo c).
Proof.
  intros H. apply execute_exito in H as [H _]. unfold modificar in H.
  inversion H. reflexivity.
Qed.

Lemma execute_seleccionar_exito {A} (q : DB -> A) c a c' :
  execute (seleccionar q) c = (Exito a, c') ->
  a = q (trabajo c) /\ trabajo c' = trabajo c.
Proof.
  intros H. apply execute_exito in H as [H _]. unfold seleccionar in H.
  inversion H. split; reflexivity.
Qed.

Lemma insertar_detalle_exito idVenta l d a d' :
  insertar_detalle idVenta l d = Exito (a, d') ->
  decimal_10_2 (l_subtotal l) = true /\ d' = poner_detalle idVenta l d.
Proof.
  unfold insertar_detalle.
  destruct (decimal_10_2 (l_subtotal l)); [| discriminate].
  intros H. inversion H. now split.
Qed.

Lemma vender_linea_exito idVenta l c c' :
  (execute (insertar_detalle idVenta l) ;;;
   execute (modificar (descontar_stock (l_cantidad l) (l_id_producto l)))) c
  = (Exito tt, c') ->
  trabajo c' = vender_linea idVenta l (trabajo c).
Proof.
  intros H. apply bind_exito in H as (a & c1 & H1 & H2).
  apply execute_exito in H1 as [H1 _].
  apply insertar_detalle_exito in H1 as [_ H1].
  apply execute_modificar_exito in H2. unfold vender_linea. congruence.
Qed.

(** What a checkout transaction that reaches its end has read and written. *)
Lemma cuerpo_procesarVenta_exito idUsuario c idVenta c' :
  cuerpo_procesarVenta idUsuario c = (Exito idVenta, c') ->
  exists c0 resto,
    sel_carrito idUsuario (trabajo c) = c0 :: resto
    /\ sel_productos_carrito (id_carrito c0) (trabajo c) <> []
    /\ faltantes (sel_productos_carrito (id_carrito c0) (trabajo c)) = []
    /\ idVenta = auto_venta (trabajo c)
    /\ trabajo c' =
       efecto_venta idUsuario (id_carrito c0)
         (sel_productos_carrito (id_carrito c0) (trabajo c)) (trabajo c).
Proof.
  unfold cuerpo_procesarVenta. intros H.
  apply bind_exito in H as (carrito & c1 & H1 & H).
  apply execute_seleccionar_exito in H1 as [-> T1].
  destruct (sel_carrito idUsuario (trabajo c)) as [| c0 resto] eqn:Ecar;
    [discriminate H |].
  apply bind_exito in H as (lineas & c2 & H2 & H).
  apply execute_seleccionar_exito in H2 as [-> T2]. rewrite T1 in *.
  exists c0, resto. split; [reflexivity |].
  destruct (sel_productos_carrito (id_carrito c0) (trabajo c))
    as [| l0 ls] eqn:Elin; [discriminate H |].
  split; [discriminate |].
  apply bind_exito in H as ([] & c3 & H3 & H).
  rewrite validar_stock_eq in H3.
  destruct (faltantes (l0 :: ls)) eqn:Efal; [| discriminate H3].
  inversion H3; subst c3. split; [reflexivity |].
  apply bind_exito in H as (idV & c4 & H4 & H).
  apply execute_exito in H4 as [H4 _]. unfold insertar_venta in H4.
  destruct (decimal_10_2 (totalVenta (l0 :: ls))); [| discriminate H4].
  inversion H4 as [[Eid T4]]. rewrite T2 in *. subst idV.
  apply bind_exito in H as ([] & c5 & H5 & H).
  apply (para_cada_exito _ (vender_linea (auto_venta (trabajo c)))) in H5;
    [| intros x k k'; apply vender_linea_exito].
  apply bind_exito in H as ([] & c6 & H6 & H).
  apply execute_modificar_exito in H6. inversion H; subst.
  split; [reflexivity |].
  unfold efecto_venta. rewrite H6, H5, <- T4. reflexivity.
Qed.

Lemma vender_lineas_eq idVenta lineas d :
  fold_left (fun acc l => vender_linea idVenta l acc) lineas d =
  mkDB (Carritos d) (Productos_Carrito d)
       (descontar_lineas lineas (Productos d))
       (Ventas d)
       (Detalles_Venta d ++ detalles_de_lineas idVenta (auto_detalle d) lineas)
       (Facturas d)
       (auto_venta d) (auto_detalle d + Z.of_nat (List.length lineas))
       (auto_factura d).
Proof.
  revert d. induction lineas as [| l ls IH]; intros d.
  - destruct d. simpl. rewrite app_nil_r, Z.add_0_r. reflexivity.
  - cbn [fold_left]. rewrite IH. unfold vender_linea, descontar_stock,
      poner_detalle, con_Productos, descontar_lineas. cbn [Carritos
      Productos_Carrito Productos Ventas Detalles_Venta Facturas auto_venta
      auto_detalle auto_factura fold_left detalles_de_lineas List.length].
    rewrite <- app_assoc. cbn [app].
    f_equal. lia.
Qed.

Lemma efecto_venta_eq idUsuario idCarrito lineas d :
  efecto_venta idUsuario idCarrito lineas d =
  mkDB (Carritos d)
       (filter (fun pc => negb (pc_id_carrito pc =? idCarrito)) (Productos_Carrito d))
       (descontar_lineas lineas (Productos d))
       (Ventas d ++ [mkVenta (auto_venta d) idUsuario (totalVenta lineas) COMPLETADA])
       (Detalles_Venta d ++ detalles_de_lineas (auto_venta d) (auto_detalle d) lineas)
       (Facturas d)
       (auto_venta d + 1) (auto_detalle d + Z.of_nat (List.length lineas))
       (auto_factura d).
Proof.
  unfold efecto_venta. rewrite vender_lineas_eq. reflexivity.
Qed.

Lemma descontar_lineas_existencias lineas ps :
  map (fun p => (id_producto p, stock p)) (descontar_lineas lineas ps) =
  map (fun p => (id_producto p, stock p - cantidad_pedida (id_producto p) lineas)) ps.
Proof.
  revert ps. unfold descontar_lineas.
  induction lineas as [| l ls IH]; intros ps; cbn [fold_left].
  - apply map_ext. intros p. unfold cantidad_pedida. simpl. f_equal. lia.
  - rewrite IH, map_map. apply map_ext. intros p.
    unfold cantidad_pedida. cbn [filter]. rewrite (Z.eqb_sym (l_id_producto l)).
    destruct (id_producto p =? l_id_producto l) eqn:E; simpl.
    + f_equal. lia.
    + reflexivity.
Qed.

(** *** The cart lines *)

(** Where a cart line comes from: a row of the cart joined with the row of
    an available product. *)
Lemma unir_producto_origen pc ps l :
  In l (unir_producto pc ps) ->
  exists p,
    In p ps /\ pc_id_producto pc = id_producto p /\ estado p = DISPONIBLE
    /\ l = mkLineaCarrito (id_producto p) (pc_cantidad pc) (nombre_producto p)
             (precio p) (stock p) (pc_cantidad pc * precio p).
Proof.
  unfold unir_producto. intros H.
  apply in_flat_map in H as (p & Hp & H).
  destruct (pc_id_producto pc =? id_producto p) eqn:Ep; [| destruct H].
  destruct (estado p) eqn:Ee; simpl in H; try destruct H as [H | []]; try destruct H.
  apply Z.eqb_eq in Ep. exists p. rewrite <- Ep. auto.
Qed.

Lemma linea_origen idCarrito d l :
  In l (sel_productos_carrito idCarrito d) ->
  exists pc p,
    In pc (Productos_Carrito d) /\ In p (Productos d)
    /\ pc_id_carrito pc = idCarrito
    /\ pc_id_producto pc = id_producto p
    /\ estado p = DISPONIBLE
    /\ l = mkLineaCarrito (id_producto p) (pc_cantidad pc) (nombre_producto p)
             (precio p) (stock p) (pc_cantidad pc * precio p).
Proof.
  unfold sel_productos_carrito. intros H.
  apply in_flat_map in H as (pc & Hpc & H).
  destruct (pc_id_carrito pc =? idCarrito) eqn:Ec; [| destruct H].
  apply unir_producto_origen in H as (p & Hp & E1 & E2 & E3).
  apply Z.eqb_eq in Ec. exists pc, p. auto 10.
Qed.

(** A key selects at most one row of a list without repeated keys. *)
Lemma filter_clave_unica {A} (clave : A -> Z) (k : Z) (l : list A) :
  NoDup (map clave l) ->
  filter (fun x => clave x =? k) l = []
  \/ exists x, In x l /\ clave x = k /\ filter (fun x => clave x =? k) l = [x].
Proof.
  induction l as [| y l IH]; intros N; [left; reflexivity |].
  inversion N as [| ? ? Hy Nl]; subst. simpl.
  destruct (clave y =? k) eqn:E.
  - right. exists y. apply Z.eqb_eq in E. split; [now left |]. split; [exact E |].
    f_equal. apply filter_vacio. intros x Hx.
    apply Z.eqb_neq. intros Ex. apply Hy. rewrite E, <- Ex. now apply in_map.
  - destruct (IH Nl) as [-> | (x & Hx & Ek & ->)]; [now left |].
    right. exists x. split; [now right |]. now split.
Qed.

(** The join of a cart row with the products gives at most one line. *)
Lemma unir_producto_unica pc ps :
  NoDup (map id_producto ps) ->
  unir_producto pc ps = [] \/ exists l, unir_producto pc ps = [l].
Proof.
  unfold unir_producto.
  induction ps as [| p ps IH]; intros N; [left; reflexivity |].
  inversion N as [| ? ? Hp Nps]; subst. cbn [flat_map].
  destruct (pc_id_producto pc =? id_producto p) eqn:E; cbn [andb].
  - assert (R : flat_map
                  (fun p0 =>
                     if (pc_id_producto pc =? id_producto p0)
                        && estado_producto_eqb (estado p0) DISPONIBLE
                     then [mkLineaCarrito (pc_id_producto pc) (pc_cantidad pc)
                             (nombre_producto p0) (precio p0) (stock p0)
                             (pc_cantidad pc * precio p0)]
                     else []) ps = []).
    { apply flat_map_vacio. intros q Hq.
      replace (pc_id_producto pc =? id_producto q) with false; [reflexivity |].
      symmetry. apply Z.eqb_neq. intros Eq. apply Hp.
      apply Z.eqb_eq in E. rewrite <- E, Eq. now apply in_map. }
    rewrite R, app_nil_r.
    destruct (estado_producto_eqb (estado p) DISPONIBLE); [right | left]; eauto.
  - apply (IH Nps).
Qed.

Lemma lineas_sin_repetir idCarrito d :
  NoDup (map id_producto (Productos d)) ->
  NoDup (map (fun pc => (pc_id_carrito pc, pc_id_producto pc)) (Productos_Carrito d)) ->
  NoDup (map l_id_producto (sel_productos_carrito idCarrito d)).
Proof.
  intros Np. unfold sel_productos_carrito.
  induction (Productos_Carrito d) as [| pc pcs IH]; intros N; [constructor |].
  inversion N as [| ? ? Hpc Npcs]; subst. cbn [flat_map].
  destruct (pc_id_carrito pc =? idCarrito) eqn:E; [| exact (IH Npcs)].
  destruct (unir_producto_unica pc (Productos d) Np) as [R | [l R]].
  - rewrite R. exact (IH Npcs).
  - assert (Hl : In l (unir_producto pc (Productos d))) by (rewrite R; now left).
    apply unir_producto_origen in Hl as (p & _ & Ep & _ & El).
    rewrite R. cbn [app map]. constructor; [| exact (IH Npcs)].
    intros Hin. apply in_map_iff in Hin as (l' & El' & Hl').
    apply in_flat_map in Hl' as (pc' & Hpc' & Hl').
    destruct (pc_id_carrito pc' =? idCarrito) eqn:E'; [| destruct Hl'].
    apply unir_producto_origen in Hl' as (p' & _ & Ep' & _ & El'').
    apply Hpc. apply in_map_iff. exists pc'. split; [| exact Hpc'].
    apply Z.eqb_eq in E, E'. rewrite E, E'. f_equal.
    rewrite Ep, Ep'. subst l l'. simpl in El'. exact El'.
Qed.

(** *** The lines of the new sale *)

Lemma detalles_de_lineas_venta idVenta n lineas dv :
  In dv (detalles_de_lineas idVenta n lineas) -> dv_id_venta dv = idVenta.
Proof.
  revert n. induction lineas as [| l ls IH]; intros n H; [destruct H |].
  destruct H as [<- | H]; [reflexivity | exact (IH _ H)].
Qed.

Lemma filter_todo {A} (f : A -> bool) l :
  (forall x, In x l -> f x = true) -> filter f l = l.
Proof.
  induction l as [| x l IH]; intros H; simpl; [reflexivity |].
  rewrite (H x (or_introl eq_refl)). f_equal. apply IH.
  intros y Hy. apply H. now right.
Qed.

(** No line on file belongs to the sale about to be created. *)
Lemma sin_detalles_previos d :
  esquema d -> sel_detalles (auto_venta d) d = [].
Proof.
  intros E. apply filter_vacio. intros dv Hdv.
  apply Z.eqb_neq. intros Eq.
  apply (fk_detalles_venta d E) in Hdv.
  apply in_map_iff in Hdv as (v & Ev & Hv).
  apply (auto_venta_libre d E) in Hv. lia.
Qed.

Lemma sel_detalles_nueva_venta idUsuario idCarrito lineas d :
  esquema d ->
  sel_detalles (auto_venta d) (efecto_venta idUsuario idCarrito lineas d) =
  detalles_de_lineas (auto_venta d) (auto_detalle d) lineas.
Proof.
  intros E. rewrite efecto_venta_eq. unfold sel_detalles.
  cbn [Detalles_Venta]. rewrite filter_app.
  fold (sel_detalles (auto_venta d) d). rewrite (sin_detalles_previos d E).
  apply filter_todo. intros dv Hdv. apply Z.eqb_eq.
  exact (detalles_de_lineas_venta _ _ _ _ Hdv).
Qed.

Lemma cantidad_detalles_de_lineas idProducto idVenta n lineas :
  suma (map dv_cantidad
          (filter (fun dv => dv_id_producto dv =? idProducto)
                  (detalles_de_lineas idVenta n lineas)))
  = cantidad_pedida idProducto lineas.
Proof.
  unfold cantidad_pedida. revert n.
  induction lineas as [| l ls IH]; intros n; [reflexivity |].
  cbn [detalles_de_lineas filter dv_id_producto].
  destruct (l_id_producto l =? idProducto); simpl; rewrite IH; reflexivity.
Qed.

Lemma cantidad_vendida_nueva_venta idProducto idUsuario idCarrito lineas d :
  esquema d ->
  cantidad_vendida idProducto (auto_venta d)
    (efecto_venta idUsuario idCarrito lineas d)
  = cantidad_pedida idProducto lineas.
Proof.
  intros E. unfold cantidad_vendida.
  rewrite (sel_detalles_nueva_venta _ _ _ _ E).
  apply cantidad_detalles_de_lineas.
Qed.

(** The stock table after a checkout: every product has lost what the cart
    lines asked of it. *)
Lemma existencias_efecto_venta idUsuario idCarrito lineas d :
  existencias (efecto_venta idUsuario idCarrito lineas d) =
  map (fun iq => (fst iq, snd iq - cantidad_pedida (fst iq) lineas))
      (existencias d).
Proof.
  rewrite efecto_venta_eq. unfold existencias. cbn [Productos].
  rewrite descontar_lineas_existencias, map_map. reflexivity.
Qed.

(** *** The read paths *)

Lemma obtenerVentaPorId_exito idVenta s vc s' :
  obtenerVentaPorId idVenta s = (Exito vc, s') ->
  mismo_exterior s s'
  /\ (exists resto,
         filter (fun v => id_venta v =? idVenta) (Ventas (almacen s))
         = ventaData vc :: resto).
Proof.
  intros H. split; [exact (obtenerVentaPorId_solo_lee _ _ _ _ H) |].
  unfold obtenerVentaPorId in H.
  apply bind_exito in H as (venta & s1 & H1 & H).
  apply db_execute_seleccionar in H1 as [_ H1].
  rewrite (H1 venta eq_refl) in H.
  destruct (filter (fun v => id_venta v =? idVenta) (Ventas (almacen s)))
    as [| v0 resto]; [discriminate H |].
  apply bind_exito in H as (dets & s2 & _ & H). inversion H.
  exists resto. reflexivity.
Qed.

(** What a checkout that returns a sale has committed. *)
Lemma procesarVenta_exito idUsuario s vc s' :
  procesarVentaDesdeCarrito idUsuario s = (Exito vc, s') ->
  exists c0 resto,
    sel_carrito idUsuario (almacen s) = c0 :: resto
    /\ sel_productos_carrito (id_carrito c0) (almacen s) <> []
    /\ faltantes (sel_productos_carrito (id_carrito c0) (almacen s)) = []
    /\ almacen s' =
       efecto_venta idUsuario (id_carrito c0)
         (sel_productos_carrito (id_carrito c0) (almacen s)) (almacen s)
    /\ hoy s' = hoy s
    /\ id_venta (ventaData vc) = auto_venta (almacen s)
    /\ In (ventaData vc) (Ventas (almacen s')).
Proof.
  unfold procesarVentaDesdeCarrito. intros H.
  apply bind_exito in H as (idVenta & s1 & H1 & H2).
  apply conTransaccion_exito in H1 as (c1 & H1 & A1 & F1).
  pose proof (cuerpo_procesarVenta_respeta _ _ _ _ H1) as [_ X]. simpl in X.
  apply cuerpo_procesarVenta_exito in H1
    as (c0 & resto & Ecar & Hne & Hfal & Eid & Etr). simpl in *.
  apply obtenerVentaPorId_exito in H2 as [[A2 F2] [r Hv]].
  exists c0, resto. repeat (split; [assumption || congruence |]).
  assert (Hin : In (ventaData vc)
                   (filter (fun v => id_venta v =? idVenta) (Ventas (almacen s1))))
    by (rewrite Hv; now left).
  apply filter_In in Hin as [Hin Hid]. apply Z.eqb_eq in Hid.
  split; [congruence | now rewrite A2].
Qed.

(** All or nothing: whatever [procesarVentaDesdeCarrito] answers, the store
    is either the one it found or the one of a whole checkout. *)
Lemma procesarVenta_todo_o_nada idUsuario s r s' :
  procesarVentaDesdeCarrito idUsuario s = (r, s') ->
  hoy s' = hoy s
  /\ ((almacen s' = almacen s /\ exists e, r = Fallo e)
      \/ exists c0 resto,
           sel_carrito idUsuario (almacen s) = c0 :: resto
           /\ faltantes (sel_productos_carrito (id_carrito c0) (almacen s)) = []
           /\ almacen s' =
              efecto_venta idUsuario (id_carrito c0)
                (sel_productos_carrito (id_carrito c0) (almacen s)) (almacen s)).
Proof.
  unfold procesarVentaDesdeCarrito, bind. intros H.
  destruct (conTransaccion (cuerpo_procesarVenta idUsuario) s)
    as [[idVenta | e] s1] eqn:T.
  - apply conTransaccion_exito in T as (c1 & H1 & A1 & F1).
    pose proof (cuerpo_procesarVenta_respeta _ _ _ _ H1) as [_ X]. simpl in X.
    apply cuerpo_procesarVenta_exito in H1
      as (c0 & resto & Ecar & Hne & Hfal & Eid & Etr). simpl in *.
    apply obtenerVentaPorId_solo_lee in H as [A2 F2].
    split; [congruence |]. right. exists c0, resto.
    repeat (split; [assumption |]). congruence.
  - inversion H; subst.
    apply conTransaccion_fallo in T as [A F];
      [| apply cuerpo_procesarVenta_respeta].
    split; [exact F |]. left. split; [exact A | now exists e].
Qed.

(** *** Stock never goes below zero *)

Lemma clave_inyectiva {A} (clave : A -> Z) (l : list A) a b :
  NoDup (map clave l) -> In a l -> In b l -> clave a = clave b -> a = b.
Proof.
  induction l as [| x l IH]; intros N Ha Hb E; [destruct Ha |].
  inversion N as [| ? ? Hx Nl]; subst.
  destruct Ha as [-> | Ha], Hb as [-> | Hb].
  - reflexivity.
  - exfalso. apply Hx. rewrite E. now apply in_map.
  - exfalso. apply Hx. rewrite <- E. now apply in_map.
  - exact (IH Nl Ha Hb E).
Qed.

(** Under the keys of the schema, what the cart asks of a product is the
    quantity of its one line, and the validated line fits in the stock. *)
Lemma cantidad_pedida_cabe idCarrito d p :
  esquema d -> stock_no_negativo d -> In p (Productos d) ->
  faltantes (sel_productos_carrito idCarrito d) = [] ->
  cantidad_pedida (id_producto p) (sel_productos_carrito idCarrito d) <= stock p.
Proof.
  intros E Hpos Hp Hfal. unfold cantidad_pedida.
  destruct (filter_clave_unica l_id_producto (id_producto p)
              (sel_productos_carrito idCarrito d)
              (lineas_sin_repetir idCarrito d (pk_productos d E)
                 (pk_productos_carrito d E)))
    as [-> | (l & Hl & Eid & ->)].
  - simpl. exact (Hpos p Hp).
  - simpl. rewrite Z.add_0_r.
    assert (Hok : (l_cantidad l >? l_stock l) = false).
    { destruct (l_cantidad l >? l_stock l) eqn:G; [| reflexivity].
      assert (X : In l (faltantes (sel_productos_carrito idCarrito d)))
        by (apply filter_In; split; assumption).
      rewrite Hfal in X. destruct X. }
    apply linea_origen in Hl as (pc & q & _ & Hq & _ & _ & _ & El).
    assert (q = p).
    { apply (clave_inyectiva id_producto (Productos d));
        [exact (pk_productos d E) | assumption | assumption |].
      rewrite <- Eid, El. reflexivity. }
    subst q. rewrite El in Hok. simpl in Hok. rewrite El. simpl. lia.
Qed.

Lemma stock_no_negativo_efecto_venta idUsuario idCarrito d :
  esquema d -> stock_no_negativo d ->
  faltantes (sel_productos_carrito idCarrito d) = [] ->
  stock_no_negativo
    (efecto_venta idUsuario idCarrito (sel_productos_carrito idCarrito d) d).
Proof.
  intros E Hpos Hfal p' Hp'.
  assert (X : In (id_producto p', stock p')
                 (existencias (efecto_venta idUsuario idCarrito
                                 (sel_productos_carrito idCarrito d) d))).
  { unfold existencias.
    apply (in_map (fun p => (id_producto p, stock p))). exact Hp'. }
  rewrite existencias_efecto_venta in X. unfold existencias in X.
  rewrite map_map in X. apply in_map_iff in X as (p & Ep & Hp).
  simpl in Ep. inversion Ep as [[Eid Est]].
  pose proof (cantidad_pedida_cabe idCarrito d p E Hpos Hp Hfal). lia.
Qed.

(** X20.  Served alone, a checkout keeps the stock.  On a store that keeps
    the keys of the schema and has no stock below zero, whatever the
    checkout answers it leaves no stock below zero; and when it returns a
    sale, every product's stock is its stock before the checkout minus the
    quantity that the lines of the sale record for that product (nothing,
    for a product that was not sold). *)
Theorem conservacion_de_stock
  (s : Sistema) (idUsuario : Z) (r : Resultado VentaCompleta) (s' : Sistema) :
  esquema (almacen s) ->
  stock_no_negativo (almacen s) ->
  procesarVentaDesdeCarrito idUsuario s = (r, s') ->
  stock_no_negativo (almacen s')
  /\ (forall vc, r = Exito vc ->
        existencias (almacen s') =
        map (fun iq =>
               (fst iq,
                snd iq - cantidad_vendida (fst iq) (id_venta (ventaData vc))
                           (almacen s')))
            (existencias (almacen s))).
Proof.
  intros E Hpos H. split.
  - apply procesarVenta_todo_o_nada in H
      as [_ [[-> _] | (c0 & resto & _ & Hfal & ->)]]; [exact Hpos |].
    now apply stock_no_negativo_efecto_venta.
  - intros vc ->.
    apply procesarVenta_exito in H
      as (c0 & resto & _ & _ & _ & -> & _ & -> & _).
    rewrite existencias_efecto_venta. apply map_ext. intros [i q]. simpl.
    rewrite (cantidad_vendida_nueva_venta _ _ _ _ _ E). reflexivity.
Qed.

(** ** Invoice issuance *)

Lemma generarNumeroFactura_exito s n s' :
  generarNumeroFactura s = (Exito n, s') ->
  n = numero_siguiente (hoy s) (almacen s) /\ mismo_exterior s s'.
Proof.
  intros H. split; [| exact (generarNumeroFactura_solo_lee _ _ _ H)].
  unfold generarNumeroFactura in H.
  apply bind_exito in H as (f & s1 & H1 & H). inversion H1; subst f s1.
  apply bind_exito in H as (u & s2 & H2 & H).
  apply db_execute_seleccionar in H2 as [_ H2]. rewrite (H2 u eq_refl) in H.
  inversion H. reflexivity.
Qed.

Lemma generarNumeroFactura_sano s :
  averia s = None ->
  generarNumeroFactura s = (Exito (numero_siguiente (hoy s) (almacen s)), s).
Proof.
  intros H. unfold generarNumeroFactura, bind, ahora.
  rewrite (db_execute_sano _ _ H). unfold seleccionar, ret, numero_siguiente.
  destruct s as [d f a]. simpl in *. subst a. reflexivity.
Qed.

Lemma insertar_factura_exito idVenta numero monto d idFactura d' :
  insertar_factura idVenta numero monto d = Exito (idFactura, d') ->
  existsb (fun f => f_id_venta f =? idVenta) (Facturas d) = false
  /\ existsb (fun f => String.eqb (numero_factura f) numero) (Facturas d) = false
  /\ idFactura = auto_factura d
  /\ d' = poner_factura idVenta numero monto d.
Proof.
  unfold insertar_factura.
  destruct (existsb (fun f => f_id_venta f =? idVenta) (Facturas d));
    [discriminate |].
  destruct (existsb (fun f => String.eqb (numero_factura f) numero) (Facturas d));
    [discriminate |].
  intros H. inversion H. auto.
Qed.

(** What an issuance transaction that reaches its end has read and
    written. *)
Lemma cuerpo_generarFactura_exito idVenta c idFactura c' :
  cuerpo_generarFactura idVenta c = (Exito idFactura, c') ->
  exists v previa resto,
    sel_venta_facturable idVenta (trabajo c) = (v, previa) :: resto
    /\ verdadero previa = false
    /\ idFactura = auto_factura (trabajo c)
    /\ insertar_factura idVenta
         (numero_siguiente (hoy (fuera c)) (almacen (fuera c)))
         (total_venta v) (trabajo c)
       = Exito (idFactura, trabajo c')
    /\ trabajo c' =
       poner_factura idVenta
         (numero_siguiente (hoy (fuera c)) (almacen (fuera c)))
         (total_venta v) (trabajo c).
Proof.
  unfold cuerpo_generarFactura. intros H.
  apply bind_exito in H as (venta & c1 & H1 & H).
  pose proof (respeta_execute _ _ _ _ H1) as [X1 X2].
  apply execute_seleccionar_exito in H1 as [-> T1].
  destruct (sel_venta_facturable idVenta (trabajo c)) as [| [v previa] resto];
    [discriminate H |].
  exists v, previa, resto. split; [reflexivity |].
  destruct (verdadero previa); [discriminate H |]. split; [reflexivity |].
  apply bind_exito in H as (numero & c2 & H2 & H).
  unfold por_el_pool in H2.
  destruct (generarNumeroFactura (fuera c1)) as [rn sn] eqn:G.
  inversion H2; subst rn c2. apply generarNumeroFactura_exito in G as [-> _].
  rewrite X1, X2 in H.
  apply execute_exito in H as [H _]. simpl in H. rewrite T1 in H.
  pose proof (insertar_factura_exito _ _ _ _ _ _ H) as (_ & _ & Eid & Etr).
  subst idFactura. split; [reflexivity |]. split; [exact H | exact Etr].
Qed.

Lemma obtenerFacturaPorId_exito idFactura s fc s' :
  obtenerFacturaPorId idFactura s = (Exito fc, s') ->
  mismo_exterior s s'
  /\ (exists resto,
         sel_factura_con_venta idFactura (almacen s)
         = (facturaData fc, fc_venta fc) :: resto).
Proof.
  intros H. split; [exact (obtenerFacturaPorId_solo_lee _ _ _ _ H) |].
  unfold obtenerFacturaPorId in H.
  apply bind_exito in H as (factura & s1 & H1 & H).
  apply db_execute_seleccionar in H1 as [_ H1].
  rewrite (H1 factura eq_refl) in H.
  destruct (sel_factura_con_venta idFactura (almacen s))
    as [| [f v] resto]; [discriminate H |].
  apply bind_exito in H as (dets & s2 & _ & H). inversion H.
  exists resto. reflexivity.
Qed.

Lemma sel_factura_con_venta_In idFactura d f v :
  In (f, v) (sel_factura_con_venta idFactura d) ->
  In f (Facturas d) /\ In v (Ventas d)
  /\ id_factura f = idFactura /\ f_id_venta f = id_venta v.
Proof.
  unfold sel_factura_con_venta. intros H.
  apply in_flat_map in H as (f0 & Hf & H).
  destruct (id_factura f0 =? idFactura) eqn:E; [| destruct H].
  apply in_flat_map in H as (v0 & Hv & H).
  destruct (f_id_venta f0 =? id_venta v0) eqn:E'; [| destruct H].
  destruct H as [H | []]. inversion H; subst.
  apply Z.eqb_eq in E, E'. auto.
Qed.

Lemma sel_venta_facturable_In idVenta d v previa :
  In (v, previa) (sel_venta_facturable idVenta d) ->
  In v (Ventas d) /\ id_venta v = idVenta /\ estado_venta v = COMPLETADA.
Proof.
  unfold sel_venta_facturable. intros H.
  apply in_flat_map in H as (v0 & Hv & H).
  destruct (id_venta v0 =? idVenta) eqn:E; [| destruct H].
  destruct (estado_venta v0) eqn:Ee; [| destruct H]. simpl in H.
  apply Z.eqb_eq in E.
  assert (v = v0).
  { destruct (filter (fun f => id_venta v0 =? f_id_venta f) (Facturas d))
      as [| f0 fs].
    - destruct H as [H | []]. now inversion H.
    - change (In (v, previa)
                 (map (fun f => (v0, Some (id_factura f))) (f0 :: fs))) in H.
      apply in_map_iff in H as (f & H & _). now inversion H. }
  subst v0. auto.
Qed.

(** What an issuance that returns an invoice has committed. *)
Lemma generarFactura_exito idVenta s fc s' :
  esquema (almacen s) ->
  generarFactura idVenta s = (Exito fc, s') ->
  exists v,
    In v (Ventas (almacen s)) /\ id_venta v = idVenta
    /\ estado_venta v = COMPLETADA
    /\ almacen s' =
       poner_factura idVenta (numero_siguiente (hoy s) (almacen s))
         (total_venta v) (almacen s)
    /\ hoy s' = hoy s
    /\ facturaData fc =
       mkFactura (auto_factura (almacen s)) idVenta
         (numero_siguiente (hoy s) (almacen s)) (total_venta v) EMITIDA
    /\ In (fc_venta fc) (Ventas (almacen s))
    /\ id_venta (fc_venta fc) = idVenta.
Proof.
  intros E. unfold generarFactura. intros H.
  apply bind_exito in H as (idFactura & s1 & H1 & H2).
  apply conTransaccion_exito in H1 as (c1 & H1 & A1 & F1).
  pose proof (cuerpo_generarFactura_respeta _ _ _ _ H1) as [_ X]. simpl in X.
  apply cuerpo_generarFactura_exito in H1
    as (v & previa & resto & Esel & _ & Eid & _ & Etr). simpl in *.
  assert (Hv : In (v, previa) (sel_venta_facturable idVenta (almacen s)))
    by (rewrite Esel; now left).
  apply sel_venta_facturable_In in Hv as (Hv & Ev & Ec).
  exists v. repeat (split; [assumption || congruence |]).
  apply obtenerFacturaPorId_exito in H2 as [[A2 F2] [r Hr]].
  split; [congruence |]. split; [congruence |].
  assert (Hin : In (facturaData fc, fc_venta fc)
                   (sel_factura_con_venta idFactura (almacen s1)))
    by (rewrite Hr; now left).
  apply sel_factura_con_venta_In in Hin as (Hf & Hv' & Ef & Efv).
  rewrite A1, Etr in Hf, Hv'. unfold poner_factura in Hf, Hv'.
  cbn [Facturas Ventas] in Hf, Hv'.
  apply in_app_or in Hf as [Hf | [Hf | []]].
  - apply (auto_factura_libre _ E) in Hf. lia.
  - rewrite <- Hf in *. simpl in Efv. split; [reflexivity |].
    split; [exact Hv' | congruence].
Qed.

(** ** Totals *)

Lemma totalVenta_suma_desde lineas a :
  fold_left (fun total producto => total + l_subtotal producto) lineas a
  = a + suma (map l_subtotal lineas).
Proof.
  revert a. induction lineas as [| l ls IH]; intros a; simpl; [lia |].
  rewrite IH. unfold suma. lia.
Qed.

Lemma totalVenta_suma lineas : totalVenta lineas = suma (map l_subtotal lineas).
Proof. unfold totalVenta. now rewrite totalVenta_suma_desde. Qed.

Lemma subtotales_detalles_de_lineas idVenta n lineas :
  map subtotal_linea (detalles_de_lineas idVenta n lineas) = map l_subtotal lineas.
Proof.
  revert n. induction lineas as [| l ls IH]; intros n; simpl; [reflexivity |].
  now rewrite IH.
Qed.

Lemma detalles_de_lineas_In idVenta n lineas dv :
  In dv (detalles_de_lineas idVenta n lineas) ->
  exists l, In l lineas
            /\ dv_id_producto dv = l_id_producto l
            /\ dv_cantidad dv = l_cantidad l
            /\ precio_unitario dv = l_precio l
            /\ subtotal_linea dv = l_subtotal l.
Proof.
  revert n. induction lineas as [| l ls IH]; intros n H; [destruct H |].
  destruct H as [<- | H].
  - exists l. simpl. auto.
  - destruct (IH _ H) as (l' & Hl' & R). exists l'. split; [now right | exact R].
Qed.

(** C6.  The total of the sale a checkout returns is the sum of the
    subtotals of the lines recorded for it, and the subtotal of each of these
    lines is its quantity times its unit price; the amount of the invoice an
    issuance returns is the total of the sale it refers to. *)
Theorem totales_conciliados
  (s : Sistema) (idUsuario : Z) (vc : VentaCompleta) (s1 : Sistema)
  (t : Sistema) (idVenta : Z) (fc : FacturaCompleta) (t1 : Sistema) :
  esquema (almacen s) ->
  procesarVentaDesdeCarrito idUsuario s = (Exito vc, s1) ->
  esquema (almacen t) ->
  generarFactura idVenta t = (Exito fc, t1) ->
  (total_venta (ventaData vc)
   = suma (map subtotal_linea
             (sel_detalles (id_venta (ventaData vc)) (almacen s1)))
   /\ forall dv,
        In dv (sel_detalles (id_venta (ventaData vc)) (almacen s1)) ->
        subtotal_linea dv = dv_cantidad dv * precio_unitario dv)
  /\
  (In (facturaData fc) (Facturas (almacen t1))
   /\ monto_total (facturaData fc) = total_venta (fc_venta fc)
   /\ forall v, In v (Ventas (almacen t1)) ->
                id_venta v = f_id_venta (facturaData fc) ->
                monto_total (facturaData fc) = total_venta v).
Proof.
  intros E H Et Hf. split.
  - apply procesarVenta_exito in H
      as (c0 & resto & _ & _ & _ & -> & _ & Eid & Hin).
    rewrite Eid, (sel_detalles_nueva_venta _ _ _ _ E).
    rewrite efecto_venta_eq in Hin. cbn [Ventas] in Hin.
    apply in_app_or in Hin as [Hin | [Hin | []]].
    + apply (auto_venta_libre _ E) in Hin. lia.
    + split.
      * rewrite <- Hin. simpl.
        now rewrite subtotales_detalles_de_lineas, totalVenta_suma.
      * intros dv Hdv.
        apply detalles_de_lineas_In in Hdv as (l & Hl & _ & -> & -> & ->).
        apply linea_origen in Hl as (pc & p & _ & _ & _ & _ & _ & ->).
        reflexivity.
  - apply (generarFactura_exito _ _ _ _ Et) in Hf
      as (v & Hv & Ev & _ & -> & _ & Efc & Hv' & Ev').
    assert (U : forall w, In w (Ventas (almacen t)) -> id_venta w = idVenta -> w = v).
    { intros w Hw Ew.
      apply (clave_inyectiva id_venta (Ventas (almacen t)));
        [exact (pk_ventas _ Et) | assumption | assumption | congruence]. }
    rewrite Efc. cbn [Facturas Ventas poner_factura monto_total f_id_venta].
    split; [apply in_or_app; right; now left |].
    split.
    + now rewrite (U _ Hv' Ev').
    + intros w Hw Ew. now rewrite (U _ Hw Ew).
Qed.

(** ** Compensations *)

Lemma reponer_lineas_eq dets d :
  reponer_lineas dets d = con_Productos d (reponer_productos dets (Productos d)).
Proof.
  unfold reponer_lineas, reponer_productos. revert d.
  induction dets as [| dv dets IH]; intros d; cbn [fold_left].
  - destruct d. reflexivity.
  - rewrite IH. unfold reponer_stock, con_Productos. reflexivity.
Qed.

Lemma reponer_productos_existencias dets ps :
  map (fun p => (id_producto p, stock p)) (reponer_productos dets ps) =
  map (fun p =>
         (id_producto p,
          stock p
          + suma (map dv_cantidad
                    (filter (fun dv => dv_id_producto dv =? id_producto p) dets))))
      ps.
Proof.
  revert ps. unfold reponer_productos.
  induction dets as [| dv dets IH]; intros ps; cbn [fold_left].
  - apply map_ext. intros p. simpl. f_equal. lia.
  - rewrite IH, map_map. apply map_ext. intros p.
    cbn [filter]. rewrite (Z.eqb_sym (dv_id_producto dv)).
    destruct (id_producto p =? dv_id_producto dv) eqn:E; simpl.
    + f_equal. lia.
    + reflexivity.
Qed.

(** The stock table after a cancellation: every product has got back what
    the lines of the sale record for it. *)
Lemma existencias_efecto_cancelar idVenta d :
  existencias (efecto_cancelar idVenta d) =
  map (fun iq => (fst iq, snd iq + cantidad_vendida (fst iq) idVenta d))
      (existencias d).
Proof.
  unfold efecto_cancelar, existencias, marcar_venta_cancelada, con_Ventas.
  cbn [Productos]. rewrite reponer_lineas_eq. cbn [con_Productos Productos].
  rewrite reponer_productos_existencias, map_map. reflexivity.
Qed.

Lemma existencias_efecto_anular idFactura v d :
  estado_venta v = COMPLETADA ->
  existencias (efecto_anular idFactura v d) =
  map (fun iq => (fst iq, snd iq + cantidad_vendida (fst iq) (id_venta v) d))
      (existencias d).
Proof.
  intros Ev. unfold efecto_anular. rewrite Ev, reponer_lineas_eq.
  unfold existencias. cbn [con_Productos Productos marcar_venta_cancelada
    con_Ventas marcar_factura_anulada con_Facturas].
  rewrite reponer_productos_existencias, map_map. reflexivity.
Qed.

Lemma reponer_lineas_exito dets c c' :
  para_cada
    (fun detalle =>
       execute (modificar (reponer_stock (dv_cantidad detalle)
                             (dv_id_producto detalle))))
    dets c = (Exito tt, c') ->
  trabajo c' = reponer_lineas dets (trabajo c).
Proof.
  intros H.
  apply (para_cada_exito _
           (fun dv => reponer_stock (dv_cantidad dv) (dv_id_producto dv))) in H.
  - exact H.
  - intros x k k'. apply execute_modificar_exito.
Qed.

Lemma cuerpo_cancelarVenta_exito idVenta idUsuario c b c' :
  cuerpo_cancelarVenta idVenta idUsuario c = (Exito b, c') ->
  sel_venta_cancelable idVenta idUsuario (trabajo c) <> []
  /\ b = true
  /\ trabajo c' = efecto_cancelar idVenta (trabajo c).
Proof.
  unfold cuerpo_cancelarVenta. intros H.
  apply bind_exito in H as (venta & c1 & H1 & H).
  apply execute_seleccionar_exito in H1 as [-> T1].
  destruct (sel_venta_cancelable idVenta idUsuario (trabajo c));
    [discriminate H |].
  split; [discriminate |].
  apply bind_exito in H as (dets & c2 & H2 & H).
  apply execute_seleccionar_exito in H2 as [-> T2].
  apply bind_exito in H as ([] & c3 & H3 & H).
  apply reponer_lineas_exito in H3.
  apply bind_exito in H as ([] & c4 & H4 & H).
  apply execute_modificar_exito in H4. inversion H; subst.
  split; [reflexivity |]. unfold efecto_cancelar. congruence.
Qed.

(** What a cancellation that returns has committed. *)
Lemma cancelarVenta_exito idVenta idUsuario s b s' :
  cancelarVenta idVenta idUsuario s = (Exito b, s') ->
  sel_venta_cancelable idVenta idUsuario (almacen s) <> []
  /\ b = true
  /\ almacen s' = efecto_cancelar idVenta (almacen s)
  /\ hoy s' = hoy s.
Proof.
  unfold cancelarVenta. intros H.
  apply conTransaccion_exito in H as (c1 & H1 & A1 & F1).
  pose proof (cuerpo_cancelarVenta_respeta _ _ _ _ _ H1) as [_ X]. simpl in X.
  apply cuerpo_cancelarVenta_exito in H1 as (Hne & -> & Etr). simpl in *.
  repeat split; congruence.
Qed.

Lemma cuerpo_anularFactura_exito idFactura c c' :
  cuerpo_anularFactura idFactura c = (Exito tt, c') ->
  exists f v resto,
    sel_factura_anulable idFactura (trabajo c) = (f, v) :: resto
    /\ trabajo c' = efecto_anular idFactura v (trabajo c).
Proof.
  unfold cuerpo_anularFactura. intros H.
  apply bind_exito in H as (factura & c1 & H1 & H).
  apply execute_seleccionar_exito in H1 as [-> T1].
  destruct (sel_factura_anulable idFactura (trabajo c)) as [| [f v] resto];
    [discriminate H |].
  exists f, v, resto. split; [reflexivity |].
  apply bind_exito in H as ([] & c2 & H2 & H).
  apply execute_modificar_exito in H2.
  unfold efecto_anular. destruct (estado_venta v).
  - apply bind_exito in H as ([] & c3 & H3 & H).
    apply execute_modificar_exito in H3.
    apply bind_exito in H as (dets & c4 & H4 & H).
    apply execute_seleccionar_exito in H4 as [-> T4].
    apply reponer_lineas_exito in H. congruence.
  - inversion H; subst. congruence.
Qed.

(** What a voiding that returns has committed. *)
Lemma anularFactura_exito idFactura motivo s fc s' :
  anularFactura idFactura motivo s = (Exito fc, s') ->
  exists f v resto,
    sel_factura_anulable idFactura (almacen s) = (f, v) :: resto
    /\ almacen s' = efecto_anular idFactura v (almacen s)
    /\ hoy s' = hoy s.
Proof.
  unfold anularFactura. intros H.
  apply bind_exito in H as ([] & s1 & H1 & H2).
  apply conTransaccion_exito in H1 as (c1 & H1 & A1 & F1).
  pose proof (cuerpo_anularFactura_respeta _ _ _ _ H1) as [_ X]. simpl in X.
  apply cuerpo_anularFactura_exito in H1 as (f & v & resto & Esel & Etr).
  simpl in *. apply obtenerFacturaPorId_solo_lee in H2 as [A2 F2].
  exists f, v, resto. repeat split; congruence.
Qed.

(** ** The schema is kept *)

Lemma NoDup_map_filter {A B} (f : A -> B) (g : A -> bool) l :
  NoDup (map f l) -> NoDup (map f (filter g l)).
Proof.
  induction l as [| x l IH]; intros N; [constructor |].
  inversion N as [| ? ? Hx Nl]; subst. simpl.
  destruct (g x); [| exact (IH Nl)].
  simpl. constructor; [| exact (IH Nl)].
  intros H. apply Hx. apply in_map_iff in H as (y & Ey & Hy).
  apply filter_In in Hy as [Hy _]. rewrite <- Ey. now apply in_map.
Qed.

Lemma NoDup_snoc {A} (l : list A) x : NoDup l -> ~ In x l -> NoDup (l ++ [x]).
Proof.
  intros N Hx. induction N as [| y l Hy N IH]; simpl.
  - constructor; [intros [] | constructor].
  - constructor.
    + intros H. apply in_app_or in H as [H | [H | []]]; [now apply Hy |].
      apply Hx. now left.
    + apply IH. intros H. apply Hx. now right.
Qed.

Lemma descontar_lineas_ids lineas ps :
  map id_producto (descontar_lineas lineas ps) = map id_producto ps.
Proof.
  pose proof (descontar_lineas_existencias lineas ps) as H.
  apply (f_equal (map fst)) in H. rewrite !map_map in H. exact H.
Qed.

Lemma reponer_productos_ids dets ps :
  map id_producto (reponer_productos dets ps) = map id_producto ps.
Proof.
  pose proof (reponer_productos_existencias dets ps) as H.
  apply (f_equal (map fst)) in H. rewrite !map_map in H. exact H.
Qed.

Lemma esquema_efecto_venta idUsuario idCarrito lineas d :
  esquema d -> esquema (efecto_venta idUsuario idCarrito lineas d).
Proof.
  intros E. rewrite efecto_venta_eq. destruct E.
  constructor; cbn [Productos Productos_Carrito Ventas Facturas Detalles_Venta
                    auto_venta auto_factura]; try assumption.
  - now rewrite descontar_lineas_ids.
  - now apply NoDup_map_filter.
  - rewrite map_app. apply NoDup_snoc; [assumption |]. simpl.
    intros H. apply in_map_iff in H as (v & Ev & Hv).
    apply auto_venta_libre0 in Hv. lia.
  - intros dv Hdv. rewrite map_app. apply in_or_app.
    apply in_app_or in Hdv as [Hdv | Hdv].
    + left. now apply fk_detalles_venta0.
    + right. apply detalles_de_lineas_venta in Hdv. rewrite Hdv. now left.
  - intros f Hf. rewrite map_app. apply in_or_app. left.
    now apply fk_facturas_venta0.
  - intros v Hv. apply in_app_or in Hv as [Hv | [<- | []]].
    + apply auto_venta_libre0 in Hv. lia.
    + simpl. lia.
Qed.

Lemma map_id_venta_cancelada idVenta vs :
  map id_venta
    (map (fun v => if id_venta v =? idVenta
                   then mkVenta (id_venta v) (v_id_usuario v) (total_venta v) CANCELADA
                   else v) vs)
  = map id_venta vs.
Proof.
  rewrite map_map. apply map_ext. intros v.
  destruct (id_venta v =? idVenta); reflexivity.
Qed.

Lemma esquema_marcar_venta_cancelada idVenta d :
  esquema d -> esquema (marcar_venta_cancelada idVenta d).
Proof.
  intros E. destruct E. unfold marcar_venta_cancelada, con_Ventas.
  constructor; cbn [Productos Productos_Carrito Ventas Facturas Detalles_Venta
                    auto_venta auto_factura];
    try rewrite map_id_venta_cancelada; try assumption.
  intros v Hv. apply in_map_iff in Hv as (w & Ew & Hw).
  apply auto_venta_libre0 in Hw.
  destruct (id_venta w =? idVenta); subst v; simpl; lia.
Qed.

Lemma esquema_reponer_lineas dets d :
  esquema d -> esquema (reponer_lineas dets d).
Proof.
  intros E. rewrite reponer_lineas_eq. destruct E. unfold con_Productos.
  constructor; cbn [Productos Productos_Carrito Ventas Facturas Detalles_Venta
                    auto_venta auto_factura]; try assumption.
  now rewrite reponer_productos_ids.
Qed.

Lemma esquema_efecto_cancelar idVenta d :
  esquema d -> esquema (efecto_cancelar idVenta d).
Proof.
  intros E. unfold efecto_cancelar.
  now apply esquema_marcar_venta_cancelada, esquema_reponer_lineas.
Qed.

Lemma esquema_poner_factura idVenta numero monto d idFactura d' :
  esquema d ->
  In idVenta (map id_venta (Ventas d)) ->
  insertar_factura idVenta numero monto d = Exito (idFactura, d') ->
  esquema d'.
Proof.
  intros E Hv H.
  apply insertar_factura_exito in H as (U1 & U2 & _ & ->). destruct E.
  unfold poner_factura.
  constructor; cbn [Productos Productos_Carrito Ventas Facturas Detalles_Venta
                    auto_venta auto_factura]; try assumption.
  - rewrite map_app. apply NoDup_snoc; [assumption |]. simpl.
    intros H. apply in_map_iff in H as (f & Ef & Hf).
    apply auto_factura_libre0 in Hf. lia.
  - rewrite map_app. apply NoDup_snoc; [assumption |]. simpl.
    intros H. apply in_map_iff in H as (f & Ef & Hf).
    assert (X : existsb (fun f => f_id_venta f =? idVenta) (Facturas d) = true).
    { apply existsb_exists. exists f. split; [assumption | now apply Z.eqb_eq]. }
    congruence.
  - rewrite map_app. apply NoDup_snoc; [assumption |]. simpl.
    intros H. apply in_map_iff in H as (f & Ef & Hf).
    assert (X : existsb (fun f => String.eqb (numero_factura f) numero)
                        (Facturas d) = true).
    { apply existsb_exists. exists f. split; [assumption | now apply String.eqb_eq]. }
    congruence.
  - intros f Hf. apply in_app_or in Hf as [Hf | [<- | []]].
    + now apply fk_facturas_venta0.
    + exact Hv.
  - lia.
  - intros f Hf. apply in_app_or in Hf as [Hf | [<- | []]].
    + apply auto_factura_libre0 in Hf. lia.
    + simpl. lia.
Qed.

(** ** Exact compensation *)

Lemma ventas_efecto_cancelar idVenta d :
  Ventas (efecto_cancelar idVenta d) = Ventas (marcar_venta_cancelada idVenta d).
Proof. unfold efecto_cancelar. rewrite reponer_lineas_eq. reflexivity. Qed.

Lemma ventas_efecto_anular idFactura v d :
  estado_venta v = COMPLETADA ->
  Ventas (efecto_anular idFactura v d)
  = Ventas (marcar_venta_cancelada (id_venta v) d).
Proof.
  intros Ev. unfold efecto_anular. rewrite Ev, reponer_lineas_eq. reflexivity.
Qed.

Lemma facturas_efecto_anular idFactura v d :
  Facturas (efecto_anular idFactura v d)
  = Facturas (marcar_factura_anulada idFactura d).
Proof.
  unfold efecto_anular. destruct (estado_venta v); [| reflexivity].
  rewrite reponer_lineas_eq. reflexivity.
Qed.

Lemma venta_cancelada_al_marcar idVenta d d' :
  In idVenta (map id_venta (Ventas d)) ->
  Ventas d' = Ventas (marcar_venta_cancelada idVenta d) ->
  venta_en_estado idVenta CANCELADA d'.
Proof.
  intros Hin E. unfold venta_en_estado. rewrite E.
  unfold marcar_venta_cancelada, con_Ventas. cbn [Ventas].
  apply in_map_iff in Hin as (v & Ev & Hv). split.
  - exists (mkVenta (id_venta v) (v_id_usuario v) (total_venta v) CANCELADA).
    split; [| exact Ev]. apply in_map_iff. exists v.
    split; [| exact Hv]. apply Z.eqb_eq in Ev. now rewrite Ev.
  - intros w Hw Ew. apply in_map_iff in Hw as (x & Ex & Hx).
    destruct (id_venta x =? idVenta) eqn:B; subst w; [reflexivity |].
    apply Z.eqb_neq in B. contradiction.
Qed.

Lemma factura_anulada_al_marcar idFactura d d' :
  In idFactura (map id_factura (Facturas d)) ->
  Facturas d' = Facturas (marcar_factura_anulada idFactura d) ->
  factura_en_estado idFactura ANULADA d'.
Proof.
  intros Hin E. unfold factura_en_estado. rewrite E.
  unfold marcar_factura_anulada, con_Facturas. cbn [Facturas].
  apply in_map_iff in Hin as (f & Ef & Hf). split.
  - exists (con_estado_factura f ANULADA).
    split; [| exact Ef]. apply in_map_iff. exists f.
    split; [| exact Hf]. apply Z.eqb_eq in Ef. now rewrite Ef.
  - intros g Hg Eg. apply in_map_iff in Hg as (x & Ex & Hx).
    destruct (id_factura x =? idFactura) eqn:B; subst g; [reflexivity |].
    apply Z.eqb_neq in B. contradiction.
Qed.

Lemma sel_factura_anulable_In idFactura d f v :
  In (f, v) (sel_factura_anulable idFactura d) ->
  In f (Facturas d) /\ In v (Ventas d)
  /\ id_factura f = idFactura /\ f_id_venta f = id_venta v
  /\ f_estado f <> ANULADA.
Proof.
  unfold sel_factura_anulable. intros H.
  apply in_flat_map in H as (f0 & Hf & H).
  destruct (id_factura f0 =? idFactura) eqn:E; [| destruct H].
  destruct (f_estado f0) eqn:Ee; simpl in H; try destruct H.
  all: apply in_flat_map in H as (v0 & Hv & H).
  all: destruct (f_id_venta f0 =? id_venta v0) eqn:E'; [| destruct H].
  all: destruct H as [H | []]; inversion H; subst.
  all: apply Z.eqb_eq in E, E'; rewrite Ee; repeat split; auto; discriminate.
Qed.


(** A cancellation that returns has given back, product by product, the
    quantity recorded in the lines of the sale, and the sale is CANCELADA. *)
Lemma cancelarVenta_repone idVenta idUsuario s b s' :
  cancelarVenta idVenta idUsuario s = (Exito b, s') ->
  existencias (almacen s') =
  map (fun iq => (fst iq, snd iq + cantidad_vendida (fst iq) idVenta (almacen s)))
      (existencias (almacen s))
  /\ venta_en_estado idVenta CANCELADA (almacen s').
Proof.
  intros H. apply cancelarVenta_exito in H as (Hne & _ & -> & _). split.
  - apply existencias_efecto_cancelar.
  - apply (venta_cancelada_al_marcar idVenta (almacen s));
      [| apply ventas_efecto_cancelar].
    destruct (sel_venta_cancelable idVenta idUsuario (almacen s))
      as [| v vs] eqn:E; [contradiction |].
    assert (Hv : In v (sel_venta_cancelable idVenta idUsuario (almacen s)))
      by (rewrite E; now left).
    apply filter_In in Hv as [Hv B].
    apply andb_prop in B as [B _]. apply andb_prop in B as [B _].
    apply Z.eqb_eq in B. rewrite <- B. now apply in_map.
Qed.

(** A voiding that returns has voided the invoice; when the sale of the
    invoice was still COMPLETADA it has given back, product by product, the
    quantity recorded in the lines of the sale, and the sale is CANCELADA. *)
Lemma anularFactura_repone idFactura motivo s fc s' :
  anularFactura idFactura motivo s = (Exito fc, s') ->
  exists f v,
    In f (Facturas (almacen s)) /\ id_factura f = idFactura
    /\ In v (Ventas (almacen s)) /\ id_venta v = f_id_venta f
    /\ almacen s' = efecto_anular idFactura v (almacen s)
    /\ factura_en_estado idFactura ANULADA (almacen s')
    /\ (estado_venta v = COMPLETADA ->
        existencias (almacen s') =
        map (fun iq =>
               (fst iq, snd iq + cantidad_vendida (fst iq) (id_venta v) (almacen s)))
            (existencias (almacen s))
        /\ venta_en_estado (id_venta v) CANCELADA (almacen s')).
Proof.
  intros H. apply anularFactura_exito in H as (f & v & resto & Esel & -> & _).
  assert (Hin : In (f, v) (sel_factura_anulable idFactura (almacen s)))
    by (rewrite Esel; now left).
  apply sel_factura_anulable_In in Hin as (Hf & Hv & Ef & Efv & _).
  exists f, v. repeat (split; [assumption || (symmetry; assumption) || reflexivity |]).
  split.
  - apply (factura_anulada_al_marcar idFactura (almacen s));
      [| apply facturas_efecto_anular].
    rewrite <- Ef. now apply in_map.
  - intros Ev. split; [now apply existencias_efecto_anular |].
    apply (venta_cancelada_al_marcar (id_venta v) (almacen s));
      [now apply in_map | now apply ventas_efecto_anular].
Qed.


(** ** The availability check *)

Lemma linea_de_origen idCarrito d l :
  linea_disponible idCarrito l d -> In l (sel_productos_carrito idCarrito d).
Proof.
  intros (pc & p & Hpc & Hp & Ec & Ep & Ed & ->).
  unfold sel_productos_carrito. apply in_flat_map. exists pc.
  split; [exact Hpc |]. apply Z.eqb_eq in Ec. rewrite Ec.
  unfold unir_producto. apply in_flat_map. exists p. split; [exact Hp |].
  rewrite Ep, Z.eqb_refl, Ed. now left.
Qed.

(** Where a failure comes from: a rejected statement fails with the error
    of the store or with its own. *)
Lemma execute_fallo_origen {A} (q : Sentencia A) c e c' :
  execute q c = (Fallo e, c') ->
  e = AlmacenNoDisponible \/ q (trabajo c) = Fallo e.
Proof.
  unfold execute, pulso.
  destruct (averia (fuera c)) as [[| n] |]; cbn [fst snd];
    try (destruct (q (trabajo c)) as [[a d1] | e1]);
    intros H; inversion H; auto.
Qed.

Lemma db_execute_seleccionar_fallo {A} (q : DB -> A) s e s' :
  db_execute (seleccionar q) s = (Fallo e, s') -> e = AlmacenNoDisponible.
Proof.
  unfold db_execute, seleccionar, pulso.
  destruct (averia s) as [[| n] |]; intros H; inversion H; reflexivity.
Qed.

Lemma conTransaccion_fallo_origen {A} (cuerpo : Accion Conexion A) s e s' :
  conTransaccion cuerpo s = (Fallo e, s') ->
  e = AlmacenNoDisponible
  \/ exists c1, cuerpo (mkConexion (almacen s) s) = (Fallo e, c1).
Proof.
  unfold conTransaccion.
  destruct (cuerpo (mkConexion (almacen s) s)) as [[a | e0] c1].
  - unfold pulso. destruct (averia (fuera c1)) as [[| n] |];
      intros H; inversion H; auto.
  - intros H; inversion H; subst. right. now exists c1.
Qed.

Lemma vender_lineas_fallo idVenta lineas :
  forall c e c',
    para_cada
      (fun producto =>
         execute (insertar_detalle idVenta producto) ;;;
         execute (modificar (descontar_stock (l_cantidad producto)
                               (l_id_producto producto))))
      lineas c = (Fallo e, c') ->
    e = AlmacenNoDisponible \/ e = FueraDeRango "subtotal_linea".
Proof.
  induction lineas as [| l lineas IH]; intros c e c' H;
    [discriminate H |].
  cbn [para_cada] in H.
  apply bind_fallo in H as [H | ([] & c1 & _ & H)]; [| exact (IH _ _ _ H)].
  apply bind_fallo in H as [H | ([] & c1 & _ & H)];
    apply execute_fallo_origen in H as [H | H]; auto.
  - unfold insertar_detalle in H.
    destruct (decimal_10_2 (l_subtotal l)); inversion H. now right.
  - discriminate H.
Qed.

(** A checkout that fails for lack of stock found a cart and, among the
    lines it read, one that asks for more than the stock; the error names
    the first of them. *)
Lemma procesarVenta_falta_de_stock idUsuario s n st q s' :
  procesarVentaDesdeCarrito idUsuario s
  = (Fallo (StockInsuficiente n st q), s') ->
  exists c0 resto l otros,
    sel_carrito idUsuario (almacen s) = c0 :: resto
    /\ faltantes (sel_productos_carrito (id_carrito c0) (almacen s)) = l :: otros
    /\ n = l_nombre_producto l /\ st = l_stock l /\ q = l_cantidad l.
Proof.
  unfold procesarVentaDesdeCarrito. intros H.
  apply bind_fallo in H as [H | (idVenta & s1 & _ & H)].
  - apply conTransaccion_fallo_origen in H as [H | (c9 & H)]; [discriminate H |].
    unfold cuerpo_procesarVenta in H.
    apply bind_fallo in H as [H | (carrito & c1 & H1 & H)].
    { apply execute_fallo_origen in H as [H | H]; discriminate H. }
    apply execute_seleccionar_exito in H1 as [-> T1]. cbn [trabajo] in *.
    destruct (sel_carrito idUsuario (almacen s)) as [| c0 resto];
      [discriminate H |].
    apply bind_fallo in H as [H | (lineas & c2 & H2 & H)].
    { apply execute_fallo_origen in H as [H | H]; discriminate H. }
    apply execute_seleccionar_exito in H2 as [-> T2]. rewrite T1 in *.
    destruct (sel_productos_carrito (id_carrito c0) (almacen s))
      as [| l0 ls] eqn:L; [discriminate H |].
    apply bind_fallo in H as [H | ([] & c3 & _ & H)].
    + rewrite validar_stock_eq in H.
      destruct (faltantes (l0 :: ls)) as [| l otros] eqn:F; [discriminate H |].
      inversion H. exists c0, resto, l, otros. rewrite L, F. auto.
    + apply bind_fallo in H as [H | (idV & c4 & _ & H)].
      { apply execute_fallo_origen in H as [H | H]; [discriminate H |].
        unfold insertar_venta in H.
        destruct (decimal_10_2 (totalVenta (l0 :: ls))); discriminate H. }
      apply bind_fallo in H as [H | ([] & c5 & _ & H)].
      { apply vender_lineas_fallo in H as [H | H]; discriminate H. }
      apply bind_fallo in H as [H | ([] & c6 & _ & H)]; [| discriminate H].
      apply execute_fallo_origen in H as [H | H]; discriminate H.
  - unfold obtenerVentaPorId in H.
    apply bind_fallo in H as [H | (venta & s2 & _ & H)].
    { apply db_execute_seleccionar_fallo in H. discriminate H. }
    destruct venta as [| v0 vs]; [discriminate H |].
    apply bind_fallo in H as [H | (dets & s3 & _ & H)]; [| discriminate H].
    apply db_execute_seleccionar_fallo in H. discriminate H.
Qed.

(** C9, as the code has it.  The availability check runs over the lines
    that the cart query returns, which are the lines of the cart whose
    product is DISPONIBLE; a line of a product that is AGOTADO or
    DESCONTINUADO is not read and not checked.  When some of the lines
    read ask for more than the stock, the checkout fails and writes
    nothing, and the error it throws names one line only: the first of
    them in the order of the cart, with the name of its product, the stock
    available and the quantity asked.  And a checkout fails for lack of
    stock in that case only, with that line. *)
Theorem primer_faltante
  (s : Sistema) (idUsuario : Z) (c0 : Carrito) (resto : list Carrito) :
  sel_carrito idUsuario (almacen s) = c0 :: resto ->
  (forall l, In l (sel_productos_carrito (id_carrito c0) (almacen s))
             <-> linea_disponible (id_carrito c0) l (almacen s))
  /\ (forall l otros,
        faltantes (sel_productos_carrito (id_carrito c0) (almacen s))
        = l :: otros ->
        linea_disponible (id_carrito c0) l (almacen s)
        /\ l_stock l < l_cantidad l
        /\ exists e s',
             procesarVentaDesdeCarrito idUsuario s = (Fallo e, s')
             /\ almacen s' = almacen s
             /\ (averia s = None ->
                 e = StockInsuficiente (l_nombre_producto l) (l_stock l)
                       (l_cantidad l)
                 /\ s' = s))
  /\ (forall n st q s',
        procesarVentaDesdeCarrito idUsuario s
        = (Fallo (StockInsuficiente n st q), s') ->
        exists l otros,
          faltantes (sel_productos_carrito (id_carrito c0) (almacen s))
          = l :: otros
          /\ n = l_nombre_producto l /\ st = l_stock l /\ q = l_cantidad l).
Proof.
  intros Hcar. split; [| split].
  - intros l. split; [apply linea_origen | apply linea_de_origen].
  - intros l otros Hfal.
    assert (Hl : In l (faltantes
                         (sel_productos_carrito (id_carrito c0) (almacen s))))
      by (rewrite Hfal; now left).
    apply filter_In in Hl as [Hl Hq].
    split; [now apply linea_origen |].
    split; [now apply Z.gtb_lt in Hq |].
    destruct (procesarVentaDesdeCarrito idUsuario s) as [r s'] eqn:H.
    pose proof (procesarVenta_todo_o_nada _ _ _ _ H)
      as [_ [[A [e ->]] | (c1 & r1 & Hcar1 & Hfal1 & _)]].
    + exists e, s'. split; [reflexivity |]. split; [exact A |].
      intros Hs. unfold procesarVentaDesdeCarrito in H. unfold bind at 1 in H.
      unfold conTransaccion, cuerpo_procesarVenta in H. unfold bind at 1 in H.
      rewrite execute_sano in H by exact Hs.
      unfold seleccionar at 1 in H. cbn [trabajo fuera] in H. rewrite Hcar in H.
      unfold bind at 1 in H. rewrite execute_sano in H by exact Hs.
      unfold seleccionar at 1 in H. cbn [trabajo fuera] in H.
      destruct (sel_productos_carrito (id_carrito c0) (almacen s)) as [| l0 ls];
        [discriminate Hfal |].
      unfold bind at 1 in H. rewrite validar_stock_eq, Hfal in H.
      inversion H. split; reflexivity.
    + rewrite Hcar in Hcar1. inversion Hcar1; subst c1.
      rewrite Hfal in Hfal1. discriminate Hfal1.
  - intros n st q s' H.
    apply procesarVenta_falta_de_stock in H
      as (c1 & r1 & l & otros & Hcar1 & Hfal & En & Es & Eq).
    rewrite Hcar in Hcar1. inversion Hcar1; subst c1.
    exists l, otros. auto.
Qed.

(** ** The purchase: two units of work *)

(** C1, as the code has it.  A purchase runs two transactions one after the
    other.  The first (cart read, availability check, sale and sale lines,
    stock decrement, cart clearing) is atomic: when one of its steps or its
    commit fails, the purchase fails with that error and the store is left
    as it was, cart included.  The invoice is issued by a second
    transaction, after the first has committed: when it fails, the purchase
    fails with its error and the store is the one the checkout committed,
    with the sale on file, the stock decremented and the cart emptied. *)
Theorem compra_en_dos_unidades
  (idUsuario : Z) (s : Sistema) (e : Error) (s1 : Sistema)
  (idUsuario' : Z) (t : Sistema) (vc : VentaCompleta) (t1 : Sistema)
  (e' : Error) (t2 : Sistema) :
  conTransaccion (cuerpo_procesarVenta idUsuario) s = (Fallo e, s1) ->
  procesarVentaDesdeCarrito idUsuario' t = (Exito vc, t1) ->
  conTransaccion (cuerpo_generarFactura (id_venta (ventaData vc))) t1
  = (Fallo e', t2) ->
  (procesarCompra idUsuario s = (Fallo e, s1) /\ almacen s1 = almacen s)
  /\
  (procesarCompra idUsuario' t = (Fallo e', t2)
   /\ In (ventaData vc) (Ventas (almacen t2))
   /\ exists c0 resto,
        sel_carrito idUsuario' (almacen t) = c0 :: resto
        /\ almacen t2 =
           efecto_venta idUsuario' (id_carrito c0)
             (sel_productos_carrito (id_carrito c0) (almacen t)) (almacen t)).
Proof.
  intros H1 H2 H3. split.
  - split.
    + unfold procesarCompra, procesarVentaDesdeCarrito, bind. now rewrite H1.
    + apply conTransaccion_fallo in H1 as [A _];
        [exact A | apply cuerpo_procesarVenta_respeta].
  - split.
    + unfold procesarCompra. unfold bind at 1. rewrite H2.
      unfold generarFactura, bind. now rewrite H3.
    + apply conTransaccion_fallo in H3 as [A _];
        [| apply cuerpo_generarFactura_respeta].
      apply procesarVenta_exito in H2
        as (c0 & resto & Ecar & _ & _ & E1 & _ & _ & Hin).
      rewrite A. split; [exact Hin |].
      exists c0, resto. split; [exact Ecar | exact E1].
Qed.

(** ** Runs on a store that rejects nothing *)

Lemma conTransaccion_sano {A} (cuerpo : Accion Conexion A) s a d1 :
  averia s = None ->
  cuerpo (mkConexion (almacen s) s) = (Exito a, mkConexion d1 s) ->
  conTransaccion cuerpo s = (Exito a, mkSistema d1 (hoy s) None).
Proof.
  intros Hs H. unfold conTransaccion. rewrite H. cbn [fuera trabajo].
  rewrite (pulso_sano _ Hs), Hs. reflexivity.
Qed.

Lemma flat_map_clave_unica {A B} (clave : A -> Z) (h : A -> list B) l x :
  NoDup (map clave l) -> In x l ->
  (forall y, In y l -> clave y <> clave x -> h y = []) ->
  flat_map h l = h x.
Proof.
  induction l as [| y l IH]; intros N Hx Hh; [destruct Hx |].
  inversion N as [| ? ? Hy Nl]; subst. cbn [flat_map].
  destruct Hx as [-> | Hx].
  - rewrite (flat_map_vacio h l), app_nil_r; [reflexivity |].
    intros z Hz. apply Hh; [now right |].
    intros Ez. apply Hy. rewrite <- Ez. now apply in_map.
  - rewrite (Hh y (or_introl eq_refl)).
    + apply IH; [assumption | assumption |].
      intros z Hz. apply Hh. now right.
    + intros Ey. apply Hy. rewrite Ey. now apply in_map.
Qed.

(** The guard of [generarFactura] on a sale that is COMPLETADA and has no
    invoice. *)
Lemma sel_venta_facturable_libre d v :
  NoDup (map id_venta (Ventas d)) ->
  In v (Ventas d) -> estado_venta v = COMPLETADA ->
  (forall f, In f (Facturas d) -> f_id_venta f <> id_venta v) ->
  sel_venta_facturable (id_venta v) d = [(v, None)].
Proof.
  intros N Hv Ev Hf. unfold sel_venta_facturable.
  rewrite (flat_map_clave_unica id_venta _ (Ventas d) v N Hv).
  - rewrite Z.eqb_refl, Ev. cbn [estado_venta_eqb andb].
    rewrite filter_vacio; [reflexivity |].
    intros f Hin. apply Z.eqb_neq. intros E. exact (Hf f Hin (eq_sym E)).
  - intros y _ Ey. apply Z.eqb_neq in Ey. now rewrite Ey.
Qed.

Lemma existsb_falso {A} (f : A -> bool) l :
  (forall x, In x l -> f x = false) -> existsb f l = false.
Proof.
  induction l as [| x l IH]; intros H; simpl; [reflexivity |].
  rewrite (H x (or_introl eq_refl)). apply IH. intros y Hy. apply H. now right.
Qed.

(** The read-back of an invoice just inserted. *)
Lemma sel_factura_recien_puesta d v numero :
  esquema d -> In v (Ventas d) ->
  sel_factura_con_venta (auto_factura d)
    (poner_factura (id_venta v) numero (total_venta v) d)
  = [(mkFactura (auto_factura d) (id_venta v) numero (total_venta v) EMITIDA, v)].
Proof.
  intros E Hv. unfold sel_factura_con_venta, poner_factura.
  cbn [Facturas Ventas]. rewrite flat_map_app.
  rewrite (flat_map_vacio _ (Facturas d)).
  - cbn [flat_map app id_factura f_id_venta]. rewrite Z.eqb_refl, app_nil_r.
    rewrite (flat_map_clave_unica id_venta _ (Ventas d) v (pk_ventas d E) Hv).
    + now rewrite Z.eqb_refl.
    + intros y _ Ey. apply not_eq_sym, Z.eqb_neq in Ey. now rewrite Ey.
  - intros f Hf. apply (auto_factura_libre d E) in Hf.
    replace (id_factura f =? auto_factura d) with false; [reflexivity |].
    symmetry. apply Z.eqb_neq. lia.
Qed.

(** An issuance on a healthy store, for a sale that is COMPLETADA and has no
    invoice, with a number that is not in use: it returns the new invoice. *)
Lemma generarFactura_sano s v :
  esquema (almacen s) -> averia s = None ->
  In v (Ventas (almacen s)) -> estado_venta v = COMPLETADA ->
  (forall f, In f (Facturas (almacen s)) -> f_id_venta f <> id_venta v) ->
  ~ In (numero_siguiente (hoy s) (almacen s))
       (map numero_factura (Facturas (almacen s))) ->
  let nueva :=
    mkFactura (auto_factura (almacen s)) (id_venta v)
      (numero_siguiente (hoy s) (almacen s)) (total_venta v) EMITIDA in
  let d1 :=
    poner_factura (id_venta v) (numero_siguiente (hoy s) (almacen s))
      (total_venta v) (almacen s) in
  generarFactura (id_venta v) s =
  (Exito (mkFacturaCompleta nueva v (sel_detalles_con_producto (id_venta v) d1)),
   mkSistema d1 (hoy s) None).
Proof.
  intros E Hs Hv Ev Hf Hn nueva d1.
  assert (T : conTransaccion (cuerpo_generarFactura (id_venta v)) s
              = (Exito (auto_factura (almacen s)), mkSistema d1 (hoy s) None)).
  { apply conTransaccion_sano; [exact Hs |].
    unfold cuerpo_generarFactura. unfold bind at 1.
    rewrite execute_sano by exact Hs. unfold seleccionar at 1.
    cbn [trabajo fuera].
    rewrite (sel_venta_facturable_libre _ _ (pk_ventas _ E) Hv Ev Hf).
    cbn [verdadero]. unfold bind at 1, por_el_pool. cbn [fuera trabajo].
    rewrite (generarNumeroFactura_sano _ Hs).
    rewrite execute_sano by exact Hs. cbn [trabajo fuera].
    unfold insertar_factura.
    rewrite (existsb_falso (fun f => f_id_venta f =? id_venta v)).
    - rewrite (existsb_falso
                 (fun f => String.eqb (numero_factura f)
                             (numero_siguiente (hoy s) (almacen s)))).
      + reflexivity.
      + intros f Hin. apply String.eqb_neq. intros En. apply Hn.
        rewrite <- En. now apply in_map.
    - intros f Hin. apply Z.eqb_neq. now apply Hf. }
  unfold generarFactura. unfold bind at 1. rewrite T.
  unfold obtenerFacturaPorId. unfold bind at 1.
  rewrite db_execute_sano by reflexivity. unfold seleccionar at 1.
  cbn [almacen hoy]. subst d1.
  rewrite (sel_factura_recien_puesta _ _ _ E Hv).
  unfold bind at 1. rewrite db_execute_sano by reflexivity.
  reflexivity.
Qed.



(** ** Cancellation and invoices *)

Lemma facturas_efecto_cancelar idVenta d :
  Facturas (efecto_cancelar idVenta d) = Facturas d.
Proof. unfold efecto_cancelar. rewrite reponer_lineas_eq. reflexivity. Qed.





(** ** Deleting an invoice *)

Lemma eliminarFactura_sano idFactura s :
  averia s = None ->
  sel_factura idFactura (almacen s) <> [] ->
  eliminarFactura idFactura s =
  (Exito true, mkSistema (borrar_factura idFactura (almacen s)) (hoy s) None).
Proof.
  intros Hs Hne. unfold eliminarFactura. apply conTransaccion_sano; [exact Hs |].
  unfold cuerpo_eliminarFactura. unfold bind at 1.
  rewrite execute_sano by exact Hs. unfold seleccionar at 1. cbn [trabajo fuera].
  destruct (sel_factura idFactura (almacen s)); [contradiction |].
  unfold bind at 1. rewrite execute_sano by exact Hs. reflexivity.
Qed.

Lemma esquema_borrar_factura idFactura d :
  esquema d -> esquema (borrar_factura idFactura d).
Proof.
  intros E. destruct E. unfold borrar_factura, con_Facturas.
  constructor; cbn [Productos Productos_Carrito Ventas Facturas Detalles_Venta
                    auto_venta auto_factura];
    try assumption; try (now apply NoDup_map_filter).
  - intros f Hf. apply filter_In in Hf as [Hf _]. now apply fk_facturas_venta0.
  - intros f Hf. apply filter_In in Hf as [Hf _]. now apply auto_factura_libre0.
Qed.

(** C10, as the code has it.  Deleting an invoice that is on file, whatever
    its state, removes that row of the invoice table and nothing else: sales,
    sale lines and products are as before.  Afterwards the guard of the
    issuance finds no invoice for the sale any more, and a new invoice is
    issued for it provided the sale is still COMPLETADA and the number the
    generator gives is not in use. *)
Theorem eliminar_factura_solo_la_factura
  (s : Sistema) (idFactura : Z) (f : Factura) :
  esquema (almacen s) ->
  averia s = None ->
  In f (Facturas (almacen s)) ->
  id_factura f = idFactura ->
  exists s',
    eliminarFactura idFactura s = (Exito true, s')
    /\ (forall g, In g (Facturas (almacen s'))
                  <-> In g (Facturas (almacen s)) /\ g <> f)
    /\ Carritos (almacen s') = Carritos (almacen s)
    /\ Productos_Carrito (almacen s') = Productos_Carrito (almacen s)
    /\ Ventas (almacen s') = Ventas (almacen s)
    /\ Detalles_Venta (almacen s') = Detalles_Venta (almacen s)
    /\ Productos (almacen s') = Productos (almacen s)
    /\ (forall v,
          In v (Ventas (almacen s)) ->
          id_venta v = f_id_venta f ->
          estado_venta v = COMPLETADA ->
          ~ In (numero_siguiente (hoy s') (almacen s'))
               (map numero_factura (Facturas (almacen s'))) ->
          exists fc s'',
            generarFactura (f_id_venta f) s' = (Exito fc, s'')
            /\ f_id_venta (facturaData fc) = f_id_venta f
            /\ f_estado (facturaData fc) = EMITIDA
            /\ monto_total (facturaData fc) = total_venta v
            /\ In (facturaData fc) (Facturas (almacen s''))).
Proof.
  intros E Hs Hf Eid.
  exists (mkSistema (borrar_factura idFactura (almacen s)) (hoy s) None).
  assert (Hg : forall g,
             In g (Facturas (borrar_factura idFactura (almacen s)))
             <-> In g (Facturas (almacen s)) /\ g <> f).
  { intros g. unfold borrar_factura, con_Facturas. cbn [Facturas].
    rewrite filter_In. split; intros [Hg Hne]; (split; [exact Hg |]).
    - intros ->. rewrite Eid, Z.eqb_refl in Hne. discriminate Hne.
    - apply negb_true_iff, Z.eqb_neq. intros Eg. apply Hne.
      apply (clave_inyectiva id_factura (Facturas (almacen s)));
        [exact (pk_facturas _ E) | assumption | assumption | congruence]. }
  split.
  { apply eliminarFactura_sano; [exact Hs |].
    intros Hnil.
    assert (X : In f (sel_factura idFactura (almacen s)))
      by (apply filter_In; split; [exact Hf | now apply Z.eqb_eq]).
    rewrite Hnil in X. destruct X. }
  cbn [almacen hoy]. split; [exact Hg |].
  do 5 (split; [reflexivity |]).
  intros v Hv Ev Ec Hn.
  pose proof (esquema_borrar_factura idFactura _ E) as E'.
  pose proof (generarFactura_sano
                (mkSistema (borrar_factura idFactura (almacen s)) (hoy s) None)
                v E' eq_refl Hv Ec) as G.
  cbn [almacen hoy] in G. rewrite <- Ev.
  eexists. eexists. split.
  - apply G; [| exact Hn].
    intros g Hin Eg. apply Hg in Hin as [Hin Hne]. apply Hne.
    apply (clave_inyectiva f_id_venta (Facturas (almacen s)));
      [exact (uq_facturas_venta _ E) | assumption | assumption | congruence].
  - cbn [facturaData f_id_venta f_estado monto_total almacen].
    repeat (split; [reflexivity |]).
    unfold poner_factura. cbn [Facturas]. apply in_or_app. right. now left.
Qed.

(** ** Invoice numbers *)

Lemma length_append (a b : string) :
  String.length (a ++ b) = (String.length a + String.length b)%nat.
Proof. induction a as [| c a IH]; simpl; [reflexivity | now rewrite IH]. Qed.

Lemma append_assoc (a b c : string) : ((a ++ b) ++ c = a ++ (b ++ c))%string.
Proof. induction a as [| x a IH]; simpl; [reflexivity | now rewrite IH]. Qed.

Lemma substring_todo (t : string) : substring 0 (String.length t) t = t.
Proof. induction t as [| c t IH]; simpl; [reflexivity | now rewrite IH]. Qed.

Lemma substring_tras_prefijo (p t : string) :
  substring (String.length p) (String.length t) (p ++ t) = t.
Proof. induction p as [| c p IH]; simpl; [apply substring_todo | exact IH]. Qed.

Lemma compare_tras_prefijo (p a b : string) :
  String.compare (p ++ a) (p ++ b) = String.compare a b.
Proof.
  induction p as [| c p IH]; simpl; [reflexivity |].
  replace (Ascii.compare c c) with Eq; [exact IH |].
  symmetry. now apply Ascii_as_OT.cmp_eq.
Qed.

Lemma prefix_append (p t : string) : String.prefix p (p ++ t) = true.
Proof.
  induction p as [| c p IH]; simpl; [now destruct t |].
  destruct (ascii_dec c c); [exact IH | contradiction].
Qed.

(** *** Digits *)

Lemma N_of_digito d :
  0 <= d <= 9 -> N_of_ascii (digito d) = (48 + Z.to_N d)%N.
Proof. intros Hd. unfold digito. apply N_ascii_embedding. lia. Qed.

Lemma es_espacio_digito d : 0 <= d <= 9 -> es_espacio (digito d) = false.
Proof.
  intros Hd. unfold es_espacio. rewrite (N_of_digito d Hd).
  replace ((48 + Z.to_N d <=? 13)%N) with false by (symmetry; apply N.leb_gt; lia).
  replace ((48 + Z.to_N d =? 32)%N) with false by (symmetry; apply N.eqb_neq; lia).
  now rewrite andb_false_r.
Qed.

Lemma valor_digito_digito d : 0 <= d <= 9 -> valor_digito (digito d) = Some d.
Proof.
  intros Hd. unfold valor_digito. rewrite (N_of_digito d Hd).
  replace (Z.of_N (48 + Z.to_N d)) with (48 + d) by lia.
  replace (48 <=? 48 + d) with true by (symmetry; apply Z.leb_le; lia).
  replace (48 + d <=? 57) with true by (symmetry; apply Z.leb_le; lia).
  cbn [andb]. f_equal. lia.
Qed.

(** A digit is no other character. *)
Lemma digito_distinto d c :
  0 <= d <= 9 -> (N_of_ascii c < 48 \/ 57 < N_of_ascii c)%N ->
  Ascii.eqb (digito d) c = false.
Proof.
  intros Hd Hc. apply Ascii.eqb_neq. intros E.
  apply (f_equal N_of_ascii) in E. rewrite (N_of_digito d Hd) in E. lia.
Qed.

Lemma compare_digito a b :
  0 <= a <= 9 -> 0 <= b <= 9 -> Ascii.compare (digito a) (digito b) = (a ?= b).
Proof.
  intros Ha Hb. unfold Ascii.compare. rewrite (N_of_digito a Ha), (N_of_digito b Hb).
  destruct (Z.compare_spec a b);
    [apply N.compare_eq_iff | apply N.compare_lt_iff | apply N.compare_gt_iff]; lia.
Qed.

Lemma leer_digito_decimal d r acc :
  0 <= d <= 9 ->
  leer_digitos 10 (String (digito d) r) acc =
  leer_digitos 10 r (Some (match acc with Some a => a * 10 + d | None => d end)).
Proof.
  intros Hd. cbn [leer_digitos]. rewrite (valor_digito_digito d Hd).
  replace (d <? 10) with true by (symmetry; apply Z.ltb_lt; lia). reflexivity.
Qed.

Lemma parseInt_cuatro_digitos a b c d :
  0 <= a <= 9 -> 0 <= b <= 9 -> 0 <= c <= 9 -> 0 <= d <= 9 ->
  parseInt (cuatro_digitos a b c d) = Some (1000 * a + 100 * b + 10 * c + d).
Proof.
  intros Ha Hb Hc Hd. unfold parseInt, cuatro_digitos. cbn [quitar_espacios].
  rewrite (es_espacio_digito a Ha).
  rewrite (digito_distinto a "-" Ha) by (left; reflexivity).
  rewrite (digito_distinto a "+" Ha) by (left; reflexivity).
  rewrite (digito_distinto b "x" Hb) by (right; reflexivity).
  rewrite (digito_distinto b "X" Hb) by (right; reflexivity).
  rewrite andb_false_r.
  rewrite !leer_digito_decimal by assumption. cbn [leer_digitos].
  f_equal. lia.
Qed.

Lemma valor_decimal_cuatro_digitos a b c d :
  0 <= a <= 9 -> 0 <= b <= 9 -> 0 <= c <= 9 -> 0 <= d <= 9 ->
  valor_decimal (cuatro_digitos a b c d) = 1000 * a + 100 * b + 10 * c + d.
Proof.
  intros Ha Hb Hc Hd. unfold valor_decimal, cuatro_digitos.
  rewrite !leer_digito_decimal by assumption. cbn [leer_digitos]. lia.
Qed.

Lemma cifras_paso resto n acc :
  cifras (S resto) n acc =
  if n / 10 =? 0 then String (digito (n mod 10)) acc
  else cifras resto (n / 10) (String (digito (n mod 10)) acc).
Proof. reflexivity. Qed.

Ltac por_division := Z.div_mod_to_equations; lia.

(** A sequence number on four places, digit by digit. *)
Lemma pad4_digitos k :
  0 <= k <= 9999 ->
  pad4 k = cuatro_digitos (k / 1000) (k / 100 mod 10) (k / 10 mod 10) (k mod 10).
Proof.
  intros Hk. unfold pad4, String_de_Z, cuatro_digitos.
  replace (k <? 0) with false by (symmetry; apply Z.ltb_ge; lia).
  rewrite cifras_paso.
  destruct (Z.eqb_spec (k / 10) 0) as [E1 | N1].
  { replace (k / 1000) with 0 by por_division.
    replace (k / 100 mod 10) with 0 by por_division.
    replace (k / 10 mod 10) with 0 by por_division. reflexivity. }
  rewrite cifras_paso.
  destruct (Z.eqb_spec (k / 10 / 10) 0) as [E2 | N2].
  { replace (k / 1000) with 0 by por_division.
    replace (k / 100 mod 10) with 0 by por_division. reflexivity. }
  rewrite cifras_paso.
  destruct (Z.eqb_spec (k / 10 / 10 / 10) 0) as [E3 | N3].
  { replace (k / 1000) with 0 by por_division.
    replace (k / 10 / 10 mod 10) with (k / 100 mod 10) by por_division.
    reflexivity. }
  rewrite cifras_paso.
  replace (k / 10 / 10 / 10 / 10 =? 0) with true
    by (symmetry; apply Z.eqb_eq; por_division).
  replace (k / 10 / 10 / 10 mod 10) with (k / 1000) by por_division.
  replace (k / 10 / 10 mod 10) with (k / 100 mod 10) by por_division.
  reflexivity.
Qed.

Lemma digitos_de_k k :
  0 <= k <= 9999 ->
  0 <= k / 1000 <= 9 /\ 0 <= k / 100 mod 10 <= 9
  /\ 0 <= k / 10 mod 10 <= 9 /\ 0 <= k mod 10 <= 9
  /\ 1000 * (k / 1000) + 100 * (k / 100 mod 10) + 10 * (k / 10 mod 10) + k mod 10
     = k.
Proof. intros Hk. repeat split; por_division. Qed.

Lemma pad4_length k : 0 <= k <= 9999 -> String.length (pad4 k) = 4%nat.
Proof. intros Hk. now rewrite (pad4_digitos k Hk). Qed.

Lemma pad4_parseInt k : 0 <= k <= 9999 -> parseInt (pad4 k) = Some k.
Proof.
  intros Hk. destruct (digitos_de_k k Hk) as (H3 & H2 & H1 & H0 & E).
  rewrite (pad4_digitos k Hk), parseInt_cuatro_digitos by assumption.
  now rewrite E.
Qed.

Lemma pad4_valor_decimal k : 0 <= k <= 9999 -> valor_decimal (pad4 k) = k.
Proof.
  intros Hk. destruct (digitos_de_k k Hk) as (H3 & H2 & H1 & H0 & E).
  now rewrite (pad4_digitos k Hk), valor_decimal_cuatro_digitos.
Qed.

(** The order of the texts is the order of the numbers. *)
Lemma pad4_creciente a b :
  0 <= a -> a < b -> b <= 9999 -> String.compare (pad4 a) (pad4 b) = Lt.
Proof.
  intros Ha Hab Hb.
  destruct (digitos_de_k a) as (A3 & A2 & A1 & A0 & EA); [lia |].
  destruct (digitos_de_k b) as (B3 & B2 & B1 & B0 & EB); [lia |].
  rewrite (pad4_digitos a), (pad4_digitos b) by lia.
  unfold cuatro_digitos. cbn [String.compare].
  rewrite !compare_digito by assumption.
  destruct (Z.compare_spec (a / 1000) (b / 1000)); [| reflexivity | lia].
  destruct (Z.compare_spec (a / 100 mod 10) (b / 100 mod 10)); [| reflexivity | lia].
  destruct (Z.compare_spec (a / 10 mod 10) (b / 10 mod 10)); [| reflexivity | lia].
  destruct (Z.compare_spec (a mod 10) (b mod 10)); [lia | reflexivity | lia].
Qed.

Lemma ltb_numeros per a b :
  0 <= a <= 9999 -> 0 <= b <= 9999 ->
  String.ltb (per ++ pad4 a) (per ++ pad4 b) = (a <? b).
Proof.
  intros Ha Hb. unfold String.ltb. rewrite compare_tras_prefijo.
  destruct (Z.ltb_spec a b) as [L | G].
  - rewrite (pad4_creciente a b); [reflexivity | lia | lia | lia].
  - destruct (Z.eq_dec a b) as [-> | Ne].
    + replace (String.compare (pad4 b) (pad4 b)) with Eq; [reflexivity |].
      symmetry. now apply String_as_OT.cmp_eq.
    + rewrite String.compare_antisym.
      rewrite (pad4_creciente b a); [reflexivity | lia | lia | lia].
Qed.

Lemma slice_final_numero per k :
  0 <= k <= 9999 -> slice_final 4 (per ++ pad4 k) = pad4 k.
Proof.
  intros Hk. unfold slice_final. rewrite length_append, (pad4_length k Hk).
  replace (String.length per + 4 - 4)%nat with (String.length per) by lia.
  rewrite <- (pad4_length k Hk) at 1. apply substring_tras_prefijo.
Qed.

Lemma secuencia_de_numero per k :
  0 <= k <= 9999 -> secuencia_de per (per ++ pad4 k) = k.
Proof.
  intros Hk. unfold secuencia_de. rewrite length_append.
  replace (String.length per + String.length (pad4 k) - String.length per)%nat
    with (String.length (pad4 k)) by lia.
  rewrite substring_tras_prefijo. now apply pad4_valor_decimal.
Qed.

Lemma lista_de_secuencias per (l : list string) :
  (forall n, In n l -> exists k, 0 <= k <= 9999 /\ n = per ++ pad4 k) ->
  exists ks, Forall (fun k => 0 <= k <= 9999) ks
             /\ l = map (fun k => per ++ pad4 k) ks.
Proof.
  induction l as [| n l IH]; intros H.
  - exists []. split; [constructor | reflexivity].
  - destruct (H n (or_introl eq_refl)) as (k & Hk & ->).
    destruct IH as (ks & Hks & ->); [intros m Hm; apply H; now right |].
    exists (k :: ks). split; [now constructor | reflexivity].
Qed.

Lemma maximo_en_rango ks a :
  Forall (fun k => 0 <= k <= 9999) ks -> 0 <= a <= 9999 ->
  0 <= fold_left Z.max ks a <= 9999.
Proof.
  intros H. revert a. induction H as [| k ks Hk _ IH]; intros a Ha; simpl.
  - exact Ha.
  - apply IH. lia.
Qed.

(** The greatest number of the period is the one of the greatest
    sequence. *)
Lemma maximo_texto_desde per ks a :
  Forall (fun k => 0 <= k <= 9999) ks -> 0 <= a <= 9999 ->
  fold_left
    (fun acc x =>
       match acc with
       | None => Some x
       | Some m => if String.ltb m x then Some x else Some m
       end)
    (map (fun k => per ++ pad4 k) ks) (Some (per ++ pad4 a))
  = Some (per ++ pad4 (fold_left Z.max ks a)).
Proof.
  intros H. revert a. induction H as [| k ks Hk _ IH]; intros a Ha.
  - reflexivity.
  - cbn [map fold_left]. rewrite (ltb_numeros per a k Ha Hk).
    replace (if a <? k then Some (per ++ pad4 k) else Some (per ++ pad4 a))
      with (Some (per ++ pad4 (Z.max a k))).
    + apply IH. lia.
    + destruct (Z.ltb_spec a k); f_equal; f_equal; f_equal; lia.
Qed.

Lemma secuencias_de_numeros per ks :
  Forall (fun k => 0 <= k <= 9999) ks ->
  map (secuencia_de per) (map (fun k => per ++ pad4 k) ks) = ks.
Proof.
  intros H. induction H as [| k ks Hk _ IH]; [reflexivity |].
  cbn [map]. now rewrite IH, secuencia_de_numero.
Qed.

(** On a healthy numbering the code and the wording of the specification
    give the same number. *)
Lemma numero_siguiente_segun_spec (f : Fecha) (d : DB) :
  numeracion_sana (periodo f) (map numero_factura (Facturas d)) ->
  numero_siguiente f d = numero_segun_spec f (map numero_factura (Facturas d)).
Proof.
  intros Hs. unfold numero_siguiente, numero_segun_spec.
  unfold periodo at 1. rewrite append_assoc. f_equal. f_equal. f_equal.
  unfold sel_ultima_factura, secuencia_segun_spec, maximo_texto.
  destruct (lista_de_secuencias (periodo f)
              (filter (String.prefix (periodo f)) (map numero_factura (Facturas d))))
    as (ks & Hks & ->).
  { intros n Hn. apply filter_In in Hn as [Hn Hp]. exact (Hs n Hn Hp). }
  destruct Hks as [| a ks Ha Hks]; [reflexivity |].
  cbn [map fold_left].
  rewrite (maximo_texto_desde _ _ _ Hks Ha).
  cbn [siguiente_secuencial].
  pose proof (maximo_en_rango ks a Hks Ha) as Hm.
  rewrite (slice_final_numero _ _ Hm), (pad4_parseInt _ Hm).
  cbn [String_de_numero].
  rewrite (secuencia_de_numero _ _ Ha), (secuencias_de_numeros _ _ Hks).
  replace (Z.max 0 a) with a by lia. reflexivity.
Qed.

(** While every invoice number of the current period on file carries a
    sequence of four places, the generator returns the year, the month on
    two places and the sequence on four places at least, where the sequence
    is one more than the greatest sequence on file for the period, and 1
    when the period has no number yet. *)
Lemma numero_de_factura_segun_spec (s : Sistema) :
  averia s = None ->
  numeracion_sana (periodo (hoy s)) (map numero_factura (Facturas (almacen s))) ->
  generarNumeroFactura s =
  (Exito (numero_segun_spec (hoy s) (map numero_factura (Facturas (almacen s)))), s).
Proof.
  intros Hs Hn. rewrite (generarNumeroFactura_sano _ Hs).
  now rewrite (numero_siguiente_segun_spec _ _ Hn).
Qed.

Lemma append_inyectiva (p a b : string) : (p ++ a = p ++ b)%string -> a = b.
Proof.
  induction p as [| c p IH]; simpl; intros H; [exact H |].
  inversion H. now apply IH.
Qed.

Lemma pad4_inyectiva a b :
  0 <= a <= 9999 -> 0 <= b <= 9999 -> pad4 a = pad4 b -> a = b.
Proof.
  intros Ha Hb E. apply (f_equal parseInt) in E.
  rewrite (pad4_parseInt a Ha), (pad4_parseInt b Hb) in E. now inversion E.
Qed.

Lemma maximo_desde ks a : a <= fold_left Z.max ks a.
Proof.
  revert a. induction ks as [| x ks IH]; intros a; simpl; [lia |].
  transitivity (Z.max a x); [lia | apply IH].
Qed.

Lemma maximo_cota ks a k :
  In k (a :: ks) -> k <= fold_left Z.max ks a.
Proof.
  revert a. induction ks as [| x ks IH]; intros a H; simpl.
  - destruct H as [-> | []]. lia.
  - destruct H as [-> | [-> | H]].
    + transitivity (Z.max k x); [lia | apply maximo_desde].
    + transitivity (Z.max a k); [lia | apply maximo_desde].
    + apply IH. now right.
Qed.

(** On a healthy numbering the number the generator gives is not on file:
    taken one at a time, issuances never repeat a number. *)
Lemma numero_siguiente_libre (f : Fecha) (d : DB) :
  numeracion_sana (periodo f) (map numero_factura (Facturas d)) ->
  ~ In (numero_siguiente f d) (map numero_factura (Facturas d)).
Proof.
  intros Hs Hin.
  assert (Hp : String.prefix (periodo f) (numero_siguiente f d) = true)
    by apply prefix_append.
  assert (HL : In (numero_siguiente f d)
                  (filter (String.prefix (periodo f))
                          (map numero_factura (Facturas d))))
    by (apply filter_In; now split).
  unfold numero_siguiente, sel_ultima_factura, maximo_texto in HL.
  destruct (lista_de_secuencias (periodo f)
              (filter (String.prefix (periodo f)) (map numero_factura (Facturas d))))
    as (ks & Hks & E).
  { intros n Hn. apply filter_In in Hn as [Hn Hq]. exact (Hs n Hn Hq). }
  rewrite E in HL. destruct Hks as [| a ks Ha Hks]; [destruct HL |].
  cbn [map fold_left] in HL.
  rewrite (maximo_texto_desde _ _ _ Hks Ha) in HL.
  cbn [siguiente_secuencial] in HL.
  pose proof (maximo_en_rango ks a Hks Ha) as Hm.
  rewrite (slice_final_numero _ _ Hm), (pad4_parseInt _ Hm) in HL.
  cbn [String_de_numero] in HL.
  change (In (periodo f ++ pad4 (fold_left Z.max ks a + 1))
             (map (fun k => periodo f ++ pad4 k) (a :: ks))) in HL.
  apply in_map_iff in HL as (k & Ek & Hk).
  apply append_inyectiva in Ek.
  assert (Rk : 0 <= k <= 9999).
  { assert (F : Forall (fun k => 0 <= k <= 9999) (a :: ks)) by now constructor.
    rewrite Forall_forall in F. now apply F. }
  pose proof (maximo_cota ks a k Hk) as Hle.
  destruct (Z.eq_dec (fold_left Z.max ks a) 9999) as [E9 | N9].
  - apply (f_equal String.length) in Ek.
    rewrite (pad4_length k Rk), E9 in Ek. vm_compute in Ek. discriminate Ek.
  - apply pad4_inyectiva in Ek; lia.
Qed.

(** ** The schema is an invariant of the engine *)

Lemma map_clave_con_estado {B} (clave : Factura -> B) (cuales : Factura -> bool)
  (e : EstadoFactura) fs :
  (forall f, clave (con_estado_factura f e) = clave f) ->
  map clave (map (fun f => if cuales f then con_estado_factura f e else f) fs)
  = map clave fs.
Proof.
  intros H. rewrite map_map. apply map_ext. intros f.
  destruct (cuales f); [apply H | reflexivity].
Qed.

Lemma esquema_cambiar_estado_factura (cuales : Factura -> bool) e d :
  esquema d ->
  esquema (con_Facturas d
             (map (fun f => if cuales f then con_estado_factura f e else f)
                  (Facturas d))).
Proof.
  intros E. destruct E. unfold con_Facturas.
  constructor; cbn [Productos Productos_Carrito Ventas Facturas Detalles_Venta
                    auto_venta auto_factura];
    try rewrite map_clave_con_estado by reflexivity; try assumption.
  - intros f Hf. apply in_map_iff in Hf as (g & Eg & Hg).
    apply fk_facturas_venta0 in Hg. destruct (cuales g); now subst f.
  - intros f Hf. apply in_map_iff in Hf as (g & Eg & Hg).
    apply auto_factura_libre0 in Hg. destruct (cuales g); now subst f.
Qed.

Lemma esquema_marcar_factura_anulada idFactura d :
  esquema d -> esquema (marcar_factura_anulada idFactura d).
Proof. apply esquema_cambiar_estado_factura. Qed.

Lemma esquema_efecto_anular idFactura v d :
  esquema d -> esquema (efecto_anular idFactura v d).
Proof.
  intros E. unfold efecto_anular. destruct (estado_venta v).
  - now apply esquema_reponer_lineas, esquema_marcar_venta_cancelada,
      esquema_marcar_factura_anulada.
  - now apply esquema_marcar_factura_anulada.
Qed.

(** A transaction followed by a read leaves the store it found or the
    working copy its body reached. *)
Lemma transaccion_y_lectura {A B} (cuerpo : Accion Conexion A)
  (k : A -> Accion Sistema B) s r s' :
  respeta_exterior cuerpo -> (forall a, solo_lee (k a)) ->
  bind (conTransaccion cuerpo) k s = (r, s') ->
  almacen s' = almacen s
  \/ exists a c1, cuerpo (mkConexion (almacen s) s) = (Exito a, c1)
                  /\ almacen s' = trabajo c1.
Proof.
  intros R L H. unfold bind in H.
  destruct (conTransaccion cuerpo s) as [[a | e] s1] eqn:T.
  - apply conTransaccion_exito in T as (c1 & H1 & A1 & _).
    apply L in H as [A2 _]. right. exists a, c1. split; [exact H1 | congruence].
  - inversion H; subst. left.
    now apply conTransaccion_fallo in T as [A2 _].
Qed.

(** Every operation of the engine takes a store that satisfies the schema
    to a store that satisfies it, whatever it answers. *)
Theorem esquema_invariante (s s' : Sistema) :
  esquema (almacen s) ->
  (forall idUsuario r,
      procesarVentaDesdeCarrito idUsuario s = (r, s') -> esquema (almacen s'))
  /\ (forall idVenta idUsuario r,
        cancelarVenta idVenta idUsuario s = (r, s') -> esquema (almacen s'))
  /\ (forall idVenta r,
        generarFactura idVenta s = (r, s') -> esquema (almacen s'))
  /\ (forall idFactura motivo r,
        anularFactura idFactura motivo s = (r, s') -> esquema (almacen s'))
  /\ (forall idFactura r,
        eliminarFactura idFactura s = (r, s') -> esquema (almacen s'))
  /\ (forall idFactura r,
        marcarComoPagada idFactura s = (r, s') -> esquema (almacen s')).
Proof.
  intros E. split; [| split; [| split; [| split; [| split]]]].
  - intros u r H.
    apply procesarVenta_todo_o_nada in H as [_ [[-> _] | (c0 & c & _ & _ & ->)]];
      [exact E | now apply esquema_efecto_venta].
  - intros idVenta u [b | e] H.
    + apply cancelarVenta_exito in H as (_ & _ & -> & _).
      now apply esquema_efecto_cancelar.
    + apply conTransaccion_fallo in H as [-> _];
        [exact E | apply cuerpo_cancelarVenta_respeta].
  - intros idVenta r H. unfold generarFactura in H.
    apply transaccion_y_lectura in H as [-> | (a & c1 & H & ->)];
      [exact E | | apply cuerpo_generarFactura_respeta
       | apply obtenerFacturaPorId_solo_lee].
    apply cuerpo_generarFactura_exito in H
      as (v & previa & resto & Esel & _ & _ & Hi & _). cbn [trabajo] in *.
    refine (esquema_poner_factura _ _ _ _ _ _ E _ Hi).
    assert (Hv : In (v, previa) (sel_venta_facturable idVenta (almacen s)))
      by (rewrite Esel; now left).
    apply sel_venta_facturable_In in Hv as (Hv & <- & _). now apply in_map.
  - intros idFactura motivo r H. unfold anularFactura in H.
    apply transaccion_y_lectura in H as [-> | ([] & c1 & H & ->)];
      [exact E | | apply cuerpo_anularFactura_respeta
       | intros _; apply obtenerFacturaPorId_solo_lee].
    apply cuerpo_anularFactura_exito in H as (f & v & resto & _ & ->).
    now apply esquema_efecto_anular.
  - intros idFactura [b | e] H; unfold eliminarFactura in H.
    + apply conTransaccion_exito in H as (c1 & H & -> & _).
      unfold cuerpo_eliminarFactura in H.
      apply bind_exito in H as (fila & c2 & H1 & H).
      apply execute_seleccionar_exito in H1 as [-> T1]. cbn [trabajo] in *.
      destruct (sel_factura idFactura (almacen s)); [discriminate H |].
      apply bind_exito in H as ([] & c3 & H2 & H).
      apply execute_modificar_exito in H2. inversion H; subst.
      rewrite H2, T1. now apply esquema_borrar_factura.
    + apply conTransaccion_fallo in H as [-> _];
        [exact E | apply cuerpo_eliminarFactura_respeta].
  - intros idFactura r H. unfold marcarComoPagada in H. unfold bind in H.
    destruct (db_execute (pagar_factura idFactura) s) as [[n | e] s1] eqn:P.
    + assert (A1 : almacen s1
                   = con_Facturas (almacen s)
                       (map (fun f =>
                               if (id_factura f =? idFactura)
                                  && estado_factura_eqb (f_estado f) EMITIDA
                               then con_estado_factura f PAGADA else f)
                            (Facturas (almacen s)))).
      { unfold db_execute in P.
        destruct (pulso s) as [[[] | e0] s0] eqn:Q; [| discriminate P].
        apply pulso_exterior in Q as [Q _]. unfold pagar_factura in P.
        inversion P; subst. cbn [almacen]. now rewrite Q. }
      assert (A2 : almacen s' = almacen s1).
      { destruct n; [inversion H; reflexivity |].
        now apply obtenerFacturaPorId_solo_lee in H as [A2 _]. }
      rewrite A2, A1. now apply esquema_cambiar_estado_factura.
    + inversion H; subst. unfold db_execute in P.
      destruct (pulso s) as [[[] | e0] s0] eqn:Q.
      * unfold pagar_factura in P. discriminate P.
      * inversion P; subst. apply pulso_exterior in Q as [-> _]. exact E.
Qed.

(** ** Overlapping issuances *)

(** On a healthy store, one issuance alone does what its three statements
    do one after the other. *)
Lemma generarFactura_por_pasos idVenta s :
  averia s = None ->
  conTransaccion (cuerpo_generarFactura idVenta) s = emision_por_pasos idVenta s.
Proof.
  intros Hs. destruct s as [d f a]. cbn [averia] in Hs. subst a.
  unfold conTransaccion, cuerpo_generarFactura, emision_por_pasos, paso_verificar,
    paso_insertar.
  unfold bind at 1 3 4. rewrite execute_sano by reflexivity.
  rewrite db_execute_sano by reflexivity.
  unfold seleccionar. cbn [trabajo fuera almacen hoy].
  destruct (sel_venta_facturable idVenta d) as [| [v previa] resto];
    [reflexivity |].
  destruct (verdadero previa); [reflexivity |].
  unfold ret at 1. unfold bind, por_el_pool. cbn [fuera trabajo].
  rewrite (generarNumeroFactura_sano (mkSistema d f None) eq_refl).
  rewrite execute_sano by reflexivity. rewrite db_execute_sano by reflexivity.
  cbn [trabajo fuera almacen hoy].
  destruct (insertar_factura idVenta (numero_siguiente f d) (total_venta v) d)
    as [[i d1] | e]; reflexivity.
Qed.

(** The number is read outside the transaction: it depends on the committed
    store only, whatever the transaction has written to its working copy. *)
Lemma numero_ajeno_a_la_transaccion (w1 w2 : DB) (s : Sistema) :
  fst (por_el_pool generarNumeroFactura (mkConexion w1 s))
  = fst (por_el_pool generarNumeroFactura (mkConexion w2 s)).
Proof.
  unfold por_el_pool. cbn [fuera].
  destruct (generarNumeroFactura s) as [r s1]. reflexivity.
Qed.

(** C4, on the code.  The number is derived outside the transaction that
    inserts the invoice, and two issuances of the same period that overlap
    read the same number: the first insertion takes it and the second is
    rejected by the unique key of [numero_factura]. *)
Theorem numeracion_sin_proteccion :
  (forall w1 w2 s,
      fst (por_el_pool generarNumeroFactura (mkConexion w1 s))
      = fst (por_el_pool generarNumeroFactura (mkConexion w2 s)))
  /\ fst (emisiones_solapadas 1 2 (en_noviembre dos_ventas))
     = Exito ("2024110001", "2024110001", Exito 1,
              Fallo (EntradaDuplicada "numero_factura")).
Proof.
  split; [exact numero_ajeno_a_la_transaccion | vm_compute; reflexivity].
Qed.

(** ** Overlapping checkouts *)

(** On a store that rejects nothing, one checkout alone does what its two
    parts do one after the other. *)
Lemma compra_por_pasos_sana (d : DB) (f : Fecha) (idUsuario : Z) :
  conTransaccion (cuerpo_procesarVenta idUsuario) (mkSistema d f None)
  = compra_por_pasos idUsuario (mkSistema d f None).
Proof.
  unfold compra_por_pasos, lectura_de_compra, escritura_de_compra,
    conTransaccion, cuerpo_procesarVenta, cuerpo_escritura_de_compra.
  unfold bind, execute, db_execute, seleccionar, lanzar, ret, pulso.
  cbn [trabajo fuera almacen hoy averia]. cbv beta iota.
  destruct (sel_carrito idUsuario d) as [| c0 resto]; [reflexivity |].
  cbv beta iota zeta. cbn [trabajo fuera almacen hoy averia].
  destruct (sel_productos_carrito (id_carrito c0) d) as [| l0 ls];
    [reflexivity |].
  rewrite !validar_stock_eq. cbn [fst snd].
  destruct (faltantes (l0 :: ls)); reflexivity.
Qed.

(** C2.  The code does not keep the stock at or above zero when two
    checkouts overlap.  A checkout reads the stock with a plain [SELECT],
    validates the quantities against what it has read, and decrements the
    stock later with a relative [UPDATE]; it takes no lock in between, and
    its two parts are the whole of it ([compra_por_pasos]).  In
    [tienda_disputada] there are five tables and no negative stock; users
    10 and 11 ask for three each.  When both have validated their cart
    before either writes, both checkouts succeed, as sales 1 and 2, and the
    stock of the table is left at -1.  Served one after the other, the
    second is refused (the table is AGOTADO by then) and the stock stays
    at 2. *)
Theorem stock_negativo_con_compras_solapadas :
  (forall d f idUsuario,
      conTransaccion (cuerpo_procesarVenta idUsuario) (mkSistema d f None)
      = compra_por_pasos idUsuario (mkSistema d f None))
  /\ existencias tienda_disputada = [(100, 5)]
  /\ fst (compras_solapadas 10 11 (en_noviembre tienda_disputada))
     = Exito (Exito 1, Exito 2)
  /\ existencias
       (almacen (snd (compras_solapadas 10 11 (en_noviembre tienda_disputada))))
     = [(100, -1)]
  /\ cantidad_vendida 100 1
       (almacen (snd (compras_solapadas 10 11 (en_noviembre tienda_disputada))))
     = 3
  /\ cantidad_vendida 100 2
       (almacen (snd (compras_solapadas 10 11 (en_noviembre tienda_disputada))))
     = 3
  /\ ~ stock_no_negativo
         (almacen (snd (compras_solapadas 10 11 (en_noviembre tienda_disputada))))
  /\ fst (procesarVentaDesdeCarrito 11
            (snd (procesarVentaDesdeCarrito 10 (en_noviembre tienda_disputada))))
     = Fallo CarritoVacio
  /\ existencias
       (almacen
          (snd (procesarVentaDesdeCarrito 11
                  (snd (procesarVentaDesdeCarrito 10
                          (en_noviembre tienda_disputada))))))
     = [(100, 2)].
Proof.
  split; [exact compra_por_pasos_sana |].
  repeat (split; [vm_compute; reflexivity |]).
  split; [| split; vm_compute; reflexivity].
  intros H.
  assert (Y : In (mkProducto 100 "mesa" 25000 (-1) AGOTADO)
                 (Productos
                    (almacen (snd (compras_solapadas 10 11
                                     (en_noviembre tienda_disputada))))))
    by (vm_compute; now left).
  apply H in Y. simpl in Y. lia.
Qed.

(** ** The examples *)

Example parseInt_ejemplos :
  parseInt "0007" = Some 7 /\ parseInt "9999" = Some 9999
  /\ parseInt "0NaN" = Some 0 /\ parseInt "aNaN" = None
  /\ parseInt " +12" = Some 12 /\ parseInt "0x1F" = Some 31.
Proof. repeat split; reflexivity. Qed.

Example padStart_ejemplos :
  padStart 2 "0" (String_de_Z 11) = "11"
  /\ padStart 2 "0" (String_de_Z 3) = "03"
  /\ pad4 7 = "0007" /\ pad4 10000 = "10000".
Proof. repeat split; reflexivity. Qed.

Example slice_final_ejemplos :
  slice_final 4 "2024110007" = "0007" /\ slice_final 4 "12" = "12".
Proof. split; reflexivity. Qed.

(** The scenario of the specification: five tables, three sold, invoice
    [2024110001]; voiding the invoice gives the three tables back. *)
Example compra_en_tienda :
  almacen (snd (procesarCompra 10 (en_noviembre tienda))) = tienda_vendida.
Proof. vm_compute. reflexivity. Qed.

Example anulacion_en_tienda :
  almacen (snd (anularFactura 1 None (en_noviembre tienda_vendida)))
  = tienda_anulada.
Proof. vm_compute. reflexivity. Qed.

(** The store rejects the sixth statement of the checkout, in the middle of
    the loop over the cart lines: the sale, the first line and the first
    stock decrement are rolled back. *)
Example averia_a_media_venta :
  procesarCompra 10 (mkSistema tienda noviembre_2024 (Some 5%nat))
  = (Fallo AlmacenNoDisponible, en_noviembre tienda).
Proof. vm_compute. reflexivity. Qed.

(** The store rejects the insertion of the invoice, the fourteenth statement
    of the purchase: the sale stays committed without invoice. *)
Example averia_en_la_factura :
  fst (procesarCompra 10 (mkSistema tienda noviembre_2024 (Some 13%nat)))
  = Fallo AlmacenNoDisponible
  /\ Ventas (almacen (snd (procesarCompra 10
                             (mkSistema tienda noviembre_2024 (Some 13%nat)))))
     = [mkVenta 1 10 83000 COMPLETADA]
  /\ Facturas (almacen (snd (procesarCompra 10
                               (mkSistema tienda noviembre_2024 (Some 13%nat)))))
     = [].
Proof. vm_compute. repeat split. Qed.

Ltac sin_repetir :=
  repeat (constructor; [cbn; intuition (discriminate || congruence) |]);
  constructor.

Ltac por_filas :=
  intros; simpl in *;
  repeat match goal with
         | H : _ \/ _ |- _ => destruct H
         | H : False |- _ => destruct H
         end;
  subst; simpl; auto; try lia.

Ltac esquema_concreto :=
  constructor;
  match goal with
  | |- NoDup _ => sin_repetir
  | |- _ => por_filas
  end.

Lemma esquema_tienda : esquema tienda.
Proof. esquema_concreto. Qed.

Lemma esquema_tienda_vendida : esquema tienda_vendida.
Proof. esquema_concreto. Qed.

Lemma esquema_tras_venta : esquema (almacen tras_venta).
Proof. vm_compute. esquema_concreto. Qed.

Example esquema_de_los_ejemplos :
  esquema tienda_anulada /\ esquema tienda_escasa
  /\ esquema tienda_saturada /\ esquema dos_ventas.
Proof. repeat apply conj; esquema_concreto. Qed.

Lemma stock_no_negativo_tienda : stock_no_negativo tienda.
Proof. unfold stock_no_negativo. por_filas. Qed.

(** ** Where the specification and the code part *)

(** C1 as stated fails.  In [tienda_saturada] the checkout of user 10
    commits (sale 3 on file, stock decremented, cart emptied) and the
    issuance of the invoice then fails, the generated number being in use:
    the purchase answers with the error and nothing of the checkout is
    rolled back. *)
Lemma compra_fallida_no_deshace_la_venta :
  fst (procesarCompra 10 (en_noviembre tienda_saturada))
  = Fallo (EntradaDuplicada "numero_factura")
  /\ Productos_Carrito tienda_saturada
     = [mkProductoCarrito 1 100 3; mkProductoCarrito 1 101 1]
  /\ Productos_Carrito (almacen (snd (procesarCompra 10 (en_noviembre tienda_saturada))))
     = []
  /\ In (mkVenta 3 10 83000 COMPLETADA)
        (Ventas (almacen (snd (procesarCompra 10 (en_noviembre tienda_saturada)))))
  /\ existencias tienda_saturada = [(100, 5); (101, 4)]
  /\ existencias (almacen (snd (procesarCompra 10 (en_noviembre tienda_saturada))))
     = [(100, 2); (101, 3)].
Proof. vm_compute. repeat split; auto. Qed.


(** C7 fails on the code.  With the sequences 9999 and 10000 on file for
    the month, the text order puts [2024119999] last and its last four
    characters give 10000 again: the generator returns a number that is
    already on file, where the greatest sequence plus one is 10001. *)
Theorem numero_repetido_tras_9999 :
  fst (generarNumeroFactura (en_noviembre tienda_saturada)) = Exito "20241110000"
  /\ In "20241110000" (map numero_factura (Facturas tienda_saturada))
  /\ numero_segun_spec noviembre_2024 (map numero_factura (Facturas tienda_saturada))
     = "20241110001".
Proof. vm_compute. repeat split; auto. Qed.

(** C9 as stated fails.  In [tienda_escasa] two lines of the cart are
    short, the tables and the chairs; the error of the checkout names the
    tables only.  In [tienda_con_agotado] the cart asks for three tables
    of which two are in stock, but the tables are AGOTADO: the line is not
    read, no shortfall is reported, the checkout sells the chair alone,
    empties the cart and leaves the stock of tables as it was. *)
Lemma solo_el_primer_faltante :
  faltantes (sel_productos_carrito 1 tienda_escasa)
  = [mkLineaCarrito 100 7 "mesa" 25000 5 175000;
     mkLineaCarrito 101 9 "silla" 8000 4 72000]
  /\ procesarVentaDesdeCarrito 10 (en_noviembre tienda_escasa)
     = (Fallo (StockInsuficiente "mesa" 5 7), en_noviembre tienda_escasa)
  /\ sel_productos_carrito 1 tienda_con_agotado
     = [mkLineaCarrito 101 1 "silla" 8000 4 8000]
  /\ fst (procesarVentaDesdeCarrito 10 (en_noviembre tienda_con_agotado))
     = Exito (mkVentaCompleta (mkVenta 1 10 8000 COMPLETADA)
                (sel_detalles_con_producto 1
                   (almacen (snd (procesarVentaDesdeCarrito 10
                                    (en_noviembre tienda_con_agotado))))))
  /\ Productos_Carrito
       (almacen (snd (procesarVentaDesdeCarrito 10
                        (en_noviembre tienda_con_agotado)))) = []
  /\ existencias
       (almacen (snd (procesarVentaDesdeCarrito 10
                        (en_noviembre tienda_con_agotado))))
     = [(100, 2); (101, 3)]
  /\ map dv_id_producto
       (Detalles_Venta
          (almacen (snd (procesarVentaDesdeCarrito 10
                           (en_noviembre tienda_con_agotado))))) = [101].
Proof. vm_compute. repeat split; reflexivity. Qed.

(** C10 as stated fails.  In [tienda_anulada] invoice 1 is ANULADA and its
    sale CANCELADA; the invoice is deleted, and a new issuance for the sale
    is refused because the sale is not COMPLETADA. *)
Lemma reemision_rechazada_tras_eliminar :
  fst (eliminarFactura 1 (en_noviembre tienda_anulada)) = Exito true
  /\ Facturas (almacen (snd (eliminarFactura 1 (en_noviembre tienda_anulada)))) = []
  /\ fst (generarFactura 1 (snd (eliminarFactura 1 (en_noviembre tienda_anulada))))
     = Fallo VentaNoCompletada.
Proof. vm_compute. repeat split. Qed.

(** ** The theorems at work *)

(** User 10 checks out in [tienda]: three tables and a chair leave the
    stock. *)
Lemma conservacion_de_stock_en_tienda :
  procesarVentaDesdeCarrito 10 (en_noviembre tienda)
  = (Exito venta_ejemplo, tras_venta)
  /\ stock_no_negativo (almacen tras_venta)
  /\ existencias (almacen tras_venta) = [(100, 2); (101, 3)].
Proof.
  assert (H : procesarVentaDesdeCarrito 10 (en_noviembre tienda)
              = (Exito venta_ejemplo, tras_venta))
    by (vm_compute; reflexivity).
  destruct (conservacion_de_stock (en_noviembre tienda) 10 (Exito venta_ejemplo)
              tras_venta esquema_tienda stock_no_negativo_tienda H) as [P Q].
  split; [exact H |]. split; [exact P |].
  rewrite (Q venta_ejemplo eq_refl). vm_compute. reflexivity.
Defined.

(** The total of that sale is the sum of its two lines, and the invoice
    issued for it carries that total. *)
Lemma totales_conciliados_en_tienda :
  total_venta (ventaData venta_ejemplo) = 75000 + 8000
  /\ monto_total (facturaData factura_ejemplo)
     = total_venta (ventaData venta_ejemplo).
Proof.
  assert (H : procesarVentaDesdeCarrito 10 (en_noviembre tienda)
              = (Exito venta_ejemplo, tras_venta))
    by (vm_compute; reflexivity).
  assert (G : generarFactura 1 tras_venta = (Exito factura_ejemplo, tras_factura))
    by (vm_compute; reflexivity).
  destruct (totales_conciliados (en_noviembre tienda) 10 venta_ejemplo tras_venta
              tras_venta 1 factura_ejemplo tras_factura
              esquema_tienda H esquema_tras_venta G)
    as [[T _] [_ [M _]]].
  split.
  - rewrite T. vm_compute. reflexivity.
  - rewrite M. vm_compute. reflexivity.
Defined.


(** In [tienda_anulada] sale 1 is CANCELADA and invoice 1 ANULADA:
    cancelling the one and voiding the other are refused and change
    nothing. *)
Lemma transicion_terminal_en_tienda_anulada :
  cancelarVenta 1 10 (en_noviembre tienda_anulada)
  = (Fallo VentaNoCancelable, en_noviembre tienda_anulada)
  /\ anularFactura 1 None (en_noviembre tienda_anulada)
     = (Fallo FacturaNoAnulable, en_noviembre tienda_anulada).
Proof.
  destruct (transicion_terminal_sin_efecto (en_noviembre tienda_anulada)
              1 10 1 None)
    as [(e1 & s1 & C & _ & K1) (e2 & s2 & A & _ & K2)].
  - intros v [<- | []] _. reflexivity.
  - intros f [<- | []] _. reflexivity.
  - destruct (K1 eq_refl) as [-> ->]. destruct (K2 eq_refl) as [-> ->].
    split; [exact C | exact A].
Defined.

(** In [tienda_escasa] the checkout is refused for the tables, which are
    DISPONIBLE. *)
Lemma primer_faltante_en_tienda_escasa :
  procesarVentaDesdeCarrito 10 (en_noviembre tienda_escasa)
  = (Fallo (StockInsuficiente "mesa" 5 7), en_noviembre tienda_escasa)
  /\ linea_disponible 1 (mkLineaCarrito 100 7 "mesa" 25000 5 175000)
       tienda_escasa.
Proof.
  destruct (primer_faltante (en_noviembre tienda_escasa) 10
              (mkCarrito 1 10) [] eq_refl) as (_ & F & _).
  destruct (F (mkLineaCarrito 100 7 "mesa" 25000 5 175000)
              [mkLineaCarrito 101 9 "silla" 8000 4 72000] eq_refl)
    as (D & _ & e & s' & H & _ & K).
  destruct (K eq_refl) as [-> ->]. split; [exact H | exact D].
Defined.


(** The two units of a purchase: in [tienda_escasa] the first fails and
    nothing is written; in [tienda_saturada] the second fails and the sale
    stays. *)
Lemma compra_en_dos_unidades_en_tiendas :
  procesarCompra 10 (en_noviembre tienda_escasa)
  = (Fallo (StockInsuficiente "mesa" 5 7), en_noviembre tienda_escasa)
  /\ fst (procesarCompra 10 (en_noviembre tienda_saturada))
     = Fallo (EntradaDuplicada "numero_factura")
  /\ In (ventaData venta_saturada)
        (Ventas (almacen (snd (procesarCompra 10 (en_noviembre tienda_saturada))))).
Proof.
  assert (H1 : conTransaccion (cuerpo_procesarVenta 10) (en_noviembre tienda_escasa)
               = (Fallo (StockInsuficiente "mesa" 5 7), en_noviembre tienda_escasa))
    by (vm_compute; reflexivity).
  assert (H2 : procesarVentaDesdeCarrito 10 (en_noviembre tienda_saturada)
               = (Exito venta_saturada, tras_venta_saturada))
    by (vm_compute; reflexivity).
  assert (H3 : conTransaccion
                 (cuerpo_generarFactura (id_venta (ventaData venta_saturada)))
                 tras_venta_saturada
               = (Fallo (EntradaDuplicada "numero_factura"), tras_venta_saturada))
    by (vm_compute; reflexivity).
  destruct (compra_en_dos_unidades _ _ _ _ _ _ _ _ _ _ H1 H2 H3)
    as [[P1 _] [P2 [P3 _]]].
  split; [exact P1 |]. rewrite P2. split; [reflexivity | exact P3].
Defined.

(** In [tienda_vendida] invoice 1 is deleted and a new invoice is issued
    for sale 1. *)
Lemma eliminar_y_reemitir_en_tienda_vendida :
  exists s' fc s'',
    eliminarFactura 1 (en_noviembre tienda_vendida) = (Exito true, s')
    /\ Ventas (almacen s') = Ventas tienda_vendida
    /\ Productos (almacen s') = Productos tienda_vendida
    /\ generarFactura 1 s' = (Exito fc, s'')
    /\ f_estado (facturaData fc) = EMITIDA
    /\ monto_total (facturaData fc) = 83000.
Proof.
  destruct (eliminar_factura_solo_la_factura (en_noviembre tienda_vendida) 1
              (mkFactura 1 1 "2024110001" 83000 EMITIDA)
              esquema_tienda_vendida eq_refl (or_introl eq_refl) eq_refl)
    as (s' & E & _ & _ & _ & V & _ & P & R).
  destruct (R (mkVenta 1 10 83000 COMPLETADA) (or_introl eq_refl) eq_refl eq_refl)
    as (fc & s'' & G & _ & Ee & Em & _).
  - assert (X : eliminarFactura 1 (en_noviembre tienda_vendida)
                = (Exito true,
                   mkSistema (borrar_factura 1 tienda_vendida) noviembre_2024 None))
      by (vm_compute; reflexivity).
    rewrite X in E. inversion E; subst s'. vm_compute. intros [].
  - exists s', fc, s''. repeat (split; [assumption |]). exact Em.
Defined.

(** * Guards, read paths and the cart *)

(** ** What the checkout refuses *)

(** A transaction whose first query decides that it throws. *)
Lemma rechazo_en_la_guarda {A B} (q : DB -> A) (k : A -> Accion Conexion B)
  (e0 : Error) s :
  (forall c, k (q (almacen s)) c = (Fallo e0, c)) ->
  exists e s',
    conTransaccion (x <- execute (seleccionar q) ;; k x) s = (Fallo e, s')
    /\ almacen s' = almacen s
    /\ (averia s = None -> e = e0 /\ s' = s).
Proof.
  intros Hk. unfold conTransaccion, bind, execute, seleccionar. simpl.
  destruct (pulso s) as [[[] | e] s1] eqn:P; simpl.
  - rewrite Hk. simpl. exists e0, s1.
    split; [reflexivity |]. split; [apply (pulso_exterior _ _ _ P) |].
    intros Hs. rewrite (pulso_sano _ Hs) in P. inversion P. now split.
  - exists e, s1. split; [reflexivity |].
    split; [apply (pulso_exterior _ _ _ P) |].
    intros Hs. rewrite (pulso_sano _ Hs) in P. discriminate P.
Qed.

(** A failure of the first action is the failure of the sequence. *)
Lemma bind_rechazo {S A B} (m : Accion S A) (k : A -> Accion S B) s e s' :
  m s = (Fallo e, s') -> bind m k s = (Fallo e, s').
Proof. intros H. unfold bind. now rewrite H. Qed.

Lemma sel_carrito_vacio idUsuario d :
  (forall c, In c (Carritos d) -> c_id_usuario c <> idUsuario) ->
  sel_carrito idUsuario d = [].
Proof.
  intros H. apply filter_vacio. intros c Hc. apply Z.eqb_neq. now apply H.
Qed.

Lemma sel_productos_carrito_vacio idCarrito d :
  (forall pc p, In pc (Productos_Carrito d) -> In p (Productos d) ->
                pc_id_carrito pc = idCarrito ->
                pc_id_producto pc = id_producto p -> estado p <> DISPONIBLE) ->
  sel_productos_carrito idCarrito d = [].
Proof.
  intros H. destruct (sel_productos_carrito idCarrito d) as [| l r] eqn:E;
    [reflexivity |].
  assert (Hl : In l (sel_productos_carrito idCarrito d)) by (rewrite E; now left).
  apply linea_origen in Hl as (pc & p & Hpc & Hp & Ec & Ep & Ed & _).
  destruct (H pc p Hpc Hp Ec Ep Ed).
Qed.

Lemma compra_sin_carrito idUsuario s :
  sel_carrito idUsuario (almacen s) = [] ->
  exists e s',
    procesarVentaDesdeCarrito idUsuario s = (Fallo e, s')
    /\ almacen s' = almacen s
    /\ (averia s = None -> e = CarritoNoEncontrado /\ s' = s).
Proof.
  intros Hc.
  unfold procesarVentaDesdeCarrito, conTransaccion, cuerpo_procesarVenta, bind,
    execute, seleccionar. simpl.
  destruct (pulso s) as [[[] | e] s1] eqn:P; simpl.
  - rewrite Hc. simpl. exists CarritoNoEncontrado, s1.
    split; [reflexivity |]. split; [apply (pulso_exterior _ _ _ P) |].
    intros Hs. rewrite (pulso_sano _ Hs) in P. inversion P. now split.
  - exists e, s1. split; [reflexivity |].
    split; [apply (pulso_exterior _ _ _ P) |].
    intros Hs. rewrite (pulso_sano _ Hs) in P. discriminate P.
Qed.

Lemma compra_carrito_vacio idUsuario s c0 resto :
  sel_carrito idUsuario (almacen s) = c0 :: resto ->
  sel_productos_carrito (id_carrito c0) (almacen s) = [] ->
  exists e s',
    procesarVentaDesdeCarrito idUsuario s = (Fallo e, s')
    /\ almacen s' = almacen s
    /\ (averia s = None -> e = CarritoVacio /\ s' = s).
Proof.
  intros Hc Hl.
  unfold procesarVentaDesdeCarrito, conTransaccion, cuerpo_procesarVenta, bind,
    execute, seleccionar. simpl.
  destruct (pulso s) as [[[] | e] s1] eqn:P; simpl.
  - rewrite Hc. simpl.
    destruct (pulso s1) as [[[] | e] s2] eqn:Q; simpl.
    + rewrite Hl. simpl. exists CarritoVacio, s2. split; [reflexivity |].
      pose proof (pulso_exterior _ _ _ P) as [X1 _].
      pose proof (pulso_exterior _ _ _ Q) as [X2 _].
      split; [congruence |].
      intros Hs. rewrite (pulso_sano _ Hs) in P. inversion P; subst s1.
      rewrite (pulso_sano _ Hs) in Q. inversion Q. now split.
    + exists e, s2. split; [reflexivity |].
      pose proof (pulso_exterior _ _ _ P) as [X1 _].
      pose proof (pulso_exterior _ _ _ Q) as [X2 _].
      split; [congruence |].
      intros Hs. rewrite (pulso_sano _ Hs) in P. inversion P; subst s1.
      rewrite (pulso_sano _ Hs) in Q. discriminate Q.
  - exists e, s1. split; [reflexivity |].
    split; [apply (pulso_exterior _ _ _ P) |].
    intros Hs. rewrite (pulso_sano _ Hs) in P. discriminate P.
Qed.

(** X1.  A checkout with nothing to sell is refused and writes nothing.
    For a user who has no cart, and for a user whose cart holds no line of
    a product that is DISPONIBLE, because the cart has no line or because
    every product in it is AGOTADO or DESCONTINUADO, the checkout fails and
    no table changes, whatever the health of the store.  On a store that
    rejects no statement the error is, in the first case,
    [CarritoNoEncontrado], 'No se encontró un carrito para este usuario',
    and in the second [CarritoVacio], 'El carrito está vacío o no contiene
    productos disponibles'. *)
Theorem compra_sin_nada_que_vender (s : Sistema) (idUsuario : Z) :
  ((forall c, In c (Carritos (almacen s)) -> c_id_usuario c <> idUsuario) ->
   exists e s',
     procesarVentaDesdeCarrito idUsuario s = (Fallo e, s')
     /\ almacen s' = almacen s
     /\ (averia s = None -> e = CarritoNoEncontrado /\ s' = s))
  /\
  (forall c0 resto,
     sel_carrito idUsuario (almacen s) = c0 :: resto ->
     (forall pc p,
        In pc (Productos_Carrito (almacen s)) -> In p (Productos (almacen s)) ->
        pc_id_carrito pc = id_carrito c0 ->
        pc_id_producto pc = id_producto p -> estado p <> DISPONIBLE) ->
     exists e s',
       procesarVentaDesdeCarrito idUsuario s = (Fallo e, s')
       /\ almacen s' = almacen s
       /\ (averia s = None -> e = CarritoVacio /\ s' = s)).
Proof.
  split.
  - intros H. apply compra_sin_carrito. now apply sel_carrito_vacio.
  - intros c0 resto Hc Hl. apply (compra_carrito_vacio _ _ _ _ Hc).
    now apply sel_productos_carrito_vacio.
Qed.

(** User 11 has no cart in [tienda]; in [tienda_agotada] the cart of user 10
    holds tables only, and they are AGOTADO. *)
Lemma compra_sin_nada_que_vender_en_tiendas :
  procesarVentaDesdeCarrito 11 (en_noviembre tienda)
  = (Fallo CarritoNoEncontrado, en_noviembre tienda)
  /\ procesarVentaDesdeCarrito 10 (en_noviembre tienda_agotada)
     = (Fallo CarritoVacio, en_noviembre tienda_agotada).
Proof.
  split.
  - destruct (compra_sin_nada_que_vender (en_noviembre tienda) 11) as [A _].
    destruct A as (e & s' & H & _ & K).
    + intros c [<- | []]. discriminate.
    + destruct (K eq_refl) as [-> ->]. exact H.
  - destruct (compra_sin_nada_que_vender (en_noviembre tienda_agotada) 10)
      as [_ B].
    destruct (B (mkCarrito 1 10) [] eq_refl) as (e & s' & H & _ & K).
    + intros pc p [<- | []] [<- | [<- | []]] _ Ep; simpl in *;
        discriminate.
    + destruct (K eq_refl) as [-> ->]. exact H.
Defined.

(** ** Who may cancel a sale *)

Lemma sel_venta_cancelable_In idVenta idUsuario d v :
  In v (sel_venta_cancelable idVenta idUsuario d) ->
  In v (Ventas d) /\ id_venta v = idVenta /\ v_id_usuario v = idUsuario
  /\ estado_venta v = COMPLETADA.
Proof.
  unfold sel_venta_cancelable. intros H. apply filter_In in H as [Hv H].
  apply andb_true_iff in H as [H He]. apply andb_true_iff in H as [Hi Hu].
  apply Z.eqb_eq in Hi, Hu. destruct (estado_venta v); [| discriminate He].
  auto.
Qed.

Lemma sel_venta_cancelable_ajena idVenta idUsuario d :
  (forall v, In v (Ventas d) -> id_venta v = idVenta -> v_id_usuario v <> idUsuario) ->
  sel_venta_cancelable idVenta idUsuario d = [].
Proof.
  intros H. apply filter_vacio. intros v Hv.
  destruct (id_venta v =? idVenta) eqn:E; [| reflexivity].
  apply Z.eqb_eq in E. apply (H v Hv) in E. apply Z.eqb_neq in E.
  rewrite E. reflexivity.
Qed.

(** X2.  Only its buyer cancels a sale.  The handler passes the identifier
    of the user of the request, and the model looks the sale up by
    identifier, user and state: a cancellation that succeeds was asked by
    the user the sale belongs to, of a sale that was COMPLETADA; asked by
    anyone else, whatever their permissions, it fails with 'Venta no
    encontrada o no se puede cancelar' and no table changes. *)
Theorem cancelar_solo_el_comprador
  (s : Sistema) (id idUsuario : Z) (r : Resultado bool) (s' : Sistema) :
  cancelarCompra id idUsuario s = (r, s') ->
  (forall b, r = Exito b ->
     exists v, In v (Ventas (almacen s)) /\ id_venta v = id
               /\ v_id_usuario v = idUsuario /\ estado_venta v = COMPLETADA)
  /\ ((forall v, In v (Ventas (almacen s)) -> id_venta v = id ->
                 v_id_usuario v <> idUsuario) ->
      almacen s' = almacen s
      /\ exists e, r = Fallo e
                   /\ (averia s = None -> e = VentaNoCancelable /\ s' = s)).
Proof.
  unfold cancelarCompra. intros H. split.
  - intros b ->. apply cancelarVenta_exito in H as (Hsel & _).
    destruct (sel_venta_cancelable id idUsuario (almacen s)) as [| v resto] eqn:E;
      [now destruct Hsel |].
    exists v. apply (sel_venta_cancelable_In id idUsuario). rewrite E. now left.
  - intros Hajena. apply sel_venta_cancelable_ajena in Hajena.
    destruct (cancelarVenta_cancelada _ _ _ Hajena) as (e & s1 & H1 & A & K).
    rewrite H1 in H. inversion H; subst r s'. split; [exact A |].
    exists e. split; [reflexivity | exact K].
Qed.

(** In [tienda_vendida] sale 1 belongs to user 10: user 11 cannot cancel
    it, user 10 can. *)
Lemma cancelar_solo_el_comprador_en_tienda_vendida :
  cancelarCompra 1 11 (en_noviembre tienda_vendida)
  = (Fallo VentaNoCancelable, en_noviembre tienda_vendida)
  /\ exists v, In v (Ventas tienda_vendida) /\ id_venta v = 1
               /\ v_id_usuario v = 10 /\ estado_venta v = COMPLETADA.
Proof.
  split.
  - destruct (cancelar_solo_el_comprador (en_noviembre tienda_vendida) 1 11
                (fst (cancelarCompra 1 11 (en_noviembre tienda_vendida)))
                (snd (cancelarCompra 1 11 (en_noviembre tienda_vendida)))
                (surjective_pairing _)) as [_ B].
    destruct B as (_ & e & E & K).
    + intros v [<- | []] _. discriminate.
    + destruct (K eq_refl) as [-> Es].
      rewrite (surjective_pairing (cancelarCompra 1 11 (en_noviembre tienda_vendida))).
      now rewrite E, Es.
  - assert (H : cancelarCompra 1 10 (en_noviembre tienda_vendida)
                = (Exito true, snd (cancelarCompra 1 10 (en_noviembre tienda_vendida))))
      by (vm_compute; reflexivity).
    destruct (cancelar_solo_el_comprador _ _ _ _ _ H) as [A _].
    exact (A true eq_refl).
Defined.

(** ** What the issuance refuses *)

Lemma generarFactura_rechazo idVenta e0 s :
  (forall c,
     match sel_venta_facturable idVenta (almacen s) with
     | [] => lanzar VentaNoCompletada
     | (v, idFacturaPrevia) :: _ =>
         if verdadero idFacturaPrevia then lanzar FacturaYaGenerada
         else
           numeroFactura <- por_el_pool generarNumeroFactura ;;
           execute (insertar_factura idVenta numeroFactura (total_venta v))
     end c = (Fallo e0, c)) ->
  exists e s',
    generarFactura idVenta s = (Fallo e, s')
    /\ almacen s' = almacen s
    /\ (averia s = None -> e = e0 /\ s' = s).
Proof.
  intros Hk.
  destruct (rechazo_en_la_guarda (sel_venta_facturable idVenta)
              (fun venta =>
                 match venta with
                 | [] => lanzar VentaNoCompletada
                 | (v, idFacturaPrevia) :: _ =>
                     if verdadero idFacturaPrevia then lanzar FacturaYaGenerada
                     else
                       numeroFactura <- por_el_pool generarNumeroFactura ;;
                       execute (insertar_factura idVenta numeroFactura
                                  (total_venta v))
                 end)
              e0 s Hk) as (e & s' & R & A & K).
  exists e, s'. split; [| split; assumption].
  apply bind_rechazo. exact R.
Qed.

Lemma sel_venta_facturable_vacio idVenta d :
  (forall v, In v (Ventas d) -> id_venta v = idVenta -> estado_venta v = CANCELADA) ->
  sel_venta_facturable idVenta d = [].
Proof.
  intros H. apply flat_map_vacio. intros v Hv.
  destruct (id_venta v =? idVenta) eqn:E; [| reflexivity].
  apply Z.eqb_eq in E. rewrite (H v Hv E). reflexivity.
Qed.

(** The guard row of a sale that has an invoice carries the identifier of
    an invoice, and identifiers start at 1. *)
Lemma sel_venta_facturable_con_factura d v f :
  esquema d ->
  In v (Ventas d) -> estado_venta v = COMPLETADA ->
  In f (Facturas d) -> f_id_venta f = id_venta v ->
  exists k resto,
    sel_venta_facturable (id_venta v) d = (v, Some k) :: resto /\ 0 < k.
Proof.
  intros E Hv Ec Hf Ef. unfold sel_venta_facturable.
  rewrite (flat_map_clave_unica id_venta _ (Ventas d) v (pk_ventas _ E) Hv).
  - rewrite Z.eqb_refl, Ec. simpl.
    destruct (filter (fun f0 => id_venta v =? f_id_venta f0) (Facturas d))
      as [| f0 fs] eqn:F.
    + assert (X : In f (filter (fun f0 => id_venta v =? f_id_venta f0) (Facturas d))).
      { apply filter_In. split; [exact Hf |]. apply Z.eqb_eq. now symmetry. }
      rewrite F in X. destruct X.
    + exists (id_factura f0), (map (fun f1 => (v, Some (id_factura f1))) fs).
      split; [reflexivity |].
      assert (X : In f0 (filter (fun f0 => id_venta v =? f_id_venta f0) (Facturas d)))
        by (rewrite F; now left).
      apply filter_In in X as [X _]. apply (auto_factura_libre _ E) in X. lia.
  - intros y _ Hy. apply Z.eqb_neq in Hy. now rewrite Hy.
Qed.

Lemma generarFactura_con_factura s v f :
  esquema (almacen s) ->
  In v (Ventas (almacen s)) -> estado_venta v = COMPLETADA ->
  In f (Facturas (almacen s)) -> f_id_venta f = id_venta v ->
  exists e s',
    generarFactura (id_venta v) s = (Fallo e, s')
    /\ almacen s' = almacen s
    /\ (averia s = None -> e = FacturaYaGenerada /\ s' = s).
Proof.
  intros E Hv Ec Hf Ef.
  destruct (sel_venta_facturable_con_factura _ _ _ E Hv Ec Hf Ef)
    as (k & resto & Hsel & Hk).
  apply generarFactura_rechazo. intros c. rewrite Hsel. simpl.
  replace (k =? 0) with false by (symmetry; apply Z.eqb_neq; lia).
  reflexivity.
Qed.

(** X3.  An invoice is issued only for a sale that is COMPLETADA and has no
    invoice.  For an identifier that names no sale or a sale that is
    CANCELADA, and for a COMPLETADA sale that already has an invoice, in
    any state, the issuance fails and no table changes.  On a store that
    rejects no statement the error is, in the first case,
    [VentaNoCompletada], 'Venta no encontrada o no está completada', and in
    the second [FacturaYaGenerada], 'Esta venta ya tiene una factura
    generada'. *)
Theorem emision_rechazada (s : Sistema) (idVenta : Z) :
  esquema (almacen s) ->
  ((forall v, In v (Ventas (almacen s)) -> id_venta v = idVenta ->
              estado_venta v = CANCELADA) ->
   exists e s',
     generarFactura idVenta s = (Fallo e, s')
     /\ almacen s' = almacen s
     /\ (averia s = None -> e = VentaNoCompletada /\ s' = s))
  /\
  (forall v f,
     In v (Ventas (almacen s)) -> id_venta v = idVenta ->
     estado_venta v = COMPLETADA ->
     In f (Facturas (almacen s)) -> f_id_venta f = idVenta ->
     exists e s',
       generarFactura idVenta s = (Fallo e, s')
       /\ almacen s' = almacen s
       /\ (averia s = None -> e = FacturaYaGenerada /\ s' = s)).
Proof.
  intros E. split.
  - intros H. apply generarFactura_rechazo. intros c.
    now rewrite (sel_venta_facturable_vacio _ _ H).
  - intros v f Hv <- Ec Hf Ef. now apply (generarFactura_con_factura s v f).
Qed.

(** In [tienda_anulada] sale 1 is CANCELADA and there is no sale 7; in
    [tienda_vendida] sale 1 has invoice 1. *)
Lemma emision_rechazada_en_tiendas :
  generarFactura 1 (en_noviembre tienda_anulada)
  = (Fallo VentaNoCompletada, en_noviembre tienda_anulada)
  /\ generarFactura 7 (en_noviembre tienda_anulada)
     = (Fallo VentaNoCompletada, en_noviembre tienda_anulada)
  /\ generarFactura 1 (en_noviembre tienda_vendida)
     = (Fallo FacturaYaGenerada, en_noviembre tienda_vendida).
Proof.
  assert (Ea : esquema tienda_anulada) by apply esquema_de_los_ejemplos.
  destruct (emision_rechazada (en_noviembre tienda_anulada) 1 Ea) as [A1 _].
  destruct (emision_rechazada (en_noviembre tienda_anulada) 7 Ea) as [A7 _].
  destruct (emision_rechazada (en_noviembre tienda_vendida) 1 esquema_tienda_vendida)
    as [_ B].
  destruct A1 as (e1 & s1 & H1 & _ & K1); [intros v [<- | []] _; reflexivity |].
  destruct A7 as (e7 & s7 & H7 & _ & K7); [intros v [<- | []]; discriminate |].
  destruct (B (mkVenta 1 10 83000 COMPLETADA)
              (mkFactura 1 1 "2024110001" 83000 EMITIDA)
              (or_introl eq_refl) eq_refl eq_refl (or_introl eq_refl) eq_refl)
    as (e & s' & H & _ & K).
  destruct (K1 eq_refl) as [-> ->]. destruct (K7 eq_refl) as [-> ->].
  destruct (K eq_refl) as [-> ->]. repeat split; assumption.
Defined.

(** ** One invoice for a sale *)

(** The insertion an issuance that returns an invoice has made. *)
Lemma generarFactura_insercion idVenta s fc s' :
  generarFactura idVenta s = (Exito fc, s') ->
  exists v,
    insertar_factura idVenta (numero_siguiente (hoy s) (almacen s))
      (total_venta v) (almacen s)
    = Exito (auto_factura (almacen s), almacen s').
Proof.
  unfold generarFactura. intros H.
  apply bind_exito in H as (idFactura & s1 & H1 & H2).
  apply conTransaccion_exito in H1 as (c1 & H1 & A1 & _).
  apply cuerpo_generarFactura_exito in H1
    as (v & previa & resto & _ & _ & Eid & Eins & _). simpl in *.
  apply obtenerFacturaPorId_exito in H2 as [[A2 _] _].
  exists v. rewrite A2, A1, <- Eid. exact Eins.
Qed.

Lemma existsb_filter_vacio {A} (f : A -> bool) l :
  existsb f l = false -> filter f l = [].
Proof.
  intros H. apply filter_vacio. intros x Hx.
  destruct (f x) eqn:E; [| reflexivity].
  assert (X : existsb f l = true) by (apply existsb_exists; now exists x).
  congruence.
Qed.

(** X4.  A sale has one invoice at most.  Once an invoice has been issued
    for a sale, that invoice is the only row of [Facturas] for the sale, and
    issuing again for the same sale fails without changing any table; on a
    store that rejects no statement the error is [FacturaYaGenerada], 'Esta
    venta ya tiene una factura generada'. *)
Theorem una_factura_por_venta
  (s : Sistema) (idVenta : Z) (fc : FacturaCompleta) (s1 : Sistema) :
  esquema (almacen s) ->
  generarFactura idVenta s = (Exito fc, s1) ->
  filter (fun f => f_id_venta f =? idVenta) (Facturas (almacen s1))
  = [facturaData fc]
  /\ f_estado (facturaData fc) = EMITIDA
  /\ exists e s2,
       generarFactura idVenta s1 = (Fallo e, s2)
       /\ almacen s2 = almacen s1
       /\ (averia s1 = None -> e = FacturaYaGenerada /\ s2 = s1).
Proof.
  intros E H.
  destruct (generarFactura_insercion _ _ _ _ H) as (v0 & Hins).
  destruct (generarFactura_exito _ _ _ _ E H)
    as (v & Hv & Ev & Ec & Ea & _ & Ef & _).
  assert (E1 : esquema (almacen s1)).
  { apply (esquema_poner_factura _ _ _ _ _ _ E) in Hins; [exact Hins |].
    apply in_map_iff. now exists v. }
  apply insertar_factura_exito in Hins as (Hlibre & _).
  assert (Hf : In (facturaData fc) (Facturas (almacen s1))).
  { rewrite Ea, Ef. unfold poner_factura. cbn [Facturas].
    apply in_or_app. right. now left. }
  split; [| split].
  - rewrite Ea, Ef. unfold poner_factura. cbn [Facturas].
    rewrite filter_app, (existsb_filter_vacio _ _ Hlibre). simpl.
    now rewrite Z.eqb_refl.
  - rewrite Ef. reflexivity.
  - subst idVenta. apply (generarFactura_con_factura s1 v (facturaData fc) E1).
    + rewrite Ea. exact Hv.
    + exact Ec.
    + exact Hf.
    + rewrite Ef. reflexivity.
Qed.

(** The invoice of the sale of [tienda] is issued once: the second
    issuance is refused. *)
Lemma una_factura_por_venta_en_tienda :
  Facturas (almacen tras_factura) = [facturaData factura_ejemplo]
  /\ generarFactura 1 tras_factura = (Fallo FacturaYaGenerada, tras_factura).
Proof.
  assert (G : generarFactura 1 tras_venta = (Exito factura_ejemplo, tras_factura))
    by (vm_compute; reflexivity).
  destruct (una_factura_por_venta tras_venta 1 factura_ejemplo tras_factura
              esquema_tras_venta G) as (F & _ & e & s2 & R & _ & K).
  split.
  - rewrite <- F. vm_compute. reflexivity.
  - destruct (K eq_refl) as [-> ->]. exact R.
Defined.

(** ** Paying an invoice *)

Lemma con_Facturas_mismas d : con_Facturas d (Facturas d) = d.
Proof. now destruct d. Qed.

Lemma map_sin_cambio {A} (cuales : A -> bool) (g : A -> A) l :
  (forall x, In x l -> cuales x = false) ->
  map (fun x => if cuales x then g x else x) l = l.
Proof.
  induction l as [| x l IH]; intros H; simpl; [reflexivity |].
  rewrite (H x (or_introl eq_refl)). f_equal. apply IH.
  intros y Hy. apply H. now right.
Qed.

(** The [UPDATE] of [marcarComoPagada] where no invoice with the identifier
    is EMITIDA: no row is affected. *)
Lemma pagar_sin_emitida idFactura d :
  (forall f, In f (Facturas d) -> id_factura f = idFactura -> f_estado f <> EMITIDA) ->
  pagar_factura idFactura d = Exito (0%nat, d).
Proof.
  intros H. unfold pagar_factura.
  assert (X : forall f, In f (Facturas d) ->
                (id_factura f =? idFactura) && estado_factura_eqb (f_estado f) EMITIDA
                = false).
  { intros f Hf. destruct (id_factura f =? idFactura) eqn:E; [| reflexivity].
    apply Z.eqb_eq in E. specialize (H f Hf E).
    destruct (f_estado f); [now destruct H | reflexivity | reflexivity]. }
  rewrite (filter_vacio _ _ X), (map_sin_cambio _ _ _ X), con_Facturas_mismas.
  reflexivity.
Qed.

(** The same [UPDATE] where the invoice is EMITIDA: one row is affected. *)
Lemma pagar_con_emitida idFactura d f :
  NoDup (map id_factura (Facturas d)) ->
  In f (Facturas d) -> id_factura f = idFactura -> f_estado f = EMITIDA ->
  pagar_factura idFactura d =
  Exito (1%nat,
         con_Facturas d
           (map (fun g => if id_factura g =? idFactura
                          then con_estado_factura g PAGADA else g)
                (Facturas d))).
Proof.
  intros N Hf Ei Ee. unfold pagar_factura.
  assert (X : forall g, In g (Facturas d) ->
                (id_factura g =? idFactura) && estado_factura_eqb (f_estado g) EMITIDA
                = (id_factura g =? idFactura)).
  { intros g Hg. destruct (id_factura g =? idFactura) eqn:E; [| reflexivity].
    apply Z.eqb_eq in E.
    assert (g = f) by (apply (clave_inyectiva id_factura (Facturas d)); congruence).
    subst g. now rewrite Ee. }
  rewrite (filter_ext_in _ _ _ X).
  destruct (filter_clave_unica id_factura idFactura (Facturas d) N)
    as [F | (g & _ & _ & F)].
  - assert (Y : In f (filter (fun x => id_factura x =? idFactura) (Facturas d))).
    { apply filter_In. split; [exact Hf | now apply Z.eqb_eq]. }
    rewrite F in Y. destruct Y.
  - rewrite F. simpl. do 3 f_equal. apply map_ext_in.
    intros a Ha. now rewrite (X a Ha).
Qed.

(** The rows of a table where the row [f] has been replaced by [f']. *)
Lemma In_map_reemplazo {A} (clave : A -> Z) (k : Z) (g : A -> A) l f x :
  NoDup (map clave l) -> In f l -> clave f = k ->
  (In x (map (fun y => if clave y =? k then g y else y) l)
   <-> x = g f \/ (In x l /\ clave x <> k)).
Proof.
  intros N Hf Ek. rewrite in_map_iff. split.
  - intros (y & E & Hy). destruct (clave y =? k) eqn:Ey.
    + apply Z.eqb_eq in Ey. left.
      assert (y = f) by (apply (clave_inyectiva clave l); congruence).
      now subst.
    + right. subst x. split; [exact Hy | now apply Z.eqb_neq].
  - intros [-> | [Hx Nx]].
    + exists f. split; [| exact Hf].
      replace (clave f =? k) with true by (symmetry; now apply Z.eqb_eq).
      reflexivity.
    + exists x. split; [| exact Hx]. apply Z.eqb_neq in Nx. now rewrite Nx.
Qed.

(** X5.  Paying touches one invoice and only its state.  Whatever its
    outcome, [marcarComoPagada] leaves carts, products, sales and sale lines
    as they were.  When it returns an invoice, that invoice was on file as
    EMITIDA, it is returned and stored as PAGADA with its sale, number and
    amount unchanged, and every other invoice is untouched.  When no invoice
    with the identifier is EMITIDA (none on file, or one that is PAGADA or
    ANULADA), it fails with 'Factura no encontrada o ya está pagada' and no
    table changes. *)
Theorem pago_solo_de_emitida
  (s : Sistema) (idFactura : Z) (r : Resultado FacturaCompleta) (s' : Sistema) :
  esquema (almacen s) ->
  marcarComoPagada idFactura s = (r, s') ->
  (Carritos (almacen s') = Carritos (almacen s)
   /\ Productos_Carrito (almacen s') = Productos_Carrito (almacen s)
   /\ Productos (almacen s') = Productos (almacen s)
   /\ Ventas (almacen s') = Ventas (almacen s)
   /\ Detalles_Venta (almacen s') = Detalles_Venta (almacen s))
  /\ (forall fc, r = Exito fc ->
        exists f,
          In f (Facturas (almacen s)) /\ id_factura f = idFactura
          /\ f_estado f = EMITIDA
          /\ facturaData fc = con_estado_factura f PAGADA
          /\ forall g, In g (Facturas (almacen s'))
                       <-> g = con_estado_factura f PAGADA
                           \/ (In g (Facturas (almacen s))
                               /\ id_factura g <> idFactura))
  /\ ((forall f, In f (Facturas (almacen s)) -> id_factura f = idFactura ->
                 f_estado f <> EMITIDA) ->
      almacen s' = almacen s
      /\ exists e, r = Fallo e
                   /\ (averia s = None -> e = FacturaNoPagable /\ s' = s)).
Proof.
  intros E H. unfold marcarComoPagada, bind, db_execute in H.
  destruct (pulso s) as [[[] | e] s1] eqn:P.
  - pose proof (pulso_exterior _ _ _ P) as [A1 F1].
    destruct (filter (fun f => (id_factura f =? idFactura)
                               && estado_factura_eqb (f_estado f) EMITIDA)
                     (Facturas (almacen s))) as [| f fs] eqn:F.
    + assert (N : forall f, In f (Facturas (almacen s1)) ->
                    id_factura f = idFactura -> f_estado f <> EMITIDA).
      { rewrite A1. intros f Hf Ei Ee.
        assert (X : In f (filter (fun f => (id_factura f =? idFactura)
                                           && estado_factura_eqb (f_estado f) EMITIDA)
                                 (Facturas (almacen s)))).
        { apply filter_In. split; [exact Hf |]. rewrite Ee.
          apply andb_true_iff. split; [now apply Z.eqb_eq | reflexivity]. }
        rewrite F in X. destruct X. }
      rewrite (pagar_sin_emitida _ _ N) in H. inversion H; subst r s'. simpl.
      rewrite A1. split; [repeat split |]. split; [intros fc X; discriminate X |].
      intros _. split; [reflexivity |]. exists FacturaNoPagable.
      split; [reflexivity |]. intros Hs. split; [reflexivity |].
      rewrite (pulso_sano _ Hs) in P. inversion P; subst s1. now destruct s.
    + assert (X : In f (filter (fun f => (id_factura f =? idFactura)
                                         && estado_factura_eqb (f_estado f) EMITIDA)
                               (Facturas (almacen s))))
        by (rewrite F; now left).
      apply filter_In in X as [Hf X]. apply andb_true_iff in X as [Ei Ee].
      apply Z.eqb_eq in Ei.
      assert (Ee' : f_estado f = EMITIDA) by (destruct (f_estado f); now try discriminate).
      clear Ee F fs.
      pose proof (pk_facturas _ E) as N. rewrite <- A1 in N, Hf.
      rewrite (pagar_con_emitida _ _ f N Hf Ei Ee') in H.
      pose proof (obtenerFacturaPorId_solo_lee _ _ _ _ H) as [A2 _]. simpl in A2.
      rewrite A1 in *. rewrite A2. split; [repeat split |]. split.
      * intros fc ->. exists f. repeat (split; [assumption |]).
        apply obtenerFacturaPorId_exito in H as [_ [resto Hr]]. simpl in Hr.
        assert (Hin : In (facturaData fc, fc_venta fc)
                         (sel_factura_con_venta idFactura
                            (con_Facturas (almacen s)
                               (map (fun g => if id_factura g =? idFactura
                                              then con_estado_factura g PAGADA else g)
                                    (Facturas (almacen s))))))
          by (rewrite Hr; now left).
        apply sel_factura_con_venta_In in Hin as (Hfc & _ & Efc & _).
        cbn [con_Facturas Facturas] in Hfc |- *.
        split.
        -- apply (In_map_reemplazo id_factura idFactura
                    (fun g => con_estado_factura g PAGADA) _ f _ N Hf Ei) in Hfc
             as [X | [_ X]]; [exact X | now destruct X].
        -- intros g. apply (In_map_reemplazo id_factura idFactura
                              (fun g => con_estado_factura g PAGADA) _ f _ N Hf Ei).
      * intros Hno. destruct (Hno f Hf Ei Ee').
  - inversion H; subst r s'. pose proof (pulso_exterior _ _ _ P) as [A1 _].
    rewrite A1. split; [repeat split |]. split; [intros fc X; discriminate X |].
    intros _. split; [reflexivity |]. exists e. split; [reflexivity |].
    intros Hs. rewrite (pulso_sano _ Hs) in P. discriminate P.
Qed.

(** In [tienda_vendida] invoice 1 is EMITIDA and is paid; in
    [tienda_anulada] it is ANULADA and cannot be paid. *)
Lemma pago_solo_de_emitida_en_tiendas :
  facturaData (valor factura_vacia
                 (fst (marcarComoPagada 1 (en_noviembre tienda_vendida))))
  = mkFactura 1 1 "2024110001" 83000 PAGADA
  /\ marcarComoPagada 1 (en_noviembre tienda_anulada)
     = (Fallo FacturaNoPagable, en_noviembre tienda_anulada).
Proof.
  split.
  - assert (H : marcarComoPagada 1 (en_noviembre tienda_vendida)
                = (Exito (valor factura_vacia
                            (fst (marcarComoPagada 1 (en_noviembre tienda_vendida)))),
                   snd (marcarComoPagada 1 (en_noviembre tienda_vendida))))
      by (vm_compute; reflexivity).
    destruct (pago_solo_de_emitida (en_noviembre tienda_vendida) _ _ _
                esquema_tienda_vendida H) as (_ & B & _).
    destruct (B _ eq_refl) as (f & Hf & _ & _ & Ed & _).
    rewrite Ed. destruct Hf as [<- | []]. reflexivity.
  - assert (Ea : esquema tienda_anulada) by apply esquema_de_los_ejemplos.
    destruct (pago_solo_de_emitida (en_noviembre tienda_anulada) 1
                (fst (marcarComoPagada 1 (en_noviembre tienda_anulada)))
                (snd (marcarComoPagada 1 (en_noviembre tienda_anulada)))
                Ea (surjective_pairing _)) as (_ & _ & C).
    destruct C as (_ & e & Er & K).
    + intros f [<- | []] _. discriminate.
    + destruct (K eq_refl) as [-> Es].
      rewrite (surjective_pairing (marcarComoPagada 1 (en_noviembre tienda_anulada))).
      now rewrite Er, Es.
Defined.

(** ** Voiding the invoice of a cancelled sale *)

Lemma efecto_anular_cancelada idFactura v d :
  estado_venta v = CANCELADA ->
  efecto_anular idFactura v d = marcar_factura_anulada idFactura d.
Proof. intros H. unfold efecto_anular. now rewrite H. Qed.

(** X6.  Stock is given back once.  When a sale has been cancelled and its
    invoice is voided afterwards, the voiding marks the invoice ANULADA and
    touches neither the products nor the sales: the stock is the one the
    cancellation left, every product having got back the quantity the sale
    had taken, once. *)
Theorem anular_tras_cancelar
  (s : Sistema) (idVenta idUsuario : Z) (b : bool) (s1 : Sistema)
  (idFactura : Z) (motivo : option string) (fc : FacturaCompleta) (s2 : Sistema) :
  cancelarVenta idVenta idUsuario s = (Exito b, s1) ->
  (forall f, In f (Facturas (almacen s)) -> id_factura f = idFactura ->
             f_id_venta f = idVenta) ->
  anularFactura idFactura motivo s1 = (Exito fc, s2) ->
  Productos (almacen s2) = Productos (almacen s1)
  /\ Ventas (almacen s2) = Ventas (almacen s1)
  /\ existencias (almacen s2) =
     map (fun iq => (fst iq, snd iq + cantidad_vendida (fst iq) idVenta (almacen s)))
         (existencias (almacen s))
  /\ venta_en_estado idVenta CANCELADA (almacen s2)
  /\ factura_en_estado idFactura ANULADA (almacen s2).
Proof.
  intros C Hf A.
  pose proof (cancelarVenta_repone _ _ _ _ _ C) as [X [Y1 Y2]].
  apply cancelarVenta_exito in C as (_ & _ & E1 & _).
  apply anularFactura_repone in A
    as (f & v & If & Ef & Iv & Ev & E2 & Z & _).
  assert (Ec : estado_venta v = CANCELADA).
  { apply Y2; [exact Iv |]. rewrite Ev. apply Hf; [| exact Ef].
    rewrite E1, facturas_efecto_cancelar in If. exact If. }
  rewrite (efecto_anular_cancelada _ _ _ Ec) in E2.
  assert (P : Productos (almacen s2) = Productos (almacen s1))
    by (rewrite E2; reflexivity).
  assert (V : Ventas (almacen s2) = Ventas (almacen s1))
    by (rewrite E2; reflexivity).
  split; [exact P |]. split; [exact V |]. split; [| split; [| exact Z]].
  - unfold existencias in *. now rewrite P.
  - unfold venta_en_estado in *. rewrite V. now split.
Qed.

(** The invoiced sale of [tienda] is cancelled and its invoice voided: the
    stock is back to five tables and four chairs, not more. *)
Lemma anular_tras_cancelar_en_tienda :
  existencias (almacen tras_factura) = [(100, 2); (101, 3)]
  /\ existencias
       (almacen (snd (anularFactura 1 None (snd (cancelarVenta 1 10 tras_factura)))))
     = [(100, 5); (101, 4)].
Proof.
  split; [vm_compute; reflexivity |].
  assert (C : cancelarVenta 1 10 tras_factura
              = (Exito true, snd (cancelarVenta 1 10 tras_factura)))
    by (vm_compute; reflexivity).
  assert (A : anularFactura 1 None (snd (cancelarVenta 1 10 tras_factura))
              = (Exito (valor factura_vacia
                          (fst (anularFactura 1 None
                                  (snd (cancelarVenta 1 10 tras_factura))))),
                 snd (anularFactura 1 None (snd (cancelarVenta 1 10 tras_factura)))))
    by (vm_compute; reflexivity).
  assert (F : forall f, In f (Facturas (almacen tras_factura)) ->
                        id_factura f = 1 -> f_id_venta f = 1).
  { intros f Hf _. vm_compute in Hf. destruct Hf as [<- | []]. reflexivity. }
  destruct (anular_tras_cancelar _ _ _ _ _ 1 None _ _ C F A) as (_ & _ & X & _).
  rewrite X. vm_compute. reflexivity.
Defined.

(** ** What a checkout leaves behind *)

Lemma sel_productos_carrito_sin_filas idCarrito d :
  (forall pc, In pc (Productos_Carrito d) -> pc_id_carrito pc <> idCarrito) ->
  sel_productos_carrito idCarrito d = [].
Proof.
  intros H. apply flat_map_vacio. intros pc Hpc.
  apply H in Hpc. apply Z.eqb_neq in Hpc. now rewrite Hpc.
Qed.

(** X7.  A checkout that returns a sale has emptied the cart it read, and
    only that cart: every line of the cart is gone, those of products that
    were not DISPONIBLE and were not sold included, and the lines of other
    carts are as they were.  The carts and the invoices are untouched, the
    earlier sales and their lines are all still there, followed by the new
    ones.  Checking out again right after is refused with 'El carrito está
    vacío o no contiene productos disponibles' ([CarritoVacio]) and changes
    nothing. *)
Theorem compra_vacia_el_carrito
  (s : Sistema) (idUsuario : Z) (vc : VentaCompleta) (s' : Sistema) :
  procesarVentaDesdeCarrito idUsuario s = (Exito vc, s') ->
  exists c0,
    In c0 (Carritos (almacen s)) /\ c_id_usuario c0 = idUsuario
    /\ Carritos (almacen s') = Carritos (almacen s)
    /\ Facturas (almacen s') = Facturas (almacen s)
    /\ (forall pc, In pc (Productos_Carrito (almacen s'))
                   <-> In pc (Productos_Carrito (almacen s))
                       /\ pc_id_carrito pc <> id_carrito c0)
    /\ (exists v, Ventas (almacen s') = (Ventas (almacen s) ++ [v])%list)
    /\ (exists nuevas,
           Detalles_Venta (almacen s')
           = (Detalles_Venta (almacen s) ++ nuevas)%list)
    /\ exists e s'',
         procesarVentaDesdeCarrito idUsuario s' = (Fallo e, s'')
         /\ almacen s'' = almacen s'
         /\ (averia s' = None -> e = CarritoVacio /\ s'' = s').
Proof.
  intros H.
  apply procesarVenta_exito in H as (c0 & resto & Ec & _ & _ & Ea & _).
  rewrite efecto_venta_eq in Ea.
  assert (Hc0 : In c0 (sel_carrito idUsuario (almacen s))) by (rewrite Ec; now left).
  apply filter_In in Hc0 as [Hc0 Eu]. apply Z.eqb_eq in Eu.
  exists c0. rewrite Ea. cbn [Carritos Facturas Productos_Carrito Ventas Detalles_Venta].
  repeat (split; [assumption || reflexivity |]).
  split; [| split; [eexists; reflexivity | split; [eexists; reflexivity |]]].
  - intros pc. rewrite filter_In. split; intros [Hpc X]; (split; [exact Hpc |]).
    + apply negb_true_iff in X. now apply Z.eqb_neq.
    + apply negb_true_iff. now apply Z.eqb_neq.
  - rewrite <- Ea. apply (compra_carrito_vacio idUsuario s' c0 resto).
    + unfold sel_carrito. rewrite Ea. exact Ec.
    + apply sel_productos_carrito_sin_filas. rewrite Ea.
      cbn [Productos_Carrito]. intros pc Hpc.
      apply filter_In in Hpc as [_ X]. apply negb_true_iff in X.
      now apply Z.eqb_neq.
Qed.

(** In [tienda_mixta] user 10 checks out: the tables are sold, the line of
    the bench, which is DESCONTINUADO, leaves the cart unsold, and the cart
    of user 11 keeps its chairs. *)
Lemma compra_vacia_el_carrito_en_tienda_mixta :
  Productos_Carrito
    (almacen (snd (procesarVentaDesdeCarrito 10 (en_noviembre tienda_mixta))))
  = [mkProductoCarrito 2 101 2]
  /\ fst (procesarVentaDesdeCarrito 10
            (snd (procesarVentaDesdeCarrito 10 (en_noviembre tienda_mixta))))
     = Fallo CarritoVacio.
Proof.
  assert (H : procesarVentaDesdeCarrito 10 (en_noviembre tienda_mixta)
              = (Exito (valor venta_vacia
                          (fst (procesarVentaDesdeCarrito 10
                                  (en_noviembre tienda_mixta)))),
                 snd (procesarVentaDesdeCarrito 10 (en_noviembre tienda_mixta))))
    by (vm_compute; reflexivity).
  destruct (compra_vacia_el_carrito _ _ _ _ H)
    as (c0 & _ & _ & _ & _ & _ & _ & _ & e & s'' & R & _ & K).
  split; [vm_compute; reflexivity |].
  rewrite R. destruct (K eq_refl) as [-> _]. reflexivity.
Defined.

(** ** The sale a checkout returns *)

Lemma obtenerVentaPorId_detalles idVenta s vc s' :
  obtenerVentaPorId idVenta s = (Exito vc, s') ->
  detalles vc = sel_detalles_con_producto idVenta (almacen s).
Proof.
  unfold obtenerVentaPorId. intros H.
  apply bind_exito in H as (venta & s1 & H1 & H).
  apply db_execute_seleccionar in H1 as [[A1 _] _].
  destruct venta as [| v0 resto]; [discriminate H |].
  apply bind_exito in H as (dets & s2 & H2 & H).
  apply db_execute_seleccionar in H2 as [_ H2].
  inversion H. simpl. rewrite (H2 dets eq_refl). now rewrite A1.
Qed.

(** A row that comes after rows of smaller keys is put last. *)
Lemma insertar_al_final {A} (clave : A -> Z) (x : A) (l : list A) :
  (forall y, In y l -> clave y < clave x) ->
  insertar_ordenado clave x l = (l ++ [x])%list.
Proof.
  induction l as [| y l IH]; intros H; simpl; [reflexivity |].
  replace (clave x <? clave y) with false.
  - f_equal. apply IH. intros z Hz. apply H. now right.
  - symmetry. apply Z.ltb_ge. specialize (H y (or_introl eq_refl)). lia.
Qed.

Lemma filas_de_lineas_clave idVenta n lineas r :
  In r (filas_de_lineas idVenta n lineas) -> n <= id_detalle_venta (dp_detalle r).
Proof.
  revert n. induction lineas as [| l lineas IH]; intros n H; [destruct H |].
  destruct H as [<- | H]; [simpl; lia |]. apply IH in H. lia.
Qed.

(** The rows of a new sale come out of [ORDER BY id_detalle_venta] in the
    order of their insertion. *)
Lemma ordenar_filas_de_lineas idVenta lineas :
  forall n acc,
    (forall y, In y acc -> id_detalle_venta (dp_detalle y) < n) ->
    fold_left
      (fun acc x => insertar_ordenado (fun r => id_detalle_venta (dp_detalle r)) x acc)
      (filas_de_lineas idVenta n lineas) acc
    = (acc ++ filas_de_lineas idVenta n lineas)%list.
Proof.
  induction lineas as [| l lineas IH]; intros n acc H; simpl.
  - now rewrite app_nil_r.
  - rewrite insertar_al_final; [| intros y Hy; simpl; now apply H].
    rewrite IH.
    + now rewrite <- app_assoc.
    + intros y Hy. apply in_app_or in Hy as [Hy | [<- | []]].
      * apply H in Hy. lia.
      * simpl. lia.
Qed.

(** The join of a sale line with the products reads the identifier, the
    name and the price of the products only. *)
Lemma unir_por_ficha {B} (h : Z -> string -> Z -> list B) ps ps' :
  map (fun p => (id_producto p, nombre_producto p, precio p)) ps
  = map (fun p => (id_producto p, nombre_producto p, precio p)) ps' ->
  flat_map (fun p => h (id_producto p) (nombre_producto p) (precio p)) ps
  = flat_map (fun p => h (id_producto p) (nombre_producto p) (precio p)) ps'.
Proof.
  revert ps'. induction ps as [| p ps IH]; intros [| p' ps'] H;
    try discriminate H; [reflexivity |].
  simpl in H. inversion H as [[E1 E2 E3 E4]]. simpl.
  rewrite E1, E2, E3. f_equal. now apply IH.
Qed.

Lemma descontar_lineas_fichas lineas ps :
  map (fun p => (id_producto p, nombre_producto p, precio p))
      (descontar_lineas lineas ps)
  = map (fun p => (id_producto p, nombre_producto p, precio p)) ps.
Proof.
  unfold descontar_lineas. revert ps.
  induction lineas as [| l lineas IH]; intros ps; simpl; [reflexivity |].
  rewrite IH, map_map. apply map_ext. intros p.
  now destruct (id_producto p =? l_id_producto l).
Qed.

Lemma filas_de_la_nueva_venta idCarrito d ps' idVenta :
  NoDup (map id_producto (Productos d)) ->
  map (fun p => (id_producto p, nombre_producto p, precio p)) ps'
  = map (fun p => (id_producto p, nombre_producto p, precio p)) (Productos d) ->
  forall lineas n,
    (forall l, In l lineas -> In l (sel_productos_carrito idCarrito d)) ->
    flat_map
      (fun dv =>
         if dv_id_venta dv =? idVenta then
           flat_map
             (fun p => if dv_id_producto dv =? id_producto p
                       then [mkDetalleConProducto dv (nombre_producto p) (precio p)]
                       else [])
             ps'
         else [])
      (detalles_de_lineas idVenta n lineas)
    = filas_de_lineas idVenta n lineas.
Proof.
  intros N Hf. induction lineas as [| l lineas IH]; intros n Hl; [reflexivity |].
  cbn [detalles_de_lineas flat_map filas_de_lineas dv_id_venta dv_id_producto].
  rewrite Z.eqb_refl, IH by (intros x Hx; apply Hl; now right).
  pose proof (unir_por_ficha
                (fun i nombre pr =>
                   if l_id_producto l =? i
                   then [mkDetalleConProducto
                           (mkDetalleVenta n idVenta (l_id_producto l) (l_cantidad l)
                              (l_precio l) (l_subtotal l)) nombre pr]
                   else [])
                ps' (Productos d) Hf) as X.
  cbv beta in X. rewrite X. clear X.
  destruct (linea_origen _ _ _ (Hl l (or_introl eq_refl)))
    as (pc & p & _ & Hp & _ & _ & _ & ->).
  cbn [l_id_producto l_cantidad l_precio l_subtotal l_nombre_producto].
  rewrite (flat_map_clave_unica id_producto _ (Productos d) p N Hp).
  - now rewrite Z.eqb_refl.
  - intros y _ Hy.
    replace (id_producto p =? id_producto y) with false; [reflexivity |].
    symmetry. apply Z.eqb_neq. congruence.
Qed.

Lemma sel_detalles_con_producto_nueva_venta idUsuario idCarrito d :
  esquema d ->
  sel_detalles_con_producto (auto_venta d)
    (efecto_venta idUsuario idCarrito (sel_productos_carrito idCarrito d) d)
  = filas_de_lineas (auto_venta d) (auto_detalle d)
      (sel_productos_carrito idCarrito d).
Proof.
  intros E. unfold sel_detalles_con_producto, ordenar_por.
  rewrite efecto_venta_eq. cbn [Detalles_Venta Productos].
  rewrite flat_map_app, (flat_map_vacio _ (Detalles_Venta d)).
  - cbn [app].
    rewrite (filas_de_la_nueva_venta idCarrito d _ _ (pk_productos _ E)
               (descontar_lineas_fichas _ _) _ _ (fun l H => H)).
    now rewrite (ordenar_filas_de_lineas _ _ _ []) by (intros y []).
  - intros dv Hdv.
    replace (dv_id_venta dv =? auto_venta d) with false; [reflexivity |].
    symmetry. apply Z.eqb_neq. intros Eq.
    apply (fk_detalles_venta d E) in Hdv.
    apply in_map_iff in Hdv as (v & Ev & Hv).
    apply (auto_venta_libre d E) in Hv. lia.
Qed.

(** X8.  What a checkout returns is what it has written.  The sale returned
    is the row just inserted: the next identifier of [Ventas], the user, the
    sum of the subtotals of the cart lines as total, COMPLETADA.  Its
    [detalles] are one row for each cart line of a DISPONIBLE product, in
    the order of the cart query, each with the quantity of the cart, the
    price of the product at the time of the checkout as unit price, their
    product as subtotal, and the name of the product. *)
Theorem venta_devuelta
  (s : Sistema) (idUsuario : Z) (vc : VentaCompleta) (s' : Sistema) :
  esquema (almacen s) ->
  procesarVentaDesdeCarrito idUsuario s = (Exito vc, s') ->
  exists c0 resto,
    sel_carrito idUsuario (almacen s) = c0 :: resto
    /\ ventaData vc =
       mkVenta (auto_venta (almacen s)) idUsuario
         (suma (map l_subtotal (sel_productos_carrito (id_carrito c0) (almacen s))))
         COMPLETADA
    /\ detalles vc =
       filas_de_lineas (auto_venta (almacen s)) (auto_detalle (almacen s))
         (sel_productos_carrito (id_carrito c0) (almacen s))
    /\ forall l, In l (sel_productos_carrito (id_carrito c0) (almacen s)) ->
                 l_subtotal l = l_cantidad l * l_precio l
                 /\ exists p, In p (Productos (almacen s))
                              /\ id_producto p = l_id_producto l
                              /\ estado p = DISPONIBLE
                              /\ precio p = l_precio l
                              /\ nombre_producto p = l_nombre_producto l.
Proof.
  intros E. unfold procesarVentaDesdeCarrito. intros H.
  apply bind_exito in H as (idVenta & s1 & H1 & H2).
  apply conTransaccion_exito in H1 as (c1 & H1 & A1 & _).
  apply cuerpo_procesarVenta_exito in H1
    as (c0 & resto & Ecar & _ & _ & Eid & Etr). simpl in *.
  exists c0, resto. split; [exact Ecar |].
  pose proof (obtenerVentaPorId_detalles _ _ _ _ H2) as D.
  apply obtenerVentaPorId_exito in H2 as [_ [r Hv]].
  rewrite A1, Etr in D, Hv. subst idVenta. split; [| split].
  - rewrite efecto_venta_eq in Hv. cbn [Ventas] in Hv.
    rewrite filter_app, (filter_vacio _ (Ventas (almacen s))) in Hv.
    + simpl in Hv. rewrite Z.eqb_refl in Hv. inversion Hv as [[Ev Er]].
      now rewrite totalVenta_suma.
    + intros v Hv'. apply Z.eqb_neq.
      apply (auto_venta_libre _ E) in Hv'. lia.
  - rewrite D. now apply sel_detalles_con_producto_nueva_venta.
  - intros l Hl. apply linea_origen in Hl
      as (pc & p & _ & Hp & _ & _ & Ed & ->). simpl.
    split; [reflexivity |]. exists p. auto.
Qed.

(** The sale user 10 gets back in [tienda]: three tables and a chair. *)
Lemma venta_devuelta_en_tienda :
  ventaData venta_ejemplo = mkVenta 1 10 83000 COMPLETADA
  /\ detalles venta_ejemplo =
     [mkDetalleConProducto (mkDetalleVenta 1 1 100 3 25000 75000) "mesa" 25000;
      mkDetalleConProducto (mkDetalleVenta 2 1 101 1 8000 8000) "silla" 8000].
Proof.
  assert (H : procesarVentaDesdeCarrito 10 (en_noviembre tienda)
              = (Exito venta_ejemplo, tras_venta))
    by (vm_compute; reflexivity).
  destruct (venta_devuelta (en_noviembre tienda) 10 venta_ejemplo tras_venta
              esquema_tienda H) as (c0 & resto & Ec & V & D & _).
  inversion Ec; subst c0 resto. split.
  - rewrite V. vm_compute. reflexivity.
  - rewrite D. vm_compute. reflexivity.
Defined.

(** ** The product rows, one by one *)

(** A loop of [UPDATE Productos ... WHERE id_producto = ?] seen from one
    row. *)
Lemma actualizaciones_por_fila {L} (clave : L -> Z) (g : L -> Producto -> Producto)
  (ls : list L) (ps : list Producto) :
  fold_left
    (fun acc l => map (fun p => if id_producto p =? clave l then g l p else p) acc)
    ls ps
  = map (fun p =>
           fold_left (fun q l => if id_producto q =? clave l then g l q else q) ls p)
        ps.
Proof.
  revert ps. induction ls as [| l ls IH]; intros ps; simpl.
  - now rewrite map_id.
  - now rewrite IH, map_map.
Qed.

Lemma fila_sin_actualizar {L} (clave : L -> Z) (g : L -> Producto -> Producto)
  (ls : list L) (p : Producto) :
  (forall l, In l ls -> clave l <> id_producto p) ->
  fold_left (fun q l => if id_producto q =? clave l then g l q else q) ls p = p.
Proof.
  induction ls as [| l ls IH]; intros H; simpl; [reflexivity |].
  replace (id_producto p =? clave l) with false.
  - apply IH. intros x Hx. apply H. now right.
  - symmetry. apply Z.eqb_neq. intros E.
    now apply (H l (or_introl eq_refl)).
Qed.

Lemma fila_actualizada_una_vez {L} (clave : L -> Z) (g : L -> Producto -> Producto)
  (ls : list L) (l : L) (p : Producto) :
  (forall x q, id_producto (g x q) = id_producto q) ->
  NoDup (map clave ls) -> In l ls -> clave l = id_producto p ->
  fold_left (fun q l => if id_producto q =? clave l then g l q else q) ls p = g l p.
Proof.
  intros Hg. induction ls as [| y ls IH]; intros N Hl E; [destruct Hl |].
  inversion N as [| ? ? Hy Nl]; subst. simpl. destruct Hl as [-> | Hl].
  - rewrite E, Z.eqb_refl. apply fila_sin_actualizar.
    intros x Hx Ex. apply Hy. rewrite Hg in Ex. rewrite E, <- Ex.
    now apply in_map.
  - replace (id_producto p =? clave y) with false; [now apply IH |].
    symmetry. apply Z.eqb_neq. intros Ey. apply Hy.
    rewrite <- Ey, <- E. now apply in_map.
Qed.

Lemma detalles_de_lineas_productos idVenta n lineas :
  map dv_id_producto (detalles_de_lineas idVenta n lineas)
  = map l_id_producto lineas.
Proof.
  revert n. induction lineas as [| l lineas IH]; intros n; simpl;
    [reflexivity | now rewrite IH].
Qed.

Lemma detalle_de_la_linea idVenta lineas l :
  In l lineas ->
  forall n, exists dv,
    In dv (detalles_de_lineas idVenta n lineas)
    /\ dv_id_producto dv = l_id_producto l /\ dv_cantidad dv = l_cantidad l.
Proof.
  induction lineas as [| x lineas IH]; intros H n; [destruct H |].
  destruct H as [-> | H].
  - eexists. split; [now left | split; reflexivity].
  - destruct (IH H (n + 1)) as (dv & Hdv & E). exists dv.
    split; [now right | exact E].
Qed.

(** Taking a quantity from a product that is DISPONIBLE and has it, and
    giving it back, leaves the row as it was. *)
Lemma reponer_descontar c p :
  estado p = DISPONIBLE -> 0 < c <= stock p -> reponer c (descontar c p) = p.
Proof.
  intros Ee Hc. destruct p as [i n pr st e]. simpl in *. subst e.
  unfold reponer, descontar. simpl.
  replace (st - c + c) with st by lia.
  destruct (st - c - c <=? 0); simpl; [| reflexivity].
  replace (st + c >? 0) with true; [reflexivity |].
  symmetry. apply Z.gtb_lt. lia.
Qed.

(** The product rows after the lines of a cart have been sold and given
    back. *)
Lemma productos_ida_y_vuelta idVenta n lineas ps :
  NoDup (map id_producto ps) ->
  NoDup (map l_id_producto lineas) ->
  (forall l p, In l lineas -> In p ps -> l_id_producto l = id_producto p ->
               estado p = DISPONIBLE /\ 0 < l_cantidad l <= stock p) ->
  reponer_productos (detalles_de_lineas idVenta n lineas)
    (descontar_lineas lineas ps) = ps.
Proof.
  intros Np Nl H. unfold reponer_productos, descontar_lineas.
  rewrite (actualizaciones_por_fila l_id_producto (fun l => descontar (l_cantidad l))),
    (actualizaciones_por_fila dv_id_producto (fun dv => reponer (dv_cantidad dv))),
    map_map.
  rewrite <- (map_id ps) at 2. apply map_ext_in. intros p Hp.
  destruct (filter_clave_unica l_id_producto (id_producto p) lineas Nl)
    as [F | (l & Hl & El & _)].
  - assert (X : forall l, In l lineas -> l_id_producto l <> id_producto p).
    { intros l Hl E.
      assert (Y : In l (filter (fun x => l_id_producto x =? id_producto p) lineas))
        by (apply filter_In; split; [exact Hl | now apply Z.eqb_eq]).
      rewrite F in Y. destruct Y. }
    rewrite (fila_sin_actualizar _ _ lineas p X).
    apply fila_sin_actualizar. intros dv Hdv E.
    apply detalles_de_lineas_In in Hdv as (l & Hl & El & _).
    apply (X l Hl). congruence.
  - destruct (H l p Hl Hp El) as [Ee Hc].
    rewrite (fila_actualizada_una_vez l_id_producto _ lineas l p); try assumption;
      [| reflexivity].
    destruct (detalle_de_la_linea idVenta lineas l Hl n) as (dv & Hdv & Ei & Ec).
    rewrite (fila_actualizada_una_vez dv_id_producto _ _ dv); try assumption.
    + rewrite Ec. now apply reponer_descontar.
    + reflexivity.
    + now rewrite detalles_de_lineas_productos.
    + simpl. congruence.
Qed.

Lemma filter_vacio_In {A} (f : A -> bool) l x :
  filter f l = [] -> In x l -> f x = false.
Proof.
  intros F Hx. destruct (f x) eqn:E; [| reflexivity].
  assert (Y : In x (filter f l)) by (apply filter_In; now split).
  rewrite F in Y. destruct Y.
Qed.

(** The lines a checkout has validated, against the product rows. *)
Lemma lineas_validadas idUsuario d c0 resto :
  esquema d ->
  (forall c pc, In c (Carritos d) -> c_id_usuario c = idUsuario ->
                In pc (Productos_Carrito d) -> pc_id_carrito pc = id_carrito c ->
                0 < pc_cantidad pc) ->
  sel_carrito idUsuario d = c0 :: resto ->
  faltantes (sel_productos_carrito (id_carrito c0) d) = [] ->
  forall l p,
    In l (sel_productos_carrito (id_carrito c0) d) -> In p (Productos d) ->
    l_id_producto l = id_producto p ->
    estado p = DISPONIBLE /\ 0 < l_cantidad l <= stock p.
Proof.
  intros E Hpos Ec Hfal l p Hl Hp El.
  assert (Hc0 : In c0 (sel_carrito idUsuario d)) by (rewrite Ec; now left).
  apply filter_In in Hc0 as [Hc0 Eu]. apply Z.eqb_eq in Eu.
  pose proof (filter_vacio_In _ _ _ Hfal Hl) as Hcabe. simpl in Hcabe.
  apply linea_origen in Hl as (pc & p' & Hpc & Hp' & Ecar & Epc & Ed & ->).
  simpl in *.
  assert (p' = p)
    by (apply (clave_inyectiva id_producto (Productos d));
        [exact (pk_productos _ E) | assumption | assumption | exact El]).
  subst p'. split; [exact Ed |].
  split; [exact (Hpos c0 pc Hc0 Eu Hpc Ecar) |].
  destruct (Z.gtb_spec (pc_cantidad pc) (stock p)); [discriminate Hcabe | lia].
Qed.

(** X9.  A compensation gives the product rows back whole.  When every
    line of the buyer's cart asks for a positive quantity, cancelling the
    sale a checkout has made, or voiding the invoice issued for it, leaves
    the table of products exactly as it was before the checkout: not only
    the stock, also the state of the products the checkout had marked
    AGOTADO. *)
Theorem compensacion_restituye_los_productos
  (s : Sistema) (idUsuario : Z) (vc : VentaCompleta) (s1 : Sistema)
  (b : bool) (s2 : Sistema)
  (fc : FacturaCompleta) (t1 : Sistema) (motivo : option string)
  (fc' : FacturaCompleta) (t2 : Sistema) :
  esquema (almacen s) ->
  (forall c pc,
     In c (Carritos (almacen s)) -> c_id_usuario c = idUsuario ->
     In pc (Productos_Carrito (almacen s)) -> pc_id_carrito pc = id_carrito c ->
     0 < pc_cantidad pc) ->
  procesarVentaDesdeCarrito idUsuario s = (Exito vc, s1) ->
  (cancelarVenta (id_venta (ventaData vc)) idUsuario s1 = (Exito b, s2) ->
   Productos (almacen s2) = Productos (almacen s))
  /\
  (generarFactura (id_venta (ventaData vc)) s1 = (Exito fc, t1) ->
   anularFactura (id_factura (facturaData fc)) motivo t1 = (Exito fc', t2) ->
   Productos (almacen t2) = Productos (almacen s)).
Proof.
  intros E Hpos Hv.
  apply procesarVenta_exito in Hv
    as (c0 & resto & Ecar & _ & Hfal & E1 & _ & Eid & _).
  set (lineas := sel_productos_carrito (id_carrito c0) (almacen s)) in *.
  assert (D1 : sel_detalles (id_venta (ventaData vc)) (almacen s1)
               = detalles_de_lineas (auto_venta (almacen s))
                   (auto_detalle (almacen s)) lineas)
    by (rewrite Eid, E1; now apply sel_detalles_nueva_venta).
  assert (P1 : Productos (almacen s1) = descontar_lineas lineas (Productos (almacen s)))
    by (rewrite E1, efecto_venta_eq; reflexivity).
  assert (R : reponer_productos
                (sel_detalles (id_venta (ventaData vc)) (almacen s1))
                (Productos (almacen s1))
              = Productos (almacen s)).
  { rewrite D1, P1. apply productos_ida_y_vuelta.
    - exact (pk_productos _ E).
    - apply lineas_sin_repetir; [exact (pk_productos _ E) |].
      exact (pk_productos_carrito _ E).
    - exact (lineas_validadas idUsuario _ c0 resto E Hpos Ecar Hfal). }
  split.
  - intros Hc. apply cancelarVenta_exito in Hc as (_ & _ & E2 & _).
    rewrite E2. unfold efecto_cancelar. rewrite reponer_lineas_eq. exact R.
  - intros Hg Ha.
    assert (E1s : esquema (almacen s1))
      by (rewrite E1; now apply esquema_efecto_venta).
    apply (generarFactura_exito _ _ _ _ E1s) in Hg
      as (v & Hv & Ev & Ec & Et1 & _ & Efc & _ & _).
    apply anularFactura_repone in Ha
      as (f & w & Hf & Ef & Hw & Ew & Et2 & _ & _).
    assert (f = facturaData fc).
    { rewrite Et1 in Hf. unfold poner_factura in Hf. cbn [Facturas] in Hf.
      apply in_app_or in Hf as [Hf | [Hf | []]].
      - apply (auto_factura_libre _ E1s) in Hf. rewrite Ef, Efc in Hf.
        simpl in Hf. lia.
      - now rewrite Efc. }
    subst f.
    assert (Hw1 : In w (Ventas (almacen s1)))
      by (rewrite Et1 in Hw; exact Hw).
    assert (w = v).
    { apply (clave_inyectiva id_venta (Ventas (almacen s1)));
        [exact (pk_ventas _ E1s) | assumption | assumption |].
      rewrite Ew, Efc. simpl. now rewrite Ev. }
    subst w. rewrite Et2. unfold efecto_anular. rewrite Ec, reponer_lineas_eq.
    rewrite Ev, Et1. exact R.
Qed.

(** The sale of [tienda] had marked the tables AGOTADO; cancelled, or its
    invoice voided, the tables are DISPONIBLE again, five of them. *)
Lemma compensacion_restituye_los_productos_en_tienda :
  Productos (almacen tras_venta)
  = [mkProducto 100 "mesa" 25000 2 AGOTADO;
     mkProducto 101 "silla" 8000 3 DISPONIBLE]
  /\ Productos (almacen (snd (cancelarVenta 1 10 tras_venta))) = Productos tienda
  /\ Productos (almacen (snd (anularFactura 1 None tras_factura))) = Productos tienda.
Proof.
  assert (H : procesarVentaDesdeCarrito 10 (en_noviembre tienda)
              = (Exito venta_ejemplo, tras_venta))
    by (vm_compute; reflexivity).
  assert (C : cancelarVenta (id_venta (ventaData venta_ejemplo)) 10 tras_venta
              = (Exito true, snd (cancelarVenta 1 10 tras_venta)))
    by (vm_compute; reflexivity).
  assert (G : generarFactura (id_venta (ventaData venta_ejemplo)) tras_venta
              = (Exito factura_ejemplo, tras_factura))
    by (vm_compute; reflexivity).
  assert (A : anularFactura (id_factura (facturaData factura_ejemplo)) None
                tras_factura
              = (Exito (valor factura_vacia
                          (fst (anularFactura 1 None tras_factura))),
                 snd (anularFactura 1 None tras_factura)))
    by (vm_compute; reflexivity).
  assert (P : forall c pc,
             In c (Carritos tienda) -> c_id_usuario c = 10 ->
             In pc (Productos_Carrito tienda) -> pc_id_carrito pc = id_carrito c ->
             0 < pc_cantidad pc).
  { intros c pc _ _ [<- | [<- | []]] _; simpl; lia. }
  destruct (compensacion_restituye_los_productos (en_noviembre tienda) 10
              venta_ejemplo tras_venta true (snd (cancelarVenta 1 10 tras_venta))
              factura_ejemplo tras_factura None
              (valor factura_vacia (fst (anularFactura 1 None tras_factura)))
              (snd (anularFactura 1 None tras_factura))
              esquema_tienda P H) as [X Y].
  split; [vm_compute; reflexivity |].
  split; [exact (X C) | exact (Y G A)].
Defined.

(** ** Availability after a checkout *)

(** X10.  What a checkout does to the products.  A product the sale has a
    line for and whose stock the checkout has brought to zero is AGOTADO
    afterwards.  A product that was not DISPONIBLE, being AGOTADO or
    DESCONTINUADO, is never sold: its row is untouched.  No product changes
    its identifier, its name or its price, and none appears or
    disappears. *)
Theorem disponibilidad_tras_la_compra
  (s : Sistema) (idUsuario : Z) (vc : VentaCompleta) (s' : Sistema) :
  esquema (almacen s) ->
  stock_no_negativo (almacen s) ->
  procesarVentaDesdeCarrito idUsuario s = (Exito vc, s') ->
  (forall p' dv,
     In p' (Productos (almacen s')) ->
     In dv (sel_detalles (id_venta (ventaData vc)) (almacen s')) ->
     dv_id_producto dv = id_producto p' ->
     stock p' <= 0 -> estado p' = AGOTADO)
  /\ (forall p, In p (Productos (almacen s)) -> estado p <> DISPONIBLE ->
                In p (Productos (almacen s')))
  /\ map (fun p => (id_producto p, nombre_producto p, precio p))
         (Productos (almacen s'))
     = map (fun p => (id_producto p, nombre_producto p, precio p))
           (Productos (almacen s)).
Proof.
  intros E Hpos Hv.
  apply procesarVenta_exito in Hv
    as (c0 & resto & Ecar & _ & Hfal & E1 & _ & Eid & _).
  set (lineas := sel_productos_carrito (id_carrito c0) (almacen s)) in *.
  assert (Nl : NoDup (map l_id_producto lineas))
    by (apply lineas_sin_repetir;
        [exact (pk_productos _ E) | exact (pk_productos_carrito _ E)]).
  assert (P1 : Productos (almacen s')
               = map (fun p =>
                        fold_left
                          (fun q l => if id_producto q =? l_id_producto l
                                      then descontar (l_cantidad l) q else q)
                          lineas p)
                     (Productos (almacen s))).
  { rewrite E1, efecto_venta_eq. cbn [Productos]. unfold descontar_lineas.
    apply (actualizaciones_por_fila l_id_producto (fun l => descontar (l_cantidad l))). }
  assert (Hor : forall l p, In l lineas -> In p (Productos (almacen s)) ->
                            l_id_producto l = id_producto p ->
                            estado p = DISPONIBLE /\ l_cantidad l <= stock p).
  { intros l p Hl Hp El.
    pose proof (filter_vacio_In _ _ _ Hfal Hl) as Hcabe. simpl in Hcabe.
    apply linea_origen in Hl as (pc & p0 & _ & Hp0 & _ & _ & Ed & ->).
    simpl in *.
    assert (p0 = p)
      by (apply (clave_inyectiva id_producto (Productos (almacen s)));
          [exact (pk_productos _ E) | assumption | assumption | exact El]).
    subst p0. split; [exact Ed |].
    destruct (Z.gtb_spec (pc_cantidad pc) (stock p)); [discriminate Hcabe | lia]. }
  split; [| split].
  - intros p' dv Hp' Hdv Edv Hcero.
    rewrite Eid, E1, sel_detalles_nueva_venta in Hdv by exact E.
    apply detalles_de_lineas_In in Hdv as (l & Hl & El & _).
    rewrite P1 in Hp'. apply in_map_iff in Hp' as (p & <- & Hp).
    destruct (filter_clave_unica l_id_producto (id_producto p) lineas Nl)
      as [F | (l0 & Hl0 & El0 & _)].
    + assert (X : forall x, In x lineas -> l_id_producto x <> id_producto p).
      { intros x Hx Ex.
        pose proof (filter_vacio_In _ _ _ F Hx) as Y. simpl in Y.
        apply Z.eqb_neq in Y. now apply Y. }
      rewrite (fila_sin_actualizar _ _ lineas p X) in *.
      destruct (X l Hl). congruence.
    + pose proof (fila_actualizada_una_vez l_id_producto
                    (fun l => descontar (l_cantidad l)) lineas l0 p
                    (fun _ _ => eq_refl) Nl Hl0 El0) as X.
      cbv beta in X. rewrite X in *. clear X.
      destruct (Hor l0 p Hl0 Hp El0) as [_ Hc]. specialize (Hpos p Hp).
      unfold descontar in *. simpl in *.
      replace (stock p - l_cantidad l0 - l_cantidad l0 <=? 0) with true;
        [reflexivity |].
      symmetry. apply Z.leb_le. lia.
  - intros p Hp Hno. rewrite P1. apply in_map_iff. exists p.
    split; [| exact Hp]. apply fila_sin_actualizar.
    intros l Hl El. destruct (Hor l p Hl Hp El) as [Ed _]. now apply Hno.
  - rewrite E1, efecto_venta_eq. cbn [Productos]. apply descontar_lineas_fichas.
Qed.

(** In [tienda_mixta] the bench, which is DESCONTINUADO, is in the cart of
    user 10: the checkout leaves its row as it was, and the products are the
    same three. *)
Lemma disponibilidad_tras_la_compra_en_tienda_mixta :
  In (mkProducto 102 "banco" 12000 6 DESCONTINUADO)
     (Productos
        (almacen (snd (procesarVentaDesdeCarrito 10 (en_noviembre tienda_mixta)))))
  /\ map id_producto
       (Productos
          (almacen (snd (procesarVentaDesdeCarrito 10 (en_noviembre tienda_mixta)))))
     = [100; 101; 102].
Proof.
  assert (H : procesarVentaDesdeCarrito 10 (en_noviembre tienda_mixta)
              = (Exito (valor venta_vacia
                          (fst (procesarVentaDesdeCarrito 10
                                  (en_noviembre tienda_mixta)))),
                 snd (procesarVentaDesdeCarrito 10 (en_noviembre tienda_mixta))))
    by (vm_compute; reflexivity).
  assert (E : esquema (almacen (en_noviembre tienda_mixta)))
    by (simpl; unfold tienda_mixta; esquema_concreto).
  assert (P : stock_no_negativo (almacen (en_noviembre tienda_mixta))).
  { intros p [<- | [<- | [<- | []]]]; simpl; lia. }
  destruct (disponibilidad_tras_la_compra _ _ _ _ E P H) as (_ & B & C).
  split.
  - apply B; [right; right; now left | discriminate].
  - apply (f_equal (map (fun t => fst (fst t)))) in C.
    rewrite !map_map in C. simpl in C. exact C.
Defined.

(** ** Numbers of a month, in order *)

Lemma maximo_acotado ks a B :
  Forall (fun k => k <= B) ks -> a <= B -> fold_left Z.max ks a <= B.
Proof.
  intros H. revert a. induction H as [| k ks Hk _ IH]; intros a Ha; simpl.
  - exact Ha.
  - apply IH. lia.
Qed.

(** X11.  Within a month the numbers grow.  While every invoice number of
    the current month on file is the period followed by a sequence of four
    digits below 9999, the number [generarNumeroFactura] returns is the
    period followed by a four-digit sequence between 0001 and 9999, it is
    not on file, and it is greater, as a text, than every number of the
    month on file, so that the newest invoice of the month is always the
    one [ORDER BY numero_factura DESC] finds.  Numbers of other months do
    not count: with no number of the month on file the sequence restarts at
    0001.  The generator writes nothing. *)
Theorem numeracion_creciente (s : Sistema) (n : string) (s' : Sistema) :
  (forall m, In m (map numero_factura (Facturas (almacen s))) ->
             String.prefix (periodo (hoy s)) m = true ->
             exists k, 0 <= k < 9999 /\ m = periodo (hoy s) ++ pad4 k) ->
  generarNumeroFactura s = (Exito n, s') ->
  almacen s' = almacen s
  /\ (exists k, 1 <= k <= 9999 /\ n = periodo (hoy s) ++ pad4 k)
  /\ (forall m, In m (map numero_factura (Facturas (almacen s))) ->
                String.prefix (periodo (hoy s)) m = true ->
                String.ltb m n = true)
  /\ ~ In n (map numero_factura (Facturas (almacen s)))
  /\ ((forall m, In m (map numero_factura (Facturas (almacen s))) ->
                 String.prefix (periodo (hoy s)) m = false) ->
      n = periodo (hoy s) ++ "0001").
Proof.
  intros Hs H. apply generarNumeroFactura_exito in H as [-> [A _]].
  split; [exact A |].
  assert (Hsana : numeracion_sana (periodo (hoy s))
                    (map numero_factura (Facturas (almacen s)))).
  { intros m Hm Hp. destruct (Hs m Hm Hp) as (k & Hk & E).
    exists k. split; [lia | exact E]. }
  pose proof (numero_siguiente_libre (hoy s) (almacen s) Hsana) as Hlibre.
  set (per := periodo (hoy s)) in *.
  set (nums := map numero_factura (Facturas (almacen s))) in *.
  destruct (lista_de_secuencias per (filter (String.prefix per) nums))
    as (ks & Hks & Eks).
  { intros m Hm. apply filter_In in Hm as [Hm Hq]. exact (Hsana m Hm Hq). }
  assert (Hks' : Forall (fun k => k <= 9998) ks).
  { rewrite Forall_forall in *. intros k Hk.
    assert (Hm : In (per ++ pad4 k) (filter (String.prefix per) nums))
      by (rewrite Eks; apply in_map_iff; now exists k).
    apply filter_In in Hm as [Hm Hq].
    destruct (Hs _ Hm Hq) as (k' & Hk' & E).
    apply append_inyectiva, pad4_inyectiva in E; [lia | now apply Hks | lia]. }
  assert (Hde : forall m, In m nums -> String.prefix per m = true ->
                          exists k, In k ks /\ m = per ++ pad4 k).
  { intros m Hm Hp.
    assert (X : In m (filter (String.prefix per) nums))
      by (apply filter_In; now split).
    rewrite Eks in X. apply in_map_iff in X as (k & E & Hk). now exists k. }
  assert (Hen : forall k, In k ks -> In (per ++ pad4 k) nums).
  { intros k Hk.
    assert (X : In (per ++ pad4 k) (filter (String.prefix per) nums))
      by (rewrite Eks; apply in_map_iff; now exists k).
    now apply filter_In in X as [X _]. }
  revert Hlibre. unfold numero_siguiente, sel_ultima_factura, maximo_texto.
  fold per nums. rewrite Eks. clear Eks.
  destruct Hks as [| a ks Ha Hks]; intros Hlibre.
  - cbn [map fold_left siguiente_secuencial String_de_numero] in *.
    split; [exists 1; split; [lia | reflexivity] |].
    split; [| split; [exact Hlibre | reflexivity]].
    intros m Hm Hp. destruct (Hde m Hm Hp) as (k & [] & _).
  - revert Hlibre. cbn [map fold_left].
    rewrite (maximo_texto_desde _ _ _ Hks Ha).
    cbn [siguiente_secuencial].
    pose proof (maximo_en_rango ks a Hks Ha) as Hm.
    inversion Hks' as [| ? ? Ha' Hks'']; subst.
    pose proof (maximo_acotado ks a 9998 Hks'' Ha') as Hm'.
    rewrite (slice_final_numero _ _ Hm), (pad4_parseInt _ Hm).
    cbn [String_de_numero].
    change (padStart 4 "0" (String_de_Z (fold_left Z.max ks a + 1)))
      with (pad4 (fold_left Z.max ks a + 1)).
    intros Hlibre.
    split; [exists (fold_left Z.max ks a + 1); split; [lia | reflexivity] |].
    split; [| split; [exact Hlibre |]].
    + intros m Hin Hp. destruct (Hde m Hin Hp) as (k & Hk & ->).
      pose proof (maximo_cota ks a k Hk) as Hle.
      assert (Rk : 0 <= k <= 9999).
      { assert (F : Forall (fun k => 0 <= k <= 9999) (a :: ks)) by now constructor.
        rewrite Forall_forall in F. now apply F. }
      rewrite ltb_numeros by lia. apply Z.ltb_lt. lia.
    + intros Hno. specialize (Hno _ (Hen a (or_introl eq_refl))).
      rewrite prefix_append in Hno. discriminate Hno.
Qed.

(** In [tienda_vendida] the month has the number 2024110001: in November
    the next one is 2024110002; in December the sequence starts again. *)
Lemma numeracion_creciente_en_tienda_vendida :
  generarNumeroFactura (en_noviembre tienda_vendida)
  = (Exito "2024110002", en_noviembre tienda_vendida)
  /\ String.ltb "2024110001" "2024110002" = true
  /\ ~ In "2024110002" (map numero_factura (Facturas tienda_vendida))
  /\ fst (generarNumeroFactura (mkSistema tienda_vendida (mkFecha 2024 11) None))
     = Exito "2024120001".
Proof.
  assert (H : generarNumeroFactura (en_noviembre tienda_vendida)
              = (Exito "2024110002", en_noviembre tienda_vendida))
    by (vm_compute; reflexivity).
  assert (G : generarNumeroFactura (mkSistema tienda_vendida (mkFecha 2024 11) None)
              = (Exito (valor EmptyString
                          (fst (generarNumeroFactura
                                  (mkSistema tienda_vendida (mkFecha 2024 11) None)))),
                 mkSistema tienda_vendida (mkFecha 2024 11) None))
    by (vm_compute; reflexivity).
  assert (P : forall m,
             In m (map numero_factura (Facturas tienda_vendida)) ->
             String.prefix (periodo noviembre_2024) m = true ->
             exists k, 0 <= k < 9999 /\ m = periodo noviembre_2024 ++ pad4 k).
  { intros m [<- | []] _. exists 1. split; [lia | reflexivity]. }
  assert (Q : forall m,
             In m (map numero_factura (Facturas tienda_vendida)) ->
             String.prefix (periodo (mkFecha 2024 11)) m = true ->
             exists k, 0 <= k < 9999 /\ m = periodo (mkFecha 2024 11) ++ pad4 k).
  { intros m [<- | []] X. discriminate X. }
  destruct (numeracion_creciente (en_noviembre tienda_vendida) _ _ P H)
    as (_ & _ & L & F & _).
  destruct (numeracion_creciente
              (mkSistema tienda_vendida (mkFecha 2024 11) None) _ _ Q G)
    as (_ & _ & _ & _ & R).
  split; [exact H |]. split; [apply L; [now left | reflexivity] |].
  split; [exact F |]. rewrite G. cbn [fst].
  rewrite R; [reflexivity |]. intros m [<- | []]. reflexivity.
Defined.

(** ** Looking an invoice up by its number *)

Lemma flat_map_clave_unica_texto {A B} (clave : A -> string) (h : A -> list B) l x :
  NoDup (map clave l) -> In x l ->
  (forall y, In y l -> clave y <> clave x -> h y = []) ->
  flat_map h l = h x.
Proof.
  induction l as [| y l IH]; intros N Hx Hh; [destruct Hx |].
  inversion N as [| ? ? Hy Nl]; subst. cbn [flat_map].
  destruct Hx as [-> | Hx].
  - rewrite (flat_map_vacio h l), app_nil_r; [reflexivity |].
    intros z Hz. apply Hh; [now right |].
    intros Ez. apply Hy. rewrite <- Ez. now apply in_map.
  - rewrite (Hh y (or_introl eq_refl)).
    + apply IH; [assumption | assumption |].
      intros z Hz. apply Hh. now right.
    + intros Ey. apply Hy. rewrite Ey. now apply in_map.
Qed.

Lemma sistema_sano s : averia s = None -> mkSistema (almacen s) (hoy s) None = s.
Proof. destruct s as [d f a]. simpl. now intros ->. Qed.

(** The rows the query by number gives for the number of an invoice on
    file: the invoice, once, with its sale. *)
Lemma sel_factura_por_numero_en_archivo d f :
  esquema d -> In f (Facturas d) ->
  exists v, In v (Ventas d) /\ id_venta v = f_id_venta f
            /\ sel_factura_por_numero (numero_factura f) d = [(f, v)].
Proof.
  intros E Hf.
  pose proof (fk_facturas_venta _ E f Hf) as Hv.
  apply in_map_iff in Hv as (v & Ev & Hv).
  exists v. split; [exact Hv |]. split; [exact Ev |].
  unfold sel_factura_por_numero.
  rewrite (flat_map_clave_unica_texto numero_factura _ (Facturas d) f
             (uq_facturas_numero _ E) Hf).
  - rewrite String.eqb_refl.
    rewrite (flat_map_clave_unica id_venta _ (Ventas d) v (pk_ventas _ E) Hv).
    + now rewrite <- Ev, Z.eqb_refl.
    + intros y _ Hy.
      replace (f_id_venta f =? id_venta y) with false; [reflexivity |].
      symmetry. apply Z.eqb_neq. congruence.
  - intros y _ Hy. apply String.eqb_neq in Hy. now rewrite Hy.
Qed.


(** X12.  Every invoice is found by its number.  On a store that keeps the
    keys of the schema, [buscarPorNumero] asked for the number of an
    invoice on file returns that invoice, joined with the sale it bills,
    and for a text that is the number of no invoice it returns [null].  It
    writes nothing. *)
Theorem factura_por_su_numero (s : Sistema) :
  esquema (almacen s) -> averia s = None ->
  (forall f, In f (Facturas (almacen s)) ->
     exists v, In v (Ventas (almacen s)) /\ id_venta v = f_id_venta f
               /\ buscarPorNumero (numero_factura f) s = (Exito (Some (f, v)), s))
  /\ (forall n, ~ In n (map numero_factura (Facturas (almacen s))) ->
                buscarPorNumero n s = (Exito None, s)).
Proof.
  intros E Hs. split.
  - intros f Hf.
    destruct (sel_factura_por_numero_en_archivo _ f E Hf) as (v & Hv & Ev & Hsel).
    exists v. split; [exact Hv |]. split; [exact Ev |].
    unfold buscarPorNumero, bind. rewrite (db_execute_sano _ _ Hs).
    unfold seleccionar, ret. now rewrite Hsel, (sistema_sano _ Hs).
  - intros n Hn. unfold buscarPorNumero, bind. rewrite (db_execute_sano _ _ Hs).
    unfold seleccionar, ret. rewrite (sistema_sano _ Hs).
    unfold sel_factura_por_numero. rewrite flat_map_vacio; [reflexivity |].
    intros f Hf. destruct (String.eqb (numero_factura f) n) eqn:En; [| reflexivity].
    apply String.eqb_eq in En. destruct Hn. rewrite <- En. now apply in_map.
Qed.

(** The invoice of [tienda_vendida] is found by its number; nothing is
    found for a number of December. *)
Lemma factura_por_su_numero_en_tienda_vendida :
  buscarPorNumero "2024110001" (en_noviembre tienda_vendida)
  = (Exito (Some (mkFactura 1 1 "2024110001" 83000 EMITIDA,
                  mkVenta 1 10 83000 COMPLETADA)),
     en_noviembre tienda_vendida)
  /\ buscarPorNumero "2024120001" (en_noviembre tienda_vendida)
     = (Exito None, en_noviembre tienda_vendida).
Proof.
  destruct (factura_por_su_numero (en_noviembre tienda_vendida)
              esquema_tienda_vendida eq_refl) as [A B].
  split.
  - destruct (A (mkFactura 1 1 "2024110001" 83000 EMITIDA) (or_introl eq_refl))
      as (v & [<- | []] & _ & H).
    exact H.
  - apply B. intros [X | []]. discriminate X.
Defined.

(** ** Who may read a sale or an invoice *)




Lemma obtenerVentaPorId_sano s v :
  esquema (almacen s) -> averia s = None -> In v (Ventas (almacen s)) ->
  obtenerVentaPorId (id_venta v) s =
  (Exito (mkVentaCompleta v (sel_detalles_con_producto (id_venta v) (almacen s))), s).
Proof.
  intros E Hs Hv. unfold obtenerVentaPorId, bind.
  rewrite (db_execute_sano _ _ Hs). unfold seleccionar at 1.
  rewrite (sistema_sano _ Hs).
  destruct (filter_clave_unica id_venta (id_venta v) (Ventas (almacen s))
              (pk_ventas _ E)) as [F | (x & Hx & Ex & F)].
  - pose proof (filter_vacio_In _ _ v F Hv) as X. simpl in X.
    now rewrite Z.eqb_refl in X.
  - assert (x = v)
      by (apply (clave_inyectiva id_venta (Ventas (almacen s)));
          [exact (pk_ventas _ E) | assumption | assumption | exact Ex]).
    subst x. rewrite F. rewrite (db_execute_sano _ _ Hs).
    unfold seleccionar, ret. now rewrite (sistema_sano _ Hs).
Qed.



(** ** What every request keeps *)

Lemma stock_reponer_productos dets ps :
  (forall dv, In dv dets -> 0 <= dv_cantidad dv) ->
  (forall p, In p ps -> 0 <= stock p) ->
  forall p, In p (reponer_productos dets ps) -> 0 <= stock p.
Proof.
  unfold reponer_productos. revert ps.
  induction dets as [| dv dets IH]; intros ps Hd Hp; simpl; [exact Hp |].
  apply IH; [intros x Hx; apply Hd; now right |].
  intros p Hin. apply in_map_iff in Hin as (q & <- & Hq).
  specialize (Hp q Hq). specialize (Hd dv (or_introl eq_refl)).
  destruct (id_producto q =? dv_id_producto dv); [simpl; lia | exact Hp].
Qed.

(** A store that differs in its sales and invoices only. *)
Lemma invariante_mismos_productos d d' :
  invariante d -> esquema d' ->
  Productos d' = Productos d ->
  Productos_Carrito d' = Productos_Carrito d ->
  Detalles_Venta d' = Detalles_Venta d ->
  invariante d'.
Proof.
  intros (_ & S & C & D) E' Ep Ec Ed. unfold invariante, stock_no_negativo.
  rewrite Ep, Ec, Ed. auto.
Qed.

Lemma invariante_efecto_venta idUsuario idCarrito d :
  invariante d ->
  faltantes (sel_productos_carrito idCarrito d) = [] ->
  invariante (efecto_venta idUsuario idCarrito (sel_productos_carrito idCarrito d) d).
Proof.
  intros (E & S & C & D) Hfal.
  split; [now apply esquema_efecto_venta |].
  split; [now apply stock_no_negativo_efecto_venta |].
  rewrite efecto_venta_eq. cbn [Productos_Carrito Detalles_Venta]. split.
  - intros pc Hpc. apply filter_In in Hpc as [Hpc _]. now apply C.
  - intros dv Hdv. apply in_app_or in Hdv as [Hdv | Hdv]; [now apply D |].
    apply detalles_de_lineas_In in Hdv as (l & Hl & _ & -> & _).
    apply linea_origen in Hl as (pc & p & Hpc & _ & _ & _ & _ & ->).
    simpl. now apply C.
Qed.

Lemma invariante_reponer_lineas idVenta d :
  invariante d -> invariante (reponer_lineas (sel_detalles idVenta d) d).
Proof.
  intros (E & S & C & D).
  split; [now apply esquema_reponer_lineas |].
  rewrite reponer_lineas_eq. unfold stock_no_negativo.
  cbn [con_Productos Productos Productos_Carrito Detalles_Venta].
  split; [| split; assumption].
  apply stock_reponer_productos; [| exact S].
  intros dv Hdv. apply filter_In in Hdv as [Hdv _]. now apply D.
Qed.

Lemma invariante_efecto_cancelar idVenta d :
  invariante d -> invariante (efecto_cancelar idVenta d).
Proof.
  intros I. unfold efecto_cancelar.
  apply (invariante_mismos_productos (reponer_lineas (sel_detalles idVenta d) d));
    try reflexivity.
  - now apply invariante_reponer_lineas.
  - apply esquema_efecto_cancelar. apply I.
Qed.

Lemma invariante_efecto_anular idFactura v d :
  invariante d -> invariante (efecto_anular idFactura v d).
Proof.
  intros I.
  assert (I1 : invariante (marcar_factura_anulada idFactura d)).
  { apply (invariante_mismos_productos d); try reflexivity; [exact I |].
    apply esquema_marcar_factura_anulada. apply I. }
  unfold efecto_anular. destruct (estado_venta v); [| exact I1].
  apply invariante_reponer_lineas.
  apply (invariante_mismos_productos (marcar_factura_anulada idFactura d));
    try reflexivity; [exact I1 |].
  apply esquema_marcar_venta_cancelada. apply I1.
Qed.

Lemma invariante_procesarVenta idUsuario s r s' :
  invariante (almacen s) ->
  procesarVentaDesdeCarrito idUsuario s = (r, s') -> invariante (almacen s').
Proof.
  intros I H.
  apply procesarVenta_todo_o_nada in H as [_ [[-> _] | (c0 & c & _ & Hfal & ->)]];
    [exact I | now apply invariante_efecto_venta].
Qed.

Lemma invariante_cancelarVenta idVenta idUsuario s r s' :
  invariante (almacen s) ->
  cancelarVenta idVenta idUsuario s = (r, s') -> invariante (almacen s').
Proof.
  intros I H. destruct r as [b | e].
  - apply cancelarVenta_exito in H as (_ & _ & -> & _).
    now apply invariante_efecto_cancelar.
  - apply conTransaccion_fallo in H as [-> _];
      [exact I | apply cuerpo_cancelarVenta_respeta].
Qed.

Lemma invariante_generarFactura idVenta s r s' :
  invariante (almacen s) ->
  generarFactura idVenta s = (r, s') -> invariante (almacen s').
Proof.
  intros I H.
  assert (E' : esquema (almacen s')).
  { destruct I as [E _].
    destruct (esquema_invariante s s' E) as (_ & _ & G & _). exact (G _ _ H). }
  unfold generarFactura in H.
  apply transaccion_y_lectura in H as [-> | (a & c1 & H & A)];
    [exact I | | apply cuerpo_generarFactura_respeta
     | apply obtenerFacturaPorId_solo_lee].
  apply cuerpo_generarFactura_exito in H as (v & previa & resto & _ & _ & _ & _ & T).
  cbn [trabajo] in T.
  apply (invariante_mismos_productos (almacen s)); try assumption;
    rewrite A, T; reflexivity.
Qed.

Lemma invariante_anularFactura idFactura motivo s r s' :
  invariante (almacen s) ->
  anularFactura idFactura motivo s = (r, s') -> invariante (almacen s').
Proof.
  intros I H. unfold anularFactura in H.
  apply transaccion_y_lectura in H as [-> | ([] & c1 & H & ->)];
    [exact I | | apply cuerpo_anularFactura_respeta
     | intros _; apply obtenerFacturaPorId_solo_lee].
  apply cuerpo_anularFactura_exito in H as (f & v & resto & _ & ->).
  now apply invariante_efecto_anular.
Qed.

Lemma invariante_eliminarFactura idFactura s r s' :
  invariante (almacen s) ->
  eliminarFactura idFactura s = (r, s') -> invariante (almacen s').
Proof.
  intros I H. destruct r as [b | e]; unfold eliminarFactura in H.
  - apply conTransaccion_exito in H as (c1 & H & -> & _).
    unfold cuerpo_eliminarFactura in H.
    apply bind_exito in H as (fila & c2 & H1 & H).
    apply execute_seleccionar_exito in H1 as [-> T1]. cbn [trabajo] in *.
    destruct (sel_factura idFactura (almacen s)); [discriminate H |].
    apply bind_exito in H as ([] & c3 & H2 & H).
    apply execute_modificar_exito in H2. inversion H; subst.
    rewrite H2, T1.
    apply (invariante_mismos_productos (almacen s)); try reflexivity;
      [exact I |]. apply esquema_borrar_factura. apply I.
  - apply conTransaccion_fallo in H as [-> _];
      [exact I | apply cuerpo_eliminarFactura_respeta].
Qed.

Lemma invariante_marcarComoPagada idFactura s r s' :
  invariante (almacen s) ->
  marcarComoPagada idFactura s = (r, s') -> invariante (almacen s').
Proof.
  intros I H.
  assert (E' : esquema (almacen s')).
  { destruct I as [E _].
    destruct (esquema_invariante s s' E) as (_ & _ & _ & _ & _ & G).
    exact (G _ _ H). }
  unfold marcarComoPagada, bind in H.
  destruct (db_execute (pagar_factura idFactura) s) as [[n | e] s1] eqn:P.
  - assert (A1 : almacen s1
                 = con_Facturas (almacen s)
                     (map (fun f =>
                             if (id_factura f =? idFactura)
                                && estado_factura_eqb (f_estado f) EMITIDA
                             then con_estado_factura f PAGADA else f)
                          (Facturas (almacen s)))).
    { unfold db_execute in P.
      destruct (pulso s) as [[[] | e0] s0] eqn:Q; [| discriminate P].
      apply pulso_exterior in Q as [Q _]. unfold pagar_factura in P.
      inversion P; subst. cbn [almacen]. now rewrite Q. }
    assert (A2 : almacen s' = almacen s1).
    { destruct n; [inversion H; reflexivity |].
      now apply obtenerFacturaPorId_solo_lee in H as [A2 _]. }
    apply (invariante_mismos_productos (almacen s)); try assumption;
      rewrite A2, A1; reflexivity.
  - inversion H; subst. unfold db_execute in P.
    destruct (pulso s) as [[[] | e0] s0] eqn:Q.
    + unfold pagar_factura in P. discriminate P.
    + inversion P; subst. apply pulso_exterior in Q as [-> _]. exact I.
Qed.

Lemma invariante_atender p s :
  invariante (almacen s) -> invariante (almacen (atender p s)).
Proof.
  intros I. destruct p as [u | id u | idVenta | id | id motivo | id]; simpl.
  - unfold procesarCompra, bind.
    destruct (procesarVentaDesdeCarrito u s) as [[venta | e] s1] eqn:V.
    + pose proof (invariante_procesarVenta _ _ _ _ I V) as I1.
      destruct (generarFactura (id_venta (ventaData venta)) s1)
        as [[factura | e] s2] eqn:G;
        exact (invariante_generarFactura _ _ _ _ I1 G).
    + exact (invariante_procesarVenta _ _ _ _ I V).
  - unfold cancelarCompra.
    exact (invariante_cancelarVenta _ _ _ _ _ I (surjective_pairing _)).
  - exact (invariante_generarFactura _ _ _ _ I (surjective_pairing _)).
  - exact (invariante_marcarComoPagada _ _ _ _ I (surjective_pairing _)).
  - exact (invariante_anularFactura _ _ _ _ _ I (surjective_pairing _)).
  - exact (invariante_eliminarFactura _ _ _ _ I (surjective_pairing _)).
Qed.

(** X14.  What holds of the store after any history of requests.  Take a
    store that keeps the keys of the schema, with no stock below zero and no
    negative quantity in a cart or in a sale line.  After any sequence of
    purchases, cancellations, issuances, payments, voidings and deletions of
    invoices, served one after the other, on whatever dates and whichever
    of their statements the store rejects, the store still keeps the keys,
    no product has a stock below zero, no sale has two invoices and no two
    invoices carry the same number. *)
Theorem invariante_de_las_peticiones
  (ps : list (Fecha * option nat * Peticion)) (d : DB) :
  invariante d ->
  invariante (atender_en_orden ps d)
  /\ stock_no_negativo (atender_en_orden ps d)
  /\ (forall f g,
        In f (Facturas (atender_en_orden ps d)) ->
        In g (Facturas (atender_en_orden ps d)) ->
        f_id_venta f = f_id_venta g \/ numero_factura f = numero_factura g ->
        f = g).
Proof.
  intros I.
  assert (J : invariante (atender_en_orden ps d)).
  { unfold atender_en_orden. revert d I.
    induction ps as [| [[fecha acepta] p] ps IH]; intros d I; [exact I |].
    cbn [fold_left]. apply IH.
    apply (invariante_atender p (mkSistema d fecha acepta)). exact I. }
  split; [exact J |]. split; [apply J |].
  destruct J as [E _]. intros f g Hf Hg [Ev | En].
  - revert Ev. generalize f g Hf Hg. clear f g Hf Hg.
    pose proof (uq_facturas_venta _ E) as N.
    induction (Facturas (atender_en_orden ps d)) as [| x l IH];
      intros f g Hf Hg Ev; [destruct Hf |].
    inversion N as [| ? ? Hx Nl]; subst.
    destruct Hf as [-> | Hf], Hg as [-> | Hg].
    + reflexivity.
    + exfalso. apply Hx. rewrite Ev. now apply in_map.
    + exfalso. apply Hx. rewrite <- Ev. now apply in_map.
    + exact (IH Nl f g Hf Hg Ev).
  - revert En. generalize f g Hf Hg. clear f g Hf Hg.
    pose proof (uq_facturas_numero _ E) as N.
    induction (Facturas (atender_en_orden ps d)) as [| x l IH];
      intros f g Hf Hg En; [destruct Hf |].
    inversion N as [| ? ? Hx Nl]; subst.
    destruct Hf as [-> | Hf], Hg as [-> | Hg].
    + reflexivity.
    + exfalso. apply Hx. rewrite En. now apply in_map.
    + exfalso. apply Hx. rewrite <- En. now apply in_map.
    + exact (IH Nl f g Hf Hg En).
Qed.

(** The history of [tienda]: a purchase, a cancellation during which the
    store rejects its third statement, and a voiding in December. *)
Lemma invariante_de_las_peticiones_en_tienda :
  stock_no_negativo
    (atender_en_orden
       [(noviembre_2024, None, ProcesarCompra 10);
        (noviembre_2024, Some 2%nat, CancelarCompra 1 10);
        (mkFecha 2024 11, None, AnularFactura 1 None)]
       tienda).
Proof.
  assert (I : invariante tienda).
  { split; [exact esquema_tienda |]. split; [exact stock_no_negativo_tienda |].
    split; por_filas. }
  destruct (invariante_de_las_peticiones
              [(noviembre_2024, None, ProcesarCompra 10);
               (noviembre_2024, Some 2%nat, CancelarCompra 1 10);
               (mkFecha 2024 11, None, AnularFactura 1 None)]
              tienda I) as (_ & S & _).
  exact S.
Defined.

(** ** A purchase that goes through *)

Lemma vender_lineas_sano idVenta lineas :
  (forall l, In l lineas -> decimal_10_2 (l_subtotal l) = true) ->
  forall c, averia (fuera c) = None ->
    para_cada
      (fun producto =>
         execute (insertar_detalle idVenta producto) ;;;
         execute (modificar (descontar_stock (l_cantidad producto)
                               (l_id_producto producto))))
      lineas c
    = (Exito tt,
       mkConexion (fold_left (fun acc l => vender_linea idVenta l acc) lineas
                             (trabajo c))
                  (fuera c)).
Proof.
  induction lineas as [| l lineas IH]; intros Hr c Hs.
  - destruct c. reflexivity.
  - cbn [para_cada fold_left]. unfold bind at 1. unfold bind at 1.
    rewrite execute_sano by exact Hs. unfold insertar_detalle at 1.
    rewrite (Hr l (or_introl eq_refl)).
    rewrite execute_sano by exact Hs. unfold modificar at 1.
    cbn [trabajo fuera].
    rewrite IH; [reflexivity | intros x Hx; apply Hr; now right | exact Hs].
Qed.

(** The writes of a checkout on a store that rejects nothing. *)
Lemma cuerpo_escritura_sana idUsuario idCarrito lineas c :
  averia (fuera c) = None -> importes_en_rango lineas ->
  cuerpo_escritura_de_compra idUsuario idCarrito lineas c
  = (Exito (auto_venta (trabajo c)),
     mkConexion (efecto_venta idUsuario idCarrito lineas (trabajo c)) (fuera c)).
Proof.
  intros Hs [Ht Hl]. unfold cuerpo_escritura_de_compra.
  unfold bind at 1. rewrite execute_sano by exact Hs. unfold insertar_venta at 1.
  rewrite Ht. cbn [trabajo fuera]. unfold bind at 1.
  rewrite (vender_lineas_sano _ _ Hl) by exact Hs. cbn [trabajo fuera].
  unfold bind at 1. rewrite execute_sano by exact Hs. unfold modificar at 1.
  cbn [trabajo fuera]. reflexivity.
Qed.

Lemma cuerpo_procesarVenta_sano idUsuario s c0 resto :
  averia s = None ->
  sel_carrito idUsuario (almacen s) = c0 :: resto ->
  sel_productos_carrito (id_carrito c0) (almacen s) <> [] ->
  faltantes (sel_productos_carrito (id_carrito c0) (almacen s)) = [] ->
  importes_en_rango (sel_productos_carrito (id_carrito c0) (almacen s)) ->
  cuerpo_procesarVenta idUsuario (mkConexion (almacen s) s)
  = (Exito (auto_venta (almacen s)),
     mkConexion
       (efecto_venta idUsuario (id_carrito c0)
          (sel_productos_carrito (id_carrito c0) (almacen s)) (almacen s))
       s).
Proof.
  intros Hs Hc Hne Hfal Hr. unfold cuerpo_procesarVenta. unfold bind at 1.
  rewrite execute_sano by exact Hs. unfold seleccionar at 1.
  cbn [trabajo fuera]. rewrite Hc. cbn iota beta zeta.
  unfold bind at 1. rewrite execute_sano by exact Hs. unfold seleccionar at 1.
  cbn [trabajo fuera].
  destruct (sel_productos_carrito (id_carrito c0) (almacen s)) as [| l0 ls] eqn:L;
    [now destruct Hne |].
  unfold bind at 1. rewrite validar_stock_eq, Hfal.
  exact (cuerpo_escritura_sana idUsuario (id_carrito c0) (l0 :: ls)
           (mkConexion (almacen s) s) Hs Hr).
Qed.

Lemma procesarVenta_sano idUsuario s c0 resto :
  esquema (almacen s) -> averia s = None ->
  sel_carrito idUsuario (almacen s) = c0 :: resto ->
  sel_productos_carrito (id_carrito c0) (almacen s) <> [] ->
  faltantes (sel_productos_carrito (id_carrito c0) (almacen s)) = [] ->
  importes_en_rango (sel_productos_carrito (id_carrito c0) (almacen s)) ->
  procesarVentaDesdeCarrito idUsuario s
  = (Exito
       (mkVentaCompleta
          (mkVenta (auto_venta (almacen s)) idUsuario
             (totalVenta (sel_productos_carrito (id_carrito c0) (almacen s)))
             COMPLETADA)
          (filas_de_lineas (auto_venta (almacen s)) (auto_detalle (almacen s))
             (sel_productos_carrito (id_carrito c0) (almacen s)))),
     mkSistema
       (efecto_venta idUsuario (id_carrito c0)
          (sel_productos_carrito (id_carrito c0) (almacen s)) (almacen s))
       (hoy s) None).
Proof.
  intros E Hs Hc Hne Hfal Hr. unfold procesarVentaDesdeCarrito. unfold bind at 1.
  rewrite (conTransaccion_sano _ _ _ _ Hs
             (cuerpo_procesarVenta_sano _ _ _ _ Hs Hc Hne Hfal Hr)).
  set (lineas := sel_productos_carrito (id_carrito c0) (almacen s)).
  set (d1 := efecto_venta idUsuario (id_carrito c0) lineas (almacen s)).
  set (v := mkVenta (auto_venta (almacen s)) idUsuario (totalVenta lineas) COMPLETADA).
  assert (E1 : esquema d1) by now apply esquema_efecto_venta.
  assert (Hv : In v (Ventas d1)).
  { unfold d1. rewrite efecto_venta_eq. cbn [Ventas]. apply in_or_app.
    right. now left. }
  pose proof (obtenerVentaPorId_sano (mkSistema d1 (hoy s) None) v E1 eq_refl Hv)
    as R.
  cbn [id_venta v almacen] in R. rewrite R. do 3 f_equal.
  now apply sel_detalles_con_producto_nueva_venta.
Qed.

(** X15.  A purchase that nothing stands against goes through.  On a store
    that keeps the keys of the schema and rejects no statement, when the
    user has a cart with at least one line of a DISPONIBLE product, no line
    asks for more than the stock, the subtotal of every line and their sum
    fit in their [DECIMAL(10,2)] columns, and the invoice numbers of the
    month on file carry a sequence of four digits, [procesarCompra] returns
    the sale and its invoice.  The sale is the new row of [Ventas], with the lines
    of the cart; the invoice is EMITIDA, bills that sale with the total of
    the sale, and carries the next number of the month; the store is the
    one of the checkout with that invoice added. *)
Theorem compra_lograda
  (s : Sistema) (idUsuario : Z) (c0 : Carrito) (resto : list Carrito) :
  esquema (almacen s) -> averia s = None ->
  sel_carrito idUsuario (almacen s) = c0 :: resto ->
  sel_productos_carrito (id_carrito c0) (almacen s) <> [] ->
  faltantes (sel_productos_carrito (id_carrito c0) (almacen s)) = [] ->
  importes_en_rango (sel_productos_carrito (id_carrito c0) (almacen s)) ->
  numeracion_sana (periodo (hoy s)) (map numero_factura (Facturas (almacen s))) ->
  let lineas := sel_productos_carrito (id_carrito c0) (almacen s) in
  let venta :=
    mkVenta (auto_venta (almacen s)) idUsuario (totalVenta lineas) COMPLETADA in
  let factura :=
    mkFactura (auto_factura (almacen s)) (auto_venta (almacen s))
      (numero_siguiente (hoy s) (almacen s)) (totalVenta lineas) EMITIDA in
  let filas :=
    filas_de_lineas (auto_venta (almacen s)) (auto_detalle (almacen s)) lineas in
  procesarCompra idUsuario s
  = (Exito (mkVentaCompleta venta filas, mkFacturaCompleta factura venta filas),
     mkSistema
       (poner_factura (auto_venta (almacen s))
          (numero_siguiente (hoy s) (almacen s)) (totalVenta lineas)
          (efecto_venta idUsuario (id_carrito c0) lineas (almacen s)))
       (hoy s) None).
Proof.
  intros E Hs Hc Hne Hfal Hr Hnum lineas venta factura filas.
  unfold procesarCompra. unfold bind at 1.
  rewrite (procesarVenta_sano _ _ _ _ E Hs Hc Hne Hfal Hr).
  fold lineas. fold venta. fold filas. cbn [ventaData id_venta venta].
  set (d1 := efecto_venta idUsuario (id_carrito c0) lineas (almacen s)).
  assert (E1 : esquema d1) by now apply esquema_efecto_venta.
  assert (F1 : Facturas d1 = Facturas (almacen s))
    by (unfold d1; rewrite efecto_venta_eq; reflexivity).
  assert (Hv : In venta (Ventas d1)).
  { unfold d1. rewrite efecto_venta_eq. cbn [Ventas]. apply in_or_app.
    right. now left. }
  assert (N1 : numero_siguiente (hoy s) d1 = numero_siguiente (hoy s) (almacen s))
    by (unfold numero_siguiente, sel_ultima_factura; now rewrite F1).
  pose proof (generarFactura_sano (mkSistema d1 (hoy s) None) venta E1 eq_refl
                Hv eq_refl) as G.
  cbn [almacen hoy id_venta total_venta venta] in G.
  unfold bind at 1. rewrite G.
  - assert (A1 : auto_factura d1 = auto_factura (almacen s))
      by (unfold d1; rewrite efecto_venta_eq; reflexivity).
    assert (D1 : forall i n m,
               sel_detalles_con_producto (auto_venta (almacen s))
                 (poner_factura i n m d1) = filas).
    { intros i n m.
      change (sel_detalles_con_producto (auto_venta (almacen s)) d1 = filas).
      now apply sel_detalles_con_producto_nueva_venta. }
    rewrite N1, A1, D1. reflexivity.
  - rewrite F1. intros f Hf Ef.
    apply (fk_facturas_venta _ E) in Hf.
    apply in_map_iff in Hf as (w & Ew & Hw).
    apply (auto_venta_libre _ E) in Hw. lia.
  - rewrite N1, F1. now apply numero_siguiente_libre.
Qed.

(** The purchase of user 10 in [tienda] goes through: the store is
    [tienda_vendida] and the invoice is the first of November 2024. *)
Lemma compra_lograda_en_tienda :
  almacen (snd (procesarCompra 10 (en_noviembre tienda))) = tienda_vendida
  /\ exists venta factura,
       fst (procesarCompra 10 (en_noviembre tienda)) = Exito (venta, factura)
       /\ numero_factura (facturaData factura) = "2024110001"
       /\ monto_total (facturaData factura) = 83000.
Proof.
  assert (Hne : sel_productos_carrito (id_carrito (mkCarrito 1 10))
                  (almacen (en_noviembre tienda)) <> [])
    by (vm_compute; discriminate).
  assert (Hn : numeracion_sana (periodo (hoy (en_noviembre tienda)))
                 (map numero_factura (Facturas (almacen (en_noviembre tienda)))))
    by (intros n []).
  assert (Hr : importes_en_rango
                 (sel_productos_carrito (id_carrito (mkCarrito 1 10))
                    (almacen (en_noviembre tienda)))).
  { split; [reflexivity |]. intros l Hl. vm_compute in Hl.
    destruct Hl as [<- | [<- | []]]; reflexivity. }
  pose proof (compra_lograda (en_noviembre tienda) 10 (mkCarrito 1 10) []
                esquema_tienda eq_refl eq_refl Hne eq_refl Hr Hn) as H.
  cbv zeta in H. rewrite H. split; [vm_compute; reflexivity |].
  eexists. eexists. split; [reflexivity |]. split; vm_compute; reflexivity.
Defined.

(** ** Compensations that go through *)






(** ** An error after the commit *)

(** X17.  An error answer does not mean that nothing was written.  The
    checkout and the voiding read the row back after their transaction has
    been committed.  When that reading is rejected, the caller gets the
    error while the store keeps what was committed: for the checkout, the
    new sale is on file and the cart has been emptied, so that trying again
    cannot sell the cart a second time; for the voiding, the invoice is
    ANULADA. *)
Theorem error_tras_confirmar
  (s : Sistema) (idUsuario idVenta : Z) (s1 : Sistema) (e : Error) (s2 : Sistema)
  (t : Sistema) (idFactura : Z) (motivo : option string) (t1 : Sistema)
  (e' : Error) (t2 : Sistema) :
  esquema (almacen s) ->
  conTransaccion (cuerpo_procesarVenta idUsuario) s = (Exito idVenta, s1) ->
  obtenerVentaPorId idVenta s1 = (Fallo e, s2) ->
  conTransaccion (cuerpo_anularFactura idFactura) t = (Exito tt, t1) ->
  obtenerFacturaPorId idFactura t1 = (Fallo e', t2) ->
  (procesarVentaDesdeCarrito idUsuario s = (Fallo e, s2)
   /\ (exists v, In v (Ventas (almacen s2)) /\ ~ In v (Ventas (almacen s))
                 /\ v_id_usuario v = idUsuario /\ estado_venta v = COMPLETADA)
   /\ exists c0 resto,
        sel_carrito idUsuario (almacen s2) = c0 :: resto
        /\ sel_productos_carrito (id_carrito c0) (almacen s2) = [])
  /\
  (anularFactura idFactura motivo t = (Fallo e', t2)
   /\ factura_en_estado idFactura ANULADA (almacen t2)).
Proof.
  intros E T R T' R'. split.
  - split; [unfold procesarVentaDesdeCarrito, bind; now rewrite T |].
    apply conTransaccion_exito in T as (c1 & H1 & A1 & _).
    apply cuerpo_procesarVenta_exito in H1
      as (c0 & resto & Ecar & _ & _ & _ & Etr). simpl in *.
    apply obtenerVentaPorId_solo_lee in R as [A2 _].
    rewrite A2, A1, Etr, efecto_venta_eq.
    cbn [Ventas Carritos Productos_Carrito]. split.
    + exists (mkVenta (auto_venta (almacen s)) idUsuario
                (totalVenta (sel_productos_carrito (id_carrito c0) (almacen s)))
                COMPLETADA).
      split; [apply in_or_app; right; now left |].
      split; [| split; reflexivity].
      intros Hv. apply (auto_venta_libre _ E) in Hv. simpl in Hv. lia.
    + exists c0, resto. split; [exact Ecar |].
      apply sel_productos_carrito_sin_filas. cbn [Productos_Carrito].
      intros pc Hpc. apply filter_In in Hpc as [_ X].
      apply negb_true_iff in X. now apply Z.eqb_neq.
  - split; [unfold anularFactura, bind; now rewrite T' |].
    apply conTransaccion_exito in T' as (c1 & H1 & A1 & _).
    apply cuerpo_anularFactura_exito in H1 as (f & v & resto & Hsel & Etr).
    simpl in *.
    apply obtenerFacturaPorId_solo_lee in R' as [A2 _].
    assert (Hin : In (f, v) (sel_factura_anulable idFactura (almacen t)))
      by (rewrite Hsel; now left).
    apply sel_factura_anulable_In in Hin as (Hf & _ & Ef & _).
    apply (factura_anulada_al_marcar idFactura (almacen t)).
    + rewrite <- Ef. now apply in_map.
    + rewrite A2, A1, Etr. apply facturas_efecto_anular.
Qed.

(** In [tienda] the store accepts the nine statements of the checkout and
    rejects the reading that follows; in [tienda_vendida] it accepts the
    seven statements of the voiding and rejects the reading. *)
Lemma error_tras_confirmar_en_tiendas :
  fst (procesarVentaDesdeCarrito 10 (mkSistema tienda noviembre_2024 (Some 9%nat)))
  = Fallo AlmacenNoDisponible
  /\ Ventas (almacen (snd (procesarVentaDesdeCarrito 10
                             (mkSistema tienda noviembre_2024 (Some 9%nat)))))
     = [mkVenta 1 10 83000 COMPLETADA]
  /\ fst (anularFactura 1 None (mkSistema tienda_vendida noviembre_2024 (Some 7%nat)))
     = Fallo AlmacenNoDisponible
  /\ factura_en_estado 1 ANULADA
       (almacen (snd (anularFactura 1 None
                        (mkSistema tienda_vendida noviembre_2024 (Some 7%nat))))).
Proof.
  assert (T : conTransaccion (cuerpo_procesarVenta 10)
                (mkSistema tienda noviembre_2024 (Some 9%nat))
              = (Exito 1, mkSistema (almacen tras_venta) noviembre_2024 (Some 0%nat)))
    by (vm_compute; reflexivity).
  assert (R : obtenerVentaPorId 1
                (mkSistema (almacen tras_venta) noviembre_2024 (Some 0%nat))
              = (Fallo AlmacenNoDisponible, tras_venta))
    by (vm_compute; reflexivity).
  assert (T' : conTransaccion (cuerpo_anularFactura 1)
                 (mkSistema tienda_vendida noviembre_2024 (Some 7%nat))
               = (Exito tt, mkSistema tienda_anulada noviembre_2024 (Some 0%nat)))
    by (vm_compute; reflexivity).
  assert (R' : obtenerFacturaPorId 1
                 (mkSistema tienda_anulada noviembre_2024 (Some 0%nat))
               = (Fallo AlmacenNoDisponible, en_noviembre tienda_anulada))
    by (vm_compute; reflexivity).
  destruct (error_tras_confirmar
              (mkSistema tienda noviembre_2024 (Some 9%nat)) 10 1 _ _ _
              (mkSistema tienda_vendida noviembre_2024 (Some 7%nat)) 1 None _ _ _
              esquema_tienda T R T' R') as [(P & _ & _) (Q & F)].
  rewrite P, Q. cbn [fst snd].
  split; [reflexivity |]. split; [vm_compute; reflexivity |].
  split; [reflexivity | exact F].
Defined.

(** ** Identifiers that name nothing *)

(** X18.  Asking for what is not on file.  For an identifier that names no
    sale, [obtenerVentaPorId] throws 'Venta no encontrada' and the handler
    of the sale detail answers 404 with that message.  For an identifier
    that names no invoice, [obtenerFacturaPorId] and [eliminarFactura]
    throw 'Factura no encontrada'.  Nothing is written, whatever the health
    of the store. *)
Theorem lo_que_no_esta_en_archivo
  (s : Sistema) (id idUsuario : Z) (permisos : option (list string)) :
  ((forall v, In v (Ventas (almacen s)) -> id_venta v <> id) ->
   averia s = None ->
   obtenerVentaPorId id s = (Fallo VentaNoEncontrada, s)
   /\ obtenerDetalleCompra id idUsuario permisos s
      = (error (MensajeDe VentaNoEncontrada) 404 None, s))
  /\
  ((forall f, In f (Facturas (almacen s)) -> id_factura f <> id) ->
   (averia s = None -> obtenerFacturaPorId id s = (Fallo FacturaNoEncontrada, s))
   /\ exists e s',
        eliminarFactura id s = (Fallo e, s')
        /\ almacen s' = almacen s
        /\ (averia s = None -> e = FacturaNoEncontrada /\ s' = s)).
Proof.
  split.
  - intros Hno Hs.
    assert (R : obtenerVentaPorId id s = (Fallo VentaNoEncontrada, s)).
    { unfold obtenerVentaPorId. unfold bind at 1.
      rewrite db_execute_sano by exact Hs. unfold seleccionar at 1.
      rewrite (sistema_sano _ Hs), filter_vacio; [reflexivity |].
      intros v Hv. apply Z.eqb_neq. now apply Hno. }
    split; [exact R |]. unfold obtenerDetalleCompra. now rewrite R.
  - intros Hno. split.
    + intros Hs. unfold obtenerFacturaPorId. unfold bind at 1.
      rewrite db_execute_sano by exact Hs. unfold seleccionar at 1.
      rewrite (sistema_sano _ Hs).
      unfold sel_factura_con_venta. rewrite flat_map_vacio; [reflexivity |].
      intros f Hf. apply Hno in Hf. apply Z.eqb_neq in Hf. now rewrite Hf.
    + apply (rechazo_en_la_guarda (sel_factura id)
               (fun factura =>
                  match factura with
                  | [] => lanzar FacturaNoEncontrada
                  | _ :: _ =>
                      execute (modificar (borrar_factura id)) ;;; ret true
                  end)).
      intros c. unfold sel_factura. rewrite filter_vacio; [reflexivity |].
      intros f Hf. apply Z.eqb_neq. now apply Hno.
Qed.

(** There is no sale 7 and no invoice 7 in [tienda_vendida]. *)
Lemma lo_que_no_esta_en_archivo_en_tienda_vendida :
  obtenerDetalleCompra 7 10 None (en_noviembre tienda_vendida)
  = (error (MensajeDe VentaNoEncontrada) 404 None, en_noviembre tienda_vendida)
  /\ eliminarFactura 7 (en_noviembre tienda_vendida)
     = (Fallo FacturaNoEncontrada, en_noviembre tienda_vendida).
Proof.
  destruct (lo_que_no_esta_en_archivo (en_noviembre tienda_vendida) 7 10 None)
    as [A B].
  split.
  - apply A; [| reflexivity]. intros v [<- | []]. discriminate.
  - destruct B as (_ & e & s' & H & _ & K).
    + intros f [<- | []]. discriminate.
    + destruct (K eq_refl) as [-> ->]. exact H.
Defined.

(** ** The number of a deleted invoice *)

Lemma eliminarFactura_exito idFactura s b s' :
  eliminarFactura idFactura s = (Exito b, s') ->
  almacen s' = borrar_factura idFactura (almacen s) /\ hoy s' = hoy s.
Proof.
  unfold eliminarFactura. intros H.
  apply conTransaccion_exito in H as (c1 & H & A & F).
  pose proof (cuerpo_eliminarFactura_respeta _ _ _ _ H) as [_ X]. simpl in X.
  unfold cuerpo_eliminarFactura in H.
  apply bind_exito in H as (fila & c2 & H1 & H).
  apply execute_seleccionar_exito in H1 as [-> T1]. cbn [trabajo] in *.
  destruct (sel_factura idFactura (almacen s)); [discriminate H |].
  apply bind_exito in H as ([] & c3 & H2 & H).
  apply execute_modificar_exito in H2. inversion H; subst.
  split; congruence.
Qed.

(** X19.  The number of a deleted invoice is given again.  When the invoice
    just issued is deleted, the table of invoices is back to what it was
    before the issuance, and the next number [generarNumeroFactura] returns
    is the number the deleted invoice carried. *)
Theorem numero_reutilizado_tras_eliminar
  (s : Sistema) (idVenta : Z) (fc : FacturaCompleta) (s1 : Sistema)
  (b : bool) (s2 : Sistema) (n : string) (s3 : Sistema) :
  esquema (almacen s) ->
  generarFactura idVenta s = (Exito fc, s1) ->
  eliminarFactura (id_factura (facturaData fc)) s1 = (Exito b, s2) ->
  generarNumeroFactura s2 = (Exito n, s3) ->
  Facturas (almacen s2) = Facturas (almacen s)
  /\ ~ In (facturaData fc) (Facturas (almacen s2))
  /\ n = numero_factura (facturaData fc).
Proof.
  intros E G D N.
  apply (generarFactura_exito _ _ _ _ E) in G
    as (v & _ & _ & _ & A1 & F1 & Ef & _).
  apply eliminarFactura_exito in D as [A2 F2].
  apply generarNumeroFactura_exito in N as [-> _].
  assert (X : Facturas (almacen s2) = Facturas (almacen s)).
  { rewrite A2, A1, Ef. unfold borrar_factura, poner_factura.
    cbn [con_Facturas Facturas id_factura].
    rewrite filter_app. cbn [filter id_factura]. rewrite Z.eqb_refl.
    cbn [negb]. rewrite app_nil_r. apply filter_todo.
    intros f Hf. apply negb_true_iff, Z.eqb_neq.
    apply (auto_factura_libre _ E) in Hf. lia. }
  split; [exact X |]. split.
  - rewrite X. intros Hin. apply (auto_factura_libre _ E) in Hin.
    rewrite Ef in Hin. simpl in Hin. lia.
  - rewrite Ef. cbn [numero_factura].
    unfold numero_siguiente, sel_ultima_factura. now rewrite X, F2, F1.
Qed.

(** The invoice of the sale of [tienda], number 2024110001, is deleted: the
    next number is 2024110001 again. *)
Lemma numero_reutilizado_tras_eliminar_en_tienda :
  numero_factura (facturaData factura_ejemplo) = "2024110001"
  /\ fst (generarNumeroFactura (snd (eliminarFactura 1 tras_factura)))
     = Exito "2024110001".
Proof.
  assert (G : generarFactura 1 tras_venta = (Exito factura_ejemplo, tras_factura))
    by (vm_compute; reflexivity).
  assert (D : eliminarFactura (id_factura (facturaData factura_ejemplo)) tras_factura
              = (Exito true, snd (eliminarFactura 1 tras_factura)))
    by (vm_compute; reflexivity).
  assert (N : generarNumeroFactura (snd (eliminarFactura 1 tras_factura))
              = (Exito (valor EmptyString
                          (fst (generarNumeroFactura
                                  (snd (eliminarFactura 1 tras_factura))))),
                 snd (eliminarFactura 1 tras_factura)))
    by (vm_compute; reflexivity).
  destruct (numero_reutilizado_tras_eliminar tras_venta 1 factura_ejemplo
              tras_factura true _ _ _ esquema_tras_venta G D N) as (_ & _ & R).
  split; [vm_compute; reflexivity |].
  rewrite N. cbn [fst]. rewrite R. vm_compute. reflexivity.
Defined.
